(** * HangSpace: real-time fan-out and consolidated notifications

  A shallow embedding of the Socket.IO event handlers of [app.py] and of
  the persistence methods of [utils/database.py] they call, followed by
  the properties of the chat specification checked against them.

  Conventions of the embedding.
  - A MongoDB collection is the list of its documents in natural
    (insertion) order; [find_one] and [update_one] act on the first
    document that matches, [update_many] and [count_documents] on all.
  - An [ObjectId] is the number it denotes (an [N] below [16^24]); the
    text form the application passes around is a string and the two
    conversions [ObjectId(...)] and [str(...)] are modelled as written.
  - A Python [str] is held as its UTF-8 encoding; [len] and slices count
    characters, not bytes.
  - [datetime.utcnow()] is an explicit argument [now].
  - A method whose body is wrapped in [try ... except Exception] returns
    its fallback value when a step of the body raises; the raising steps
    modelled are the failed [ObjectId(...)] conversions.
  - [emit] appends to the list of emissions of the handler; who receives
    an emission is computed from the room table of the transport. An
    [emit] whose payload [json.dumps] cannot encode raises [TypeError]
    before anything is sent: it is listed, delivers to nobody, and the
    handler goes on in its [except] branch, or ends where it has none.
  - The server runs every handler on a thread of its own
    ([async_mode='threading']): module [Threads] has the states that
    interleaved database operations reach. *)

From Stdlib Require Import NArith Ascii String List Lia.
From stdpp Require Import base option gmap strings list fin_sets.

Open Scope string_scope.
Open Scope nat_scope.

(** ** Python strings *)

Module Py.

(** A Python [str] is a sequence of characters (code points); [len] and
    slicing count characters. A string of this development holds the
    UTF-8 encoding of the [str]: each character is one lead byte followed
    by its continuation bytes, the bytes [0x80] to [0xBF]. *)
Definition continuation (c : ascii) : bool :=
  let n := nat_of_ascii c in Nat.leb 128 n && Nat.ltb n 192.

Fixpoint continuations (s : string) : bool :=
  match s with
  | EmptyString => true
  | String c s' => continuation c && continuations s'
  end.

(** The encoding of one character. *)
Definition character (s : string) : bool :=
  match s with
  | EmptyString => false
  | String c rest => negb (continuation c) && continuations rest
  end.

(** The [str] made of the given characters. *)
Definition of_characters (characters : list string) : string :=
  List.fold_right String.append EmptyString characters.

(** [s[:n]]: the first [n] characters. *)
Fixpoint take (n : nat) (s : string) : string :=
  match s with
  | EmptyString => EmptyString
  | String c s' =>
      if continuation c then String c (take n s')
      else
        match n with
        | O => EmptyString
        | S n' => String c (take n' s')
        end
  end.

(** [len(s)]: the number of characters. *)
Fixpoint len (s : string) : nat :=
  match s with
  | EmptyString => 0
  | String c s' => (if continuation c then 0 else 1) + len s'
  end.

(** Truthiness of an optional string: [None] and [''] are falsy. *)
Definition truthy (o : option string) : bool :=
  match o with
  | Some s => negb (String.eqb s "")
  | None => false
  end.

End Py.

(** ** ObjectId: 24 hexadecimal digits *)

Module Oid.

#[local] Open Scope N_scope.

Definition hexval (c : ascii) : option N :=
  let n := N_of_ascii c in
  if (48 <=? n) && (n <=? 57) then Some (n - 48)
  else if (97 <=? n) && (n <=? 102) then Some (n - 87)
  else if (65 <=? n) && (n <=? 70) then Some (n - 55)
  else None.

Definition hexdigit (d : N) : ascii :=
  ascii_of_N (if d <? 10 then 48 + d else 87 + d).

Fixpoint parse_hex (s : string) (acc : N) : option N :=
  match s with
  | EmptyString => Some acc
  | String c s' =>
      match hexval c with
      | Some v => parse_hex s' (acc * 16 + v)
      | None => None
      end
  end.

Fixpoint digits (k : nat) (n : N) (rest : string) : string :=
  match k with
  | O => rest
  | S k' => digits k' (n / 16) (String (hexdigit (n mod 16)) rest)
  end.

(** [ObjectId(s)] for a string [s]: [None] stands for [InvalidId]. *)
Definition ObjectId (s : string) : option N :=
  if Nat.eqb (String.length s) 24 then parse_hex s 0 else None.

(** [str(oid)] *)
Definition str (o : N) : string := digits 24 o EmptyString.

(** The values an ObjectId can take. *)
Definition valid (o : N) : Prop := o < 16 ^ 24.

#[global] Arguments ObjectId : simpl never.
#[global] Arguments str : simpl never.

End Oid.

Abbreviation oid := N.

(** ** Documents of the four collections *)

(** [user_profiles] *)
Record profile_doc := Profile {
  pf_id : oid;
  pf_username : string;
  pf_display_name : option string;
  pf_is_online : option bool;
  pf_status : option string;
  pf_last_seen : option N
}.

(** [chats] *)
Record chat_doc := Chat {
  ch_id : oid;
  ch_participants : list oid;
  ch_is_group : option bool;
  ch_name : option string;
  ch_last_activity : option N
}.

(** [messages]; an absent [read_by] array is the empty list. *)
Record message_doc := Message {
  msg_id : oid;
  msg_chat_id : oid;
  msg_sender_id : oid;
  msg_content : string;
  msg_type : string;
  msg_timestamp : N;
  msg_is_edited : bool;
  msg_is_deleted : bool;
  msg_read_by : list oid
}.

(** The [data] sub-document of a notification: the keys written by
  [create_consolidated_message_notification] and by
  [mark_message_as_read]; [None] is an absent key. *)
Record ndata := NData {
  d_message_id : option string;
  d_chat_id : option string;
  d_sender_id : option string;
  d_sender_name : option string;
  d_content : option string;
  d_chat_name : option string;
  d_message_count : option nat;
  d_latest_content : option string;
  d_latest_timestamp : option N;
  d_reader_id : option string
}.

(** [notifications] *)
Record notification_doc := Notification {
  nt_id : oid;
  nt_user_id : oid;
  nt_type : string;
  nt_message : string;
  nt_data : ndata;
  nt_is_read : bool;
  nt_created_at : N;
  nt_updated_at : option N;
  nt_read_at : option N
}.

#[global] Instance profile_doc_eq_dec : EqDecision profile_doc.
Proof. solve_decision. Defined.
#[global] Instance chat_doc_eq_dec : EqDecision chat_doc.
Proof. solve_decision. Defined.
#[global] Instance message_doc_eq_dec : EqDecision message_doc.
Proof. solve_decision. Defined.
#[global] Instance ndata_eq_dec : EqDecision ndata.
Proof. solve_decision. Defined.
#[global] Instance notification_doc_eq_dec : EqDecision notification_doc.
Proof. solve_decision. Defined.

(** The dictionary [message_data] built by the handlers and handed to the
  notification code; [timestamp] is the message timestamp rendered by
  [isoformat()], kept as the instant it renders. *)
Record message_data := MessageData {
  md_message_id : string;
  md_chat_id : string;
  md_sender_id : string;
  md_sender_username : string;
  md_content : string;
  md_type : string;
  md_timestamp : N;
  md_chat_name : option string
}.

(** A notification as returned to the caller: the document with its [_id]
  replaced by [str(_id)]. *)
Record notification_view := NView {
  nv_id : string;
  nv_doc : notification_doc
}.

#[global] Instance message_data_eq_dec : EqDecision message_data.
Proof. solve_decision. Defined.
#[global] Instance notification_view_eq_dec : EqDecision notification_view.
Proof. solve_decision. Defined.

(** ** Collections *)

Module Coll.
Section Coll.
Context {A : Type} `{EqDecision A}.

Definition find_one (q : A → bool) (c : list A) : option A := List.find q c.

(** The collection after [update_one]: the first match is rewritten. *)
Fixpoint update_one (q : A → bool) (f : A → A) (c : list A) : list A :=
  match c with
  | [] => []
  | x :: c' => if q x then f x :: c' else x :: update_one q f c'
  end.

(** [result.modified_count] of [update_one]. *)
Definition modified_one (q : A → bool) (f : A → A) (c : list A) : nat :=
  match find_one q c with
  | Some x => if decide (f x = x) then 0 else 1
  | None => 0
  end.

Definition update_many (q : A → bool) (f : A → A) (c : list A) : list A :=
  List.map (λ x, if q x then f x else x) c.

(** [result.modified_count] of [update_many]. *)
Definition modified_many (q : A → bool) (f : A → A) (c : list A) : nat :=
  List.length (List.filter (λ x, q x && negb (bool_decide (f x = x))) c).

Definition count_documents (q : A → bool) (c : list A) : nat :=
  List.length (List.filter q c).

Definition delete_many (q : A → bool) (c : list A) : list A :=
  List.filter (λ x, negb (q x)) c.

End Coll.
End Coll.

(** ** The database *)

Record db := Db {
  user_profiles : list profile_doc;
  chats : list chat_doc;
  messages : list message_doc;
  notifications : list notification_doc;
  next_oid : oid      (* the ObjectId the next [insert_one] generates *)
}.

Definition with_user_profiles (d : db) (c : list profile_doc) : db :=
  Db c (chats d) (messages d) (notifications d) (next_oid d).
Definition with_chats (d : db) (c : list chat_doc) : db :=
  Db (user_profiles d) c (messages d) (notifications d) (next_oid d).
Definition with_messages (d : db) (c : list message_doc) : db :=
  Db (user_profiles d) (chats d) c (notifications d) (next_oid d).
Definition with_notifications (d : db) (c : list notification_doc) : db :=
  Db (user_profiles d) (chats d) (messages d) c (next_oid d).
Definition bump_oid (d : db) : db :=
  Db (user_profiles d) (chats d) (messages d) (notifications d) (N.succ (next_oid d)).

(** ** utils/database.py: class DatabaseManager *)

Module DatabaseManager.
Import Oid Coll.

(** [{'_id': o}] *)
Definition profile_by_id (o : oid) (p : profile_doc) : bool := N.eqb (pf_id p) o.
Definition message_by_id (o : oid) (m : message_doc) : bool := N.eqb (msg_id m) o.
Definition notification_by_id (o : oid) (n : notification_doc) : bool := N.eqb (nt_id n) o.

(** [get_user_profile(profile_id)], lines 812-836. *)
Definition get_user_profile (d : db) (profile_id : string) : option profile_doc :=
  if String.eqb profile_id "" then None
  else
    match ObjectId profile_id with
    | None => None
    | Some o =>
        match find_one (profile_by_id o) (user_profiles d) with
        | Some profile =>
            let status :=
              match pf_status profile with
              | None => "offline"
              | Some st =>
                  if default false (pf_is_online profile) && String.eqb st "offline"
                  then "online" else st
              end in
            Some (Profile (pf_id profile) (pf_username profile) (pf_display_name profile)
                          (pf_is_online profile) (Some status) (pf_last_seen profile))
        | None => None
        end
    end.

(** [p.get('display_name', p['username']) if p else 'Unknown'], the
    expression used at lines 1739 (database.py), 1067 and 1848 (app.py). *)
Definition display_name_of (p : option profile_doc) : string :=
  match p with
  | Some p => default (pf_username p) (pf_display_name p)
  | None => "Unknown"
  end.

(** The [$set] of [update_user_status]. *)
Definition set_status (status : string) (now : N) (p : profile_doc) : profile_doc :=
  Profile (pf_id p) (pf_username p) (pf_display_name p)
          (Some (String.eqb status "online")) (Some status) (Some now).

(** [update_user_status(profile_id, status)], lines 849-867. *)
Definition update_user_status (d : db) (profile_id status : string) (now : N) : db * bool :=
  match ObjectId profile_id with
  | None => (d, false)
  | Some o =>
      (with_user_profiles d
         (update_one (profile_by_id o) (set_status status now) (user_profiles d)),
       Nat.ltb 0 (modified_one (profile_by_id o) (set_status status now) (user_profiles d)))
  end.

(** [get_user_status(profile_id)], lines 869-881. *)
Definition get_user_status (d : db) (profile_id : string) : string :=
  match ObjectId profile_id with
  | None => "offline"
  | Some o =>
      match find_one (profile_by_id o) (user_profiles d) with
      | Some profile =>
          match pf_status profile with
          | Some st => st
          | None => if default false (pf_is_online profile) then "online" else "offline"
          end
      | None => "offline"
      end
  end.

(** What [get_chat] returns: the chat with [_id] and [participants]
    rendered by [str]. *)
Record chat_view := ChatView {
  cv_id : string;
  cv_participants : list string;
  cv_is_group : option bool;
  cv_name : option string
}.

(** [get_chat(chat_id, user_id)], lines 1321-1350. *)
Definition get_chat (d : db) (chat_id user_id : string) : option chat_view :=
  match ObjectId chat_id, ObjectId user_id with
  | Some c, Some u =>
      match find_one (λ ch, N.eqb (ch_id ch) c && existsb (N.eqb u) (ch_participants ch))
                     (chats d) with
      | Some chat =>
          let participants := List.map str (ch_participants chat) in
          let name :=
            if negb (default false (ch_is_group chat)) && Nat.eqb (List.length participants) 2
            then
              match List.find (λ p, negb (String.eqb p user_id)) participants with
              | Some other_participant_id =>
                  match ObjectId other_participant_id with
                  | Some o =>
                      match find_one (profile_by_id o) (user_profiles d) with
                      | Some other_user =>
                          Some (default (pf_username other_user) (pf_display_name other_user))
                      | None => ch_name chat
                      end
                  | None => ch_name chat
                  end
              | None => ch_name chat
              end
            else ch_name chat in
          Some (ChatView (str (ch_id chat)) participants (ch_is_group chat) name)
      | None => None
      end
  | _, _ => None
  end.

Definition set_last_activity (now : N) (ch : chat_doc) : chat_doc :=
  Chat (ch_id ch) (ch_participants ch) (ch_is_group ch) (ch_name ch) (Some now).

(** [create_message(chat_id, sender_id, content, message_type)],
    lines 472-501, called without [file_metadata]. *)
Definition create_message (d : db) (chat_id sender_id content message_type : string) (now : N)
  : db * option message_doc :=
  match ObjectId chat_id, ObjectId sender_id with
  | Some c, Some s =>
      let message_data := Message (next_oid d) c s content message_type now false false [] in
      let d1 := bump_oid (with_messages d (messages d ++ [message_data])%list) in
      let d2 := with_chats d1 (update_one (λ ch, N.eqb (ch_id ch) c) (set_last_activity now)
                                          (chats d1)) in
      (d2, Some message_data)
  | _, _ => (d, None)
  end.

(** [_create_notification(user_id, notification_type, message, data)],
    lines 1813-1832. *)
Definition _create_notification (d : db) (user_id notification_type message : string)
    (data : ndata) (now : N) : db * option notification_view :=
  match ObjectId user_id with
  | Some u =>
      let notification :=
        Notification (next_oid d) u notification_type message data false now None None in
      (bump_oid (with_notifications d (notifications d ++ [notification])),
       Some (NView (str (nt_id notification)) notification))
  | None => (d, None)
  end.

(** [{'$addToSet': {'read_by': u}}] *)
Definition add_to_read_by (u : oid) (m : message_doc) : message_doc :=
  if existsb (N.eqb u) (msg_read_by m) then m
  else Message (msg_id m) (msg_chat_id m) (msg_sender_id m) (msg_content m) (msg_type m)
               (msg_timestamp m) (msg_is_edited m) (msg_is_deleted m) (msg_read_by m ++ [u]).

Definition read_receipt_data (message_id reader_id chat_id : string) : ndata :=
  NData (Some message_id) (Some chat_id) None None None None None None None (Some reader_id).

(** [mark_message_as_read(message_id, user_id)], lines 1668-1701; the
    boolean is the ['success'] entry of the result. *)
Definition mark_message_as_read (d : db) (message_id user_id : string) (now : N) : db * bool :=
  match ObjectId message_id, ObjectId user_id with
  | Some m, Some u =>
      let modified_count := modified_one (message_by_id m) (add_to_read_by u) (messages d) in
      let d1 := with_messages d (update_one (message_by_id m) (add_to_read_by u) (messages d)) in
      if Nat.ltb 0 modified_count then
        match find_one (message_by_id m) (messages d1) with
        | Some message =>
            let sender_id := str (msg_sender_id message) in
            if negb (String.eqb sender_id user_id) then
              (fst (_create_notification d1 sender_id "message_read" "Your message was read"
                      (read_receipt_data message_id user_id (str (msg_chat_id message))) now),
               true)
            else (d1, true)
        | None => (d1, true)
        end
      else (d1, false)
  | _, _ => (d, false)
  end.

(** The query of line 1731: an unread ['new_message'] notification of
    [receiver] whose [data.sender_id] is [sender_id]. *)
Definition unread_from (receiver : oid) (sender_id : string) (n : notification_doc) : bool :=
  N.eqb (nt_user_id n) receiver && String.eqb (nt_type n) "new_message"
  && negb (nt_is_read n) && bool_decide (d_sender_id (nt_data n) = Some sender_id).

(** Lines 1742-1744. *)
Definition message_preview (content : string) : string :=
  if Nat.ltb 50 (Py.len content) then Py.take 47 content ++ "..." else content.

(** The [$set] of line 1755. *)
Definition set_consolidated (notification_message : string) (message_count : nat)
    (latest_content : string) (latest_timestamp now : N) (n : notification_doc)
  : notification_doc :=
  let data := nt_data n in
  Notification (nt_id n) (nt_user_id n) (nt_type n) notification_message
    (NData (d_message_id data) (d_chat_id data) (d_sender_id data) (d_sender_name data)
           (d_content data) (d_chat_name data) (Some message_count) (Some latest_content)
           (Some latest_timestamp) (d_reader_id data))
    (nt_is_read n) (nt_created_at n) (Some now) (nt_read_at n).

(** The dictionary returned on the update path, lines 1765-1771: the
    document that was found, with [message], [data.message_count] and
    [data.latest_content] overwritten. *)
Definition returned_existing (notification_message : string) (message_count : nat)
    (latest_content : string) (n : notification_doc) : notification_view :=
  let data := nt_data n in
  NView (str (nt_id n))
    (Notification (nt_id n) (nt_user_id n) (nt_type n) notification_message
       (NData (d_message_id data) (d_chat_id data) (d_sender_id data) (d_sender_name data)
              (d_content data) (d_chat_name data) (Some message_count) (Some latest_content)
              (d_latest_timestamp data) (d_reader_id data))
       (nt_is_read n) (nt_created_at n) (nt_updated_at n) (nt_read_at n)).

(** The document built on the insert path, lines 1777-1795. *)
Definition fresh_consolidated (new_id receiver : oid) (message_data : message_data)
    (sender_name notification_message : string) (now : N) : notification_doc :=
  Notification new_id receiver "new_message" notification_message
    (NData (Some (md_message_id message_data)) (Some (md_chat_id message_data))
           (Some (md_sender_id message_data)) (Some sender_name)
           (Some (md_content message_data))
           (Some (default "Chat" (md_chat_name message_data)))
           (Some 1) (Some (md_content message_data))
           (Some (md_timestamp message_data)) None)
    false now (Some now) None.

(** [create_consolidated_message_notification(message_data, receiver_id)],
    lines 1724-1807. *)
Definition create_consolidated_message_notification (d : db) (message_data : message_data)
    (receiver_id : string) (now : N) : db * option notification_view :=
  let sender_id := md_sender_id message_data in
  match ObjectId receiver_id with
  | None => (d, None)
  | Some receiver =>
      let existing_notification := find_one (unread_from receiver sender_id) (notifications d) in
      let sender_profile := get_user_profile d sender_id in
      let sender_name := display_name_of sender_profile in
      let message_preview := message_preview (md_content message_data) in
      match existing_notification with
      | Some existing_notification =>
          let message_count := default 1 (d_message_count (nt_data existing_notification)) + 1 in
          let notification_message := sender_name ++ ": " ++ message_preview in
          (with_notifications d
             (update_one (notification_by_id (nt_id existing_notification))
                (set_consolidated notification_message message_count (md_content message_data)
                   (md_timestamp message_data) now)
                (notifications d)),
           Some (returned_existing notification_message message_count
                   (md_content message_data) existing_notification))
      | None =>
          let notification_message := sender_name ++ ": " ++ message_preview in
          let notification :=
            fresh_consolidated (next_oid d) receiver message_data sender_name
                               notification_message now in
          (bump_oid (with_notifications d (notifications d ++ [notification])),
           Some (NView (str (nt_id notification)) notification))
      end
  end.

(** [create_message_notification], lines 1809-1811. *)
Definition create_message_notification (d : db) (message_data : message_data)
    (receiver_id : string) (now : N) : db * option notification_view :=
  create_consolidated_message_notification d message_data receiver_id now.

Definition set_is_read (n : notification_doc) : notification_doc :=
  Notification (nt_id n) (nt_user_id n) (nt_type n) (nt_message n) (nt_data n) true
               (nt_created_at n) (nt_updated_at n) (nt_read_at n).

Definition set_is_read_at (now : N) (n : notification_doc) : notification_doc :=
  Notification (nt_id n) (nt_user_id n) (nt_type n) (nt_message n) (nt_data n) true
               (nt_created_at n) (nt_updated_at n) (Some now).

(** The ['error'] of a result: a text of the method's own, or [str(e)]
    of the [InvalidId] that [ObjectId(s)] raised for the string [s]. *)
Inductive error_text :=
| Text (text : string)
| InvalidIdOf (s : string).

(** The result dictionary of the mark-read methods. *)
Inductive mark_result :=
| Success (marked_count : option nat)
| Failure (error : error_text).

(** [mark_notification_as_read(notification_id, user_id)], lines 1861-1881.
    The query converts [notification_id] first. *)
Definition mark_notification_as_read (d : db) (notification_id user_id : string)
  : db * mark_result :=
  match ObjectId notification_id with
  | None => (d, Failure (InvalidIdOf notification_id))
  | Some n =>
      match ObjectId user_id with
      | None => (d, Failure (InvalidIdOf user_id))
      | Some u =>
          let q := λ x, notification_by_id n x && N.eqb (nt_user_id x) u in
          (with_notifications d (update_one q set_is_read (notifications d)),
           if Nat.ltb 0 (modified_one q set_is_read (notifications d))
           then Success None else Failure (Text "Notification not found"))
      end
  end.

(** [mark_all_notifications_as_read(user_id)], lines 1883-1901. *)
Definition mark_all_notifications_as_read (d : db) (user_id : string) : db * mark_result :=
  match ObjectId user_id with
  | Some u =>
      let q := λ x, N.eqb (nt_user_id x) u && negb (nt_is_read x) in
      (with_notifications d (update_many q set_is_read (notifications d)),
       Success (Some (modified_many q set_is_read (notifications d))))
  | None => (d, Failure (InvalidIdOf user_id))
  end.

(** The query shared by lines 1920-1927 and 1944-1951. *)
Definition unread_message_query (u : oid) (sender_id : option string) (x : notification_doc)
  : bool :=
  N.eqb (nt_user_id x) u && String.eqb (nt_type x) "new_message" && negb (nt_is_read x)
  && (if Py.truthy sender_id then bool_decide (d_sender_id (nt_data x) = sender_id) else true).

(** [mark_all_message_notifications_as_read(user_id, sender_id)],
    lines 1917-1939. *)
Definition mark_all_message_notifications_as_read (d : db) (user_id : string)
    (sender_id : option string) (now : N) : db * nat :=
  match ObjectId user_id with
  | Some u =>
      (with_notifications d
         (update_many (unread_message_query u sender_id) (set_is_read_at now) (notifications d)),
       modified_many (unread_message_query u sender_id) (set_is_read_at now) (notifications d))
  | None => (d, 0)
  end.

(** [get_unread_notifications_count(user_id)], lines 1903-1913. *)
Definition get_unread_notifications_count (d : db) (user_id : string) : nat :=
  match ObjectId user_id with
  | Some u =>
      count_documents (λ x, N.eqb (nt_user_id x) u && negb (nt_is_read x)) (notifications d)
  | None => 0
  end.

(** [get_unread_message_notifications_count(user_id, sender_id)],
    lines 1941-1958. *)
Definition get_unread_message_notifications_count (d : db) (user_id : string)
    (sender_id : option string) : nat :=
  match ObjectId user_id with
  | Some u => count_documents (unread_message_query u sender_id) (notifications d)
  | None => 0
  end.

(** [cleanup_read_notifications(user_id)], lines 2406-2417. *)
Definition cleanup_read_notifications (d : db) (user_id : string) : db * nat :=
  match ObjectId user_id with
  | Some u =>
      let q := λ x, N.eqb (nt_user_id x) u && nt_is_read x in
      (with_notifications d (delete_many q (notifications d)),
       count_documents q (notifications d))
  | None => (d, 0)
  end.

End DatabaseManager.

(** ** The Socket.IO transport

    [emit], [join_room] and [leave_room] are imported from the
    Flask-SocketIO library (app.py, line 2); what the handlers rely on is
    modelled here. The library keeps, per namespace, the set of live
    connections and a table of rooms; on connect a connection enters the
    room named by its own [sid]. [emit(..., room=r)] reaches the members
    of [r], [include_self=False] skips the connection whose event is being
    handled, [broadcast=True] reaches every live connection, and an [emit]
    with neither reaches [request.sid]. Serialising a payload is not
    modelled: an [emit] does not raise. *)

Module SocketIO.

Inductive payload :=
| PUser (user_id : string)
| PMessage (message_data : message_data)
| PNotification (notification : option notification_view)
| PBadge (unread_count : nat)
| PError (error : string)
| PReceipt (message_id reader_id chat_id : string) (read_at : N).

Inductive target :=
| Room (room : string) (skip_sid : option string)
| Broadcast.

Record emission := Emit {
  em_event : string;
  em_payload : payload;
  em_to : target
}.

Record transport := Transport {
  live : gset string;
  rooms : gmap string (gset string)
}.

(** [members_of]: the connections joined to a room. *)
Definition members_of (t : transport) (room : string) : gset string :=
  default ∅ (rooms t !! room).

Definition join_room (sid room : string) (t : transport) : transport :=
  Transport (live t) (<[room := {[sid]} ∪ members_of t room]> (rooms t)).

Definition leave_room (sid room : string) (t : transport) : transport :=
  Transport (live t) (<[room := members_of t room ∖ {[sid]}]> (rooms t)).

(** A new connection: live, and alone in the room of its own name. *)
Definition open_connection (sid : string) (t : transport) : transport :=
  join_room sid sid (Transport ({[sid]} ∪ live t) (rooms t)).

(** A closed connection leaves the namespace and every room. *)
Definition close_connection (sid : string) (t : transport) : transport :=
  Transport (live t ∖ {[sid]}) ((λ members, members ∖ {[sid]}) <$> rooms t).

(** The connections an emission is delivered to. *)
Definition recipients (t : transport) (to : target) : list string :=
  match to with
  | Room room None => elements (members_of t room)
  | Room room (Some skip_sid) => elements (members_of t room ∖ {[skip_sid]})
  | Broadcast => elements (live t)
  end.

(** Whether [json.dumps] encodes the payload. The dictionary that
    [create_consolidated_message_notification] returns holds the
    recipient as an [ObjectId] and [created_at] as a [datetime] (its
    [_id] alone is turned into a string), and the standard encoder, the
    one the server is set up with, knows neither. Every other payload is
    built from strings, numbers and [None]; times are sent as
    [isoformat()] strings. *)
Definition serializable (p : payload) : bool :=
  match p with
  | PNotification (Some _) => false
  | _ => true
  end.

(** [emit] encodes the packet once, before it looks at the recipients: a
    payload that cannot be encoded raises [TypeError] and nothing is
    sent, whoever is in the room. *)
Definition raises (e : emission) : bool := negb (serializable (em_payload e)).

(** All deliveries of the event [event] caused by a list of [emit]
    calls: one entry per copy received. *)
Definition deliveries (t : transport) (event : string) (out : list emission) : list string :=
  flat_map (λ e, if String.eqb (em_event e) event && serializable (em_payload e)
                 then recipients t (em_to e) else []) out.

End SocketIO.

(** ** app.py: the Socket.IO event handlers *)

Module App.
Import SocketIO DatabaseManager.

(** The state the handlers share: the database behind [db_manager], the
    module-level dictionary [connected_clients], the Flask session of each
    connection (its ['user_profile_id'] entry, when present) and the
    transport. *)
Record world := World {
  db_manager : db;
  connected_clients : gmap string string;
  session : gmap string string;
  sio : transport
}.

Definition with_db (w : world) (d : db) : world :=
  World d (connected_clients w) (session w) (sio w).
Definition with_connected_clients (w : world) (c : gmap string string) : world :=
  World (db_manager w) c (session w) (sio w).
Definition with_sio (w : world) (t : transport) : world :=
  World (db_manager w) (connected_clients w) (session w) t.

(** [handle_connect], lines 997-1007; [sid] is [request.sid]. *)
Definition handle_connect (w : world) (sid : string) (now : N) : world * list emission :=
  match session w !! sid with
  | Some user_profile_id =>
      let w1 := with_connected_clients w (<[sid := user_profile_id]> (connected_clients w)) in
      let d := fst (update_user_status (db_manager w1) user_profile_id "online" now) in
      (with_db w1 d, [Emit "user_online" (PUser user_profile_id) Broadcast])
  | None => (w, [])
  end.

(** [handle_disconnect], lines 1009-1019. *)
Definition handle_disconnect (w : world) (sid : string) (now : N) : world * list emission :=
  match connected_clients w !! sid with
  | Some user_profile_id =>
      let d := fst (update_user_status (db_manager w) user_profile_id "offline" now) in
      (with_connected_clients (with_db w d) (delete sid (connected_clients w)),
       [Emit "user_offline" (PUser user_profile_id) Broadcast])
  | None => (w, [])
  end.

(** [handle_join_chat], lines 1021-1027; [chat_id] is [data.get('chat_id')]. *)
Definition handle_join_chat (w : world) (sid : string) (chat_id : option string)
  : world * list emission :=
  match chat_id, session w !! sid with
  | Some chat_id, Some _ =>
      if String.eqb chat_id "" then (w, [])
      else (with_sio w (join_room sid chat_id (sio w)), [])
  | _, _ => (w, [])
  end.

(** [handle_leave_chat], lines 1029-1035. *)
Definition handle_leave_chat (w : world) (sid : string) (chat_id : option string)
  : world * list emission :=
  match chat_id, session w !! sid with
  | Some chat_id, Some _ =>
      if String.eqb chat_id "" then (w, [])
      else (with_sio w (leave_room sid chat_id (sio w)), [])
  | _, _ => (w, [])
  end.

(** The payload of a [send_message] event: [data.get('chat_id')],
    [data.get('message')] and [data.get('type')]. *)
Record send_message_data := SendMessage {
  sm_chat_id : option string;
  sm_message : option string;
  sm_type : option string
}.

(** The loop of lines 1086-1103 (first definition of the handler): a
    notification per participant other than the sender, announced, with
    the badge count, only when the notification was produced. The
    boolean tells that an [emit] raised, which ends the loop: the
    participants after that one get no notification. *)
Fixpoint notify_participants_first (d : db) (message_data : message_data)
    (user_profile_id : string) (now : N) (participants : list string)
  : db * list emission * bool :=
  match participants with
  | [] => (d, [], false)
  | participant_id_str :: rest =>
      if negb (String.eqb participant_id_str user_profile_id) then
        let '(d1, notification) :=
          create_consolidated_message_notification d message_data participant_id_str now in
        match notification with
        | Some _ =>
            let updated :=
              Emit "notification_updated" (PNotification notification)
                   (Room participant_id_str None) in
            if raises updated then (d1, [updated], true)
            else
              let badge :=
                Emit "notification_badge_updated"
                     (PBadge (get_unread_notifications_count d1 participant_id_str))
                     (Room participant_id_str None) in
              let '(d2, out', raised) :=
                notify_participants_first d1 message_data user_profile_id now rest in
              (d2, updated :: badge :: out', raised)
        | None => notify_participants_first d1 message_data user_profile_id now rest
        end
      else notify_participants_first d message_data user_profile_id now rest
  end.

(** The loop of lines 1867-1877 (second definition of the handler). *)
Fixpoint notify_participants (d : db) (message_data : message_data)
    (user_profile_id : string) (now : N) (participants : list string)
  : db * list emission * bool :=
  match participants with
  | [] => (d, [], false)
  | participant_id_str :: rest =>
      if negb (String.eqb participant_id_str user_profile_id) then
        let '(d1, notification) :=
          create_consolidated_message_notification d message_data participant_id_str now in
        let updated :=
          Emit "notification_updated" (PNotification notification)
               (Room participant_id_str None) in
        if raises updated then (d1, [updated], true)
        else
          let '(d2, out', raised) :=
            notify_participants d1 message_data user_profile_id now rest in
          (d2, updated :: out', raised)
      else notify_participants d message_data user_profile_id now rest
  end.

(** The body shared by the two definitions of [handle_send_message]; they
    differ in the notification loop only. The step of the [try] block
    that raises is the [emit] of a notification that cannot be encoded:
    the handler then leaves the loop for its [except] branch, which
    emits [message_error] to the sender, and the two [new_message]
    emits are not reached. The persistence methods catch their own
    exceptions and a profile always has a [username]. *)
Definition send_message_with
    (notify : db → message_data → string → N → list string → db * list emission * bool)
    (w : world) (sid : string) (data : send_message_data) (now : N)
  : world * list emission :=
  let message_type := default "text" (sm_type data) in
  match sm_chat_id data, sm_message data with
  | Some chat_id, Some message_content =>
      if String.eqb chat_id "" || String.eqb message_content "" then (w, [])
      else
        match session w !! sid with
        | None => (w, [])
        | Some user_profile_id =>
            let '(d1, message) :=
              create_message (db_manager w) chat_id user_profile_id message_content
                             message_type now in
            match message with
            | Some message =>
                let sender_profile := get_user_profile d1 user_profile_id in
                let sender_username := display_name_of sender_profile in
                let message_data :=
                  MessageData (Oid.str (msg_id message)) chat_id user_profile_id
                              sender_username message_content message_type
                              (msg_timestamp message) None in
                let chat := get_chat d1 chat_id user_profile_id in
                let '(d2, notified, raised) :=
                  match chat with
                  | Some chat =>
                      notify d1 message_data user_profile_id now (cv_participants chat)
                  | None => (d1, [], false)
                  end in
                if raised then
                  (with_db w d2,
                   (notified ++
                    [Emit "message_error" (PError "Failed to send message")
                          (Room sid None)])%list)
                else
                  (with_db w d2,
                   (notified ++
                    [Emit "new_message" (PMessage message_data) (Room chat_id (Some sid));
                     Emit "new_message" (PMessage message_data) (Room sid None)])%list)
            | None => (with_db w d1, [])
            end
        end
  | _, _ => (w, [])
  end.

(** [handle_send_message] as first defined, lines 1037-1118. *)
Definition handle_send_message_first : world → string → send_message_data → N →
                                       world * list emission :=
  send_message_with notify_participants_first.

(** [handle_send_message] as defined again at lines 1818-1892; being
    registered last for ['send_message'], this is the handler that runs. *)
Definition handle_send_message : world → string → send_message_data → N →
                                 world * list emission :=
  send_message_with notify_participants.

(** [handle_message_read], lines 1466-1481; [message_id] is
    [data.get('message_id')]. *)
Definition handle_message_read (w : world) (sid : string) (message_id : option string)
    (now : N) : world * list emission :=
  match message_id, session w !! sid with
  | Some message_id, Some user_profile_id =>
      if String.eqb message_id "" then (w, [])
      else
        let '(d1, success) :=
          mark_message_as_read (db_manager w) message_id user_profile_id now in
        if success then
          match Oid.ObjectId message_id with
          | Some m =>
              match Coll.find_one (message_by_id m) (messages d1) with
              | Some message =>
                  (with_db w d1,
                   [Emit "message_read_receipt"
                         (PReceipt message_id user_profile_id
                                   (Oid.str (msg_chat_id message)) now)
                         (Room (Oid.str (msg_sender_id message)) None)])
              | None => (with_db w d1, [])
              end
          | None => (with_db w d1, [])
          end
        else (with_db w d1, [])
  | _, _ => (w, [])
  end.

(** The transport's part of a connection's life around the two lifecycle
    handlers: [user] is the ['user_profile_id'] of the HTTP session the
    socket was opened with, if any. *)
Definition connect (w : world) (sid : string) (user : option string) (now : N)
  : world * list emission :=
  let w1 := World (db_manager w) (connected_clients w)
                  (match user with
                   | Some u => <[sid := u]> (session w)
                   | None => delete sid (session w)
                   end)
                  (open_connection sid (sio w)) in
  handle_connect w1 sid now.

Definition disconnect (w : world) (sid : string) (now : N) : world * list emission :=
  let '(w1, out) := handle_disconnect w sid now in
  (World (db_manager w1) (connected_clients w1) (delete sid (session w1))
         (close_connection sid (sio w1)), out).

End App.

(** ** Two calls of the consolidator in flight

    The server runs with [async_mode='threading']: handlers of different
    connections run on different threads and may interleave between any
    two database operations. A call of
    [create_consolidated_message_notification] performs three of them in
    turn: the [find_one] of line 1731, the [find_one] inside
    [get_user_profile] (line 1738), and the [update_one] of line 1753 or
    the [insert_one] of line 1797. *)

Module Interleaving.
Import Oid Coll DatabaseManager.

(** Where a call stands. *)
Inductive call :=
| Called (message_data : message_data) (receiver_id : string)
| Found (message_data : message_data) (receiver : oid)
        (existing_notification : option notification_doc)
| Named (message_data : message_data) (receiver : oid)
        (existing_notification : option notification_doc) (sender_name : string)
| Returned (result : option notification_view).

(** The next database operation of a call, and what the call knows after it. *)
Definition step (now : N) (d : db) (c : call) : db * call :=
  match c with
  | Called message_data receiver_id =>
      match ObjectId receiver_id with
      | None => (d, Returned None)
      | Some receiver =>
          (d, Found message_data receiver
                (find_one (unread_from receiver (md_sender_id message_data))
                          (notifications d)))
      end
  | Found message_data receiver existing_notification =>
      (d, Named message_data receiver existing_notification
            (display_name_of (get_user_profile d (md_sender_id message_data))))
  | Named message_data receiver existing_notification sender_name =>
      let notification_message :=
        sender_name ++ ": " ++ message_preview (md_content message_data) in
      match existing_notification with
      | Some existing_notification =>
          let message_count := default 1 (d_message_count (nt_data existing_notification)) + 1 in
          (with_notifications d
             (update_one (notification_by_id (nt_id existing_notification))
                (set_consolidated notification_message message_count (md_content message_data)
                   (md_timestamp message_data) now)
                (notifications d)),
           Returned (Some (returned_existing notification_message message_count
                             (md_content message_data) existing_notification)))
      | None =>
          let notification :=
            fresh_consolidated (next_oid d) receiver message_data sender_name
                               notification_message now in
          (bump_oid (with_notifications d (notifications d ++ [notification])),
           Returned (Some (NView (str (nt_id notification)) notification)))
      end
  | Returned result => (d, Returned result)
  end.

(** Whose turn it is. *)
Inductive turn := First | Second.

(** Two calls run under a schedule. *)
Fixpoint run (now : N) (schedule : list turn) (d : db) (a b : call) : db * call * call :=
  match schedule with
  | [] => (d, a, b)
  | First :: schedule' => let '(d', a') := step now d a in run now schedule' d' a' b
  | Second :: schedule' => let '(d', b') := step now d b in run now schedule' d' a b'
  end.

(** The schedules in which one call returns before the other starts. *)
Definition serial (schedule : list turn) : Prop :=
  schedule = [First; First; First; Second; Second; Second] ∨
  schedule = [Second; Second; Second; First; First; First].

(** Both calls have returned. *)
Definition finished (a b : call) : Prop :=
  (∃ ra, a = Returned ra) ∧ (∃ rb, b = Returned rb).

(** A call run through its three database operations without
    interruption. *)
Definition to_completion (now : N) (d : db) (c : call) : db * call :=
  let '(d1, c1) := step now d c in
  let '(d2, c2) := step now d1 c1 in
  step now d2 c2.

(** A schedule in which both calls look before either writes. *)
Definition racing : list turn := [First; Second; First; Second; First; Second].

End Interleaving.

(** ** Histories of the notification store *)

Module Store.
Import Oid Coll DatabaseManager.

(** The unread consolidated notifications of a (recipient, sender) pair. *)
Definition unread_rows (d : db) (receiver : oid) (sender_id : string) : list notification_doc :=
  List.filter (unread_from receiver sender_id) (notifications d).

(** At most one unread consolidated notification per pair. *)
Definition at_most_one_unread (d : db) : Prop :=
  ∀ receiver sender_id, (List.length (unread_rows d receiver sender_id) ≤ 1)%nat.

(** Notification ids are distinct and were all generated before [next_oid]. *)
Definition ids_fresh (d : db) : Prop :=
  NoDup (List.map nt_id (notifications d)) ∧
  ∀ n, n ∈ notifications d → (nt_id n < next_oid d)%N.

(** The invariant of the store. *)
Definition invariant (d : db) : Prop := ids_fresh d ∧ at_most_one_unread d.

(** The calls that write the store. [CreateNotification] stands for the
    callers of [_create_notification] other than [mark_message_as_read]
    (friend requests and group changes); [DeleteMany] for the
    [delete_many] calls on [notifications] (the cleanup methods and
    profile deletion). *)
Inductive db_call :=
| CreateMessage (chat_id sender_id content message_type : string)
| CreateConsolidated (message_data : message_data) (receiver_id : string)
| CreateNotification (user_id notification_type message : string) (data : ndata)
| MarkMessageAsRead (message_id user_id : string)
| MarkNotificationAsRead (notification_id user_id : string)
| MarkAllNotificationsAsRead (user_id : string)
| MarkAllMessageNotificationsAsRead (user_id : string) (sender_id : option string)
| CleanupReadNotifications (user_id : string)
| DeleteMany (q : notification_doc → bool).

(** Their notification types are literals of the source, none of them
    ['new_message']. *)
Definition permitted (c : db_call) : Prop :=
  match c with
  | CreateNotification _ notification_type _ _ => notification_type ≠ "new_message"
  | _ => True
  end.

Definition exec (now : N) (d : db) (c : db_call) : db :=
  match c with
  | CreateMessage chat_id sender_id content message_type =>
      fst (create_message d chat_id sender_id content message_type now)
  | CreateConsolidated message_data receiver_id =>
      fst (create_consolidated_message_notification d message_data receiver_id now)
  | CreateNotification user_id notification_type message data =>
      fst (_create_notification d user_id notification_type message data now)
  | MarkMessageAsRead message_id user_id =>
      fst (mark_message_as_read d message_id user_id now)
  | MarkNotificationAsRead notification_id user_id =>
      fst (mark_notification_as_read d notification_id user_id)
  | MarkAllNotificationsAsRead user_id =>
      fst (mark_all_notifications_as_read d user_id)
  | MarkAllMessageNotificationsAsRead user_id sender_id =>
      fst (mark_all_message_notifications_as_read d user_id sender_id now)
  | CleanupReadNotifications user_id =>
      fst (cleanup_read_notifications d user_id)
  | DeleteMany q =>
      with_notifications d (delete_many q (notifications d))
  end.

(** The states reached from an empty notification store when every call
    returns before the next one starts. They are not all the states of
    the running server, which interleaves the database operations of
    calls made on different threads: those are [Threads.reachable].
    [serial_elsewhere] covers the methods that write the other
    collections only (they may generate ids). *)
Inductive serially_reachable : db → Prop :=
| serial_init (d : db) : notifications d = [] → serially_reachable d
| serial_exec (d : db) (c : db_call) (now : N) :
    serially_reachable d → permitted c → serially_reachable (exec now d c)
| serial_elsewhere (d d' : db) :
    serially_reachable d → notifications d' = notifications d →
    (next_oid d ≤ next_oid d')%N → serially_reachable d'.

(** Consecutive calls of the consolidator for one recipient, each with the
    clock reading at which it runs. *)
Fixpoint consolidate_all (d : db) (calls : list (message_data * N)) (receiver_id : string) : db :=
  match calls with
  | [] => d
  | (message_data, now) :: calls' =>
      consolidate_all
        (fst (create_consolidated_message_notification d message_data receiver_id now))
        calls' receiver_id
  end.

(** The three ways of marking notifications read. *)
Inductive mark_read :=
| ByNotification (notification_id : string)
| BySender (sender_id : option string)
| AllOfUser.

Definition apply_mark_read (d : db) (user_id : string) (m : mark_read) (now : N) : db :=
  match m with
  | ByNotification notification_id => fst (mark_notification_as_read d notification_id user_id)
  | BySender sender_id => fst (mark_all_message_notifications_as_read d user_id sender_id now)
  | AllOfUser => fst (mark_all_notifications_as_read d user_id)
  end.

(** The action reaches the unread notification [row] sent by [sender_id]:
    by its id, by its sender (an absent or empty [sender_id] means every
    sender), or with all of the user's notifications. *)
Definition covers (m : mark_read) (row : notification_doc) (sender_id : string) : Prop :=
  match m with
  | ByNotification notification_id => ObjectId notification_id = Some (nt_id row)
  | BySender s => Py.truthy s = true → s = Some sender_id
  | AllOfUser => True
  end.

(** The notification stored for a read receipt, lines 1685-1694. *)
Definition receipt_row (d : db) (message : message_doc) (message_id user_id : string)
    (now : N) : notification_doc :=
  Notification (next_oid d) (msg_sender_id message) "message_read" "Your message was read"
    (read_receipt_data message_id user_id (str (msg_chat_id message))) false now None None.

End Store.

(** ** Handlers on threads *)

Module Threads.
Import Oid Coll DatabaseManager Interleaving Store.

(** The server is started with [async_mode='threading']: each event is
    handled on a thread of its own, and a method that makes several
    database operations can be overtaken between two of them. A state is
    the database together with the calls of the consolidator that are
    under way. A thread starts a call, makes the next database operation
    of a call under way, or runs a method from start to end (each of the
    other methods writes [notifications] in one operation). *)
Inductive reachable : db → list call → Prop :=
| reachable_init (d : db) : notifications d = [] → reachable d []
| reachable_start (d : db) (calls : list call) (message_data : message_data)
    (receiver_id : string) :
    reachable d calls → reachable d (calls ++ [Called message_data receiver_id])
| reachable_step (d : db) (calls : list call) (i : nat) (c : call) (now : N) :
    reachable d calls → calls !! i = Some c →
    reachable (fst (step now d c)) (<[i := snd (step now d c)]> calls)
| reachable_exec (d : db) (calls : list call) (c : db_call) (now : N) :
    reachable d calls → permitted c → reachable (exec now d c) calls
| reachable_elsewhere (d d' : db) (calls : list call) :
    reachable d calls → notifications d' = notifications d →
    (next_oid d ≤ next_oid d')%N → reachable d' calls.

End Threads.

(** ** Presence *)

Module Presence.
Import App DatabaseManager.

(** Some live connection is registered for the user. *)
Definition has_connection (w : world) (user_profile_id : string) : Prop :=
  ∃ sid, connected_clients w !! sid = Some user_profile_id.

(** The persisted status is ['online'] exactly when a connection is
    registered for the user. *)
Definition consistent (w : world) (user_profile_id : string) : Prop :=
  get_user_status (db_manager w) user_profile_id = "online" ↔ has_connection w user_profile_id.

End Presence.

(** ** A small world for the closed examples

    Alice and Bob share the direct chat [c123]. *)

Module Demo.
Import App SocketIO DatabaseManager.

Definition alice : string := "0000000000000000000000a1".
Definition bob : string := "0000000000000000000000b2".
Definition c123 : string := "0000000000000000000000c3".

Definition demo_db : db :=
  Db [Profile 161 "alice" (Some "A") None None None;
      Profile 178 "bob" (Some "B") None None None]
     [Chat 195 [161; 178]%N None None None]
     [] [] 1000.

Definition demo_world : world := World demo_db ∅ ∅ (Transport ∅ ∅).

(** Both are connected, each from one device, and Bob has the chat open. *)
Definition both_connected : world :=
  fst (connect (fst (connect demo_world "sidA" (Some alice) 1)) "sidB" (Some bob) 2).

Definition bob_joined : world :=
  fst (handle_join_chat both_connected "sidB" (Some c123)).

Definition hello : send_message_data := SendMessage (Some c123) (Some "hello") None.

(** A message of Alice as the handlers describe it. *)
Definition said (content : string) (timestamp : N) : message_data :=
  MessageData "0000000000000000000003e8" c123 alice "A" content "text" timestamp None.

(** Alice on two devices. *)
Definition two_devices : world :=
  fst (connect (fst (connect demo_world "sidA1" (Some alice) 1))
               "sidA2" (Some alice) 2).

(** Alice has sent "hello"; the message got the id [0x3e8]. *)
Definition alice_sent : world :=
  fst (handle_send_message bob_joined "sidA" hello 5).

Definition hello_id : string := "0000000000000000000003e8".

(** The letter e with an acute accent, U+00E9: one character, encoded in
    the two bytes [0xC3 0xA9]; and a content of 51 of them. *)
Definition e_acute : string :=
  String (ascii_of_nat 195) (String (ascii_of_nat 169) EmptyString).

Definition accents : list string := List.repeat e_acute 51.

(** Alice's "hi" and "there" handled on two threads: both calls of the
    consolidator look for Bob's unread notification before either has
    written. *)
Definition raced : db :=
  fst (fst (Interleaving.run 5 Interleaving.racing demo_db
              (Interleaving.Called (said "hi" 1) bob)
              (Interleaving.Called (said "there" 2) bob))).

End Demo.

(** * Further methods and handlers *)

From stdpp Require Import sorting.

Open Scope string_scope.
Open Scope nat_scope.

(** ** Collections, continued *)

Module CollMore.
Section CollMore.
Context {A : Type}.

(** The collection after [delete_one]: the first match is removed. *)
Fixpoint delete_one (q : A → bool) (c : list A) : list A :=
  match c with
  | [] => []
  | x :: c' => if q x then c' else x :: delete_one q c'
  end.

(** [result.deleted_count] of [delete_one]. *)
Definition deleted_one (q : A → bool) (c : list A) : nat :=
  if existsb q c then 1 else 0.

(** [cursor.limit(n)]: a limit of 0 is no limit. *)
Definition limit (n : nat) (c : list A) : list A :=
  match n with
  | O => c
  | _ => List.firstn n c
  end.

End CollMore.
End CollMore.

(** ** utils/database.py, continued *)

Module DatabaseMore.
Import Oid Coll CollMore DatabaseManager.

(** The query of [get_unread_messages_count], lines 1706-1713: a message
    the user has not read, did not send, and that is not deleted; in the
    given chat when one is given. *)
Definition unread_message (u : oid) (chat : option oid) (m : message_doc) : bool :=
  negb (existsb (N.eqb u) (msg_read_by m))
  && negb (N.eqb (msg_sender_id m) u)
  && negb (msg_is_deleted m)
  && match chat with Some c => N.eqb (msg_chat_id m) c | None => true end.

(** [get_unread_messages_count(user_id, chat_id=None)], lines 1703-1720. *)
Definition get_unread_messages_count (d : db) (user_id : string) (chat_id : option string)
  : nat :=
  match ObjectId user_id with
  | None => 0
  | Some u =>
      if Py.truthy chat_id then
        match chat_id ≫= ObjectId with
        | Some c => count_documents (unread_message u (Some c)) (messages d)
        | None => 0
        end
      else count_documents (unread_message u None) (messages d)
  end.

(** [[ObjectId(uid) for uid in user_ids]]: raises at the first string that
    is no ObjectId. *)
Fixpoint object_ids (user_ids : list string) : option (list oid) :=
  match user_ids with
  | [] => Some []
  | uid :: rest =>
      match ObjectId uid, object_ids rest with
      | Some o, Some os => Some (o :: os)
      | _, _ => None
      end
  end.

(** [bulk_update_user_statuses(user_ids, status)], lines 2389-2404. *)
Definition bulk_update_user_statuses (d : db) (user_ids : list string) (status : string)
    (now : N) : db * nat :=
  match object_ids user_ids with
  | Some ids =>
      let q := λ p, existsb (N.eqb (pf_id p)) ids in
      (with_user_profiles d (update_many q (set_status status now) (user_profiles d)),
       modified_many q (set_status status now) (user_profiles d))
  | None => (d, 0)
  end.

(** [get_online_users_count()], lines 2378-2387. *)
Definition get_online_users_count (d : db) : nat :=
  count_documents (λ p, bool_decide (pf_status p = Some "online")) (user_profiles d).

(** An entry of [get_chat_participants]; a profile of this model has no
    [avatar_url], so that entry is [None]. *)
Record participant_view := ParticipantView {
  pv_id : string;
  pv_username : string;
  pv_display_name : string;
  pv_avatar_url : option string;
  pv_is_online : bool;
  pv_status : string;
  pv_last_seen : option N
}.

(** One round of the loop of lines 2183-2196; [participant['display_name']]
    raises when the profile has no display name. *)
Definition participant_entry (participant : profile_doc) : option participant_view :=
  let status := default "offline" (pf_status participant) in
  let status :=
    if String.eqb status "online" || String.eqb status "offline" || String.eqb status "away"
    then status
    else if default false (pf_is_online participant) then "online" else "offline" in
  match pf_display_name participant with
  | Some display_name =>
      Some (ParticipantView (str (pf_id participant)) (pf_username participant) display_name
              None (default false (pf_is_online participant)) status
              (pf_last_seen participant))
  | None => None
  end.

Fixpoint participant_entries (participants : list profile_doc)
  : option (list participant_view) :=
  match participants with
  | [] => Some []
  | participant :: rest =>
      match participant_entry participant, participant_entries rest with
      | Some entry, Some entries => Some (entry :: entries)
      | _, _ => None
      end
  end.

(** [get_chat_participants(chat_id)], lines 2170-2201. *)
Definition get_chat_participants (d : db) (chat_id : string) : list participant_view :=
  match ObjectId chat_id with
  | None => []
  | Some c =>
      match find_one (λ ch, N.eqb (ch_id ch) c) (chats d) with
      | None => []
      | Some chat =>
          default []
            (participant_entries
               (List.filter (λ p, existsb (N.eqb (pf_id p)) (ch_participants chat))
                            (user_profiles d)))
      end
  end.

(** An entry of [get_user_notifications]. *)
Record notification_item := NotificationItem {
  ni_id : string;
  ni_type : string;
  ni_message : string;
  ni_data : ndata;
  ni_is_read : bool;
  ni_created_at : N
}.

(** [.sort('created_at', -1)]: newest first. *)
Definition newer_first (x y : notification_doc) : Prop :=
  (nt_created_at y ≤ nt_created_at x)%N.

#[global] Instance newer_first_dec (x y : notification_doc) : Decision (newer_first x y).
Proof. unfold newer_first. apply _. Defined.

(** [get_user_notifications(user_id, limit, unread_only)], lines 1834-1859. *)
Definition get_user_notifications (d : db) (user_id : string) (limit : nat)
    (unread_only : bool) : list notification_item :=
  match ObjectId user_id with
  | None => []
  | Some u =>
      let query := λ x, N.eqb (nt_user_id x) u && (if unread_only then negb (nt_is_read x) else true) in
      List.map (λ notification,
                  NotificationItem (str (nt_id notification)) (nt_type notification)
                    (nt_message notification) (nt_data notification)
                    (nt_is_read notification) (nt_created_at notification))
               (CollMore.limit limit
                  (merge_sort newer_first (List.filter query (notifications d))))
  end.

End DatabaseMore.

(** ** app.py: the other Socket.IO handlers *)

Module Relay.
Import Oid Coll SocketIO App DatabaseManager DatabaseMore.

(** What these handlers emit. [is_typing] and [reactions] are passed on
    as received. *)
Inductive payload :=
| PTyping (user_id : option string) (username : string) (is_typing : option bool)
| PNotifications (notifications : list notification_item) (unread_count : nat)
| PCleared (sender_id : option string) (cleared_count : option nat) (cleared_at : N)
| PUnreadCount (sender_id : option string) (count : nat)
| PStatuses (statuses : list (string * string))
| PReaction (message_id emoji user_id action : string) (reactions : list string).

Record signal := Signal {
  sg_event : string;
  sg_payload : payload;
  sg_to : target
}.

(** Whether [json.dumps] encodes the payload. An entry of
    [get_user_notifications] holds [created_at] as a [datetime], so a
    list with an entry cannot be encoded; what the other payloads hold
    are strings, numbers, booleans and what the client sent as JSON. *)
Definition serializable (p : payload) : bool :=
  match p with
  | PNotifications notifications _ => bool_decide (notifications = [])
  | _ => true
  end.

(** The connections that receive the event [event], one entry per copy.
    An [emit] whose payload cannot be encoded raises before anything is
    sent; these handlers have no [except] branch and end there. *)
Definition deliveries (t : transport) (event : string) (out : list signal) : list string :=
  flat_map (λ s, if String.eqb (sg_event s) event && serializable (sg_payload s)
                 then recipients t (sg_to s) else []) out.

(** [handle_typing], lines 1483-1498 (the definition registered last; the
    one at lines 1120-1134 is the same). *)
Definition handle_typing (w : world) (sid : string) (chat_id : option string)
    (is_typing : option bool) : world * list signal :=
  match chat_id, session w !! sid with
  | Some chat_id, Some user_profile_id =>
      if String.eqb chat_id "" then (w, [])
      else
        let user_profile := get_user_profile (db_manager w) user_profile_id in
        let username := display_name_of user_profile in
        (w, [Signal "user_typing" (PTyping (session w !! sid) username is_typing)
                    (Room chat_id (Some sid))])
  | _, _ => (w, [])
  end.

(** [handle_request_notifications], lines 1500-1511. The [emit] is the
    handler's last step: with a notification to list it raises and the
    connection is sent nothing. *)
Definition handle_request_notifications (w : world) (sid : string) : world * list signal :=
  match session w !! sid with
  | Some user_id =>
      let notifications := get_user_notifications (db_manager w) user_id 10 false in
      let unread_count := get_unread_notifications_count (db_manager w) user_id in
      (w, [Signal "notifications_data" (PNotifications notifications unread_count)
                  (Room sid None)])
  | None => (w, [])
  end.

(** [handle_mark_notification_read], lines 1513-1530. *)
Definition handle_mark_notification_read (w : world) (sid : string)
    (notification_id sender_id : option string) (now : N) : world * list signal :=
  match session w !! sid with
  | Some user_profile_id =>
      let d1 :=
        match notification_id with
        | Some n =>
            if String.eqb n "" then db_manager w
            else fst (mark_notification_as_read (db_manager w) n user_profile_id)
        | None => db_manager w
        end in
      if Py.truthy sender_id then
        (with_db w (fst (mark_all_message_notifications_as_read d1 user_profile_id
                           sender_id now)),
         [Signal "notifications_cleared" (PCleared sender_id None now)
                 (Room user_profile_id None)])
      else (with_db w d1, [])
  | None => (w, [])
  end.

(** [handle_mark_all_message_notifications_read], lines 1532-1544. *)
Definition handle_mark_all_message_notifications_read (w : world) (sid : string)
    (sender_id : option string) (now : N) : world * list signal :=
  match session w !! sid with
  | Some user_profile_id =>
      let '(d1, cleared_count) :=
        mark_all_message_notifications_as_read (db_manager w) user_profile_id sender_id now in
      (with_db w d1,
       if Nat.ltb 0 cleared_count
       then [Signal "notifications_cleared" (PCleared sender_id (Some cleared_count) now)
                    (Room user_profile_id None)]
       else [])
  | None => (w, [])
  end.

(** [handle_get_unread_message_notifications_count], lines 1546-1556. *)
Definition handle_get_unread_message_notifications_count (w : world) (sid : string)
    (sender_id : option string) : world * list signal :=
  match session w !! sid with
  | Some user_profile_id =>
      (w, [Signal "unread_message_notifications_count"
                  (PUnreadCount sender_id
                     (get_unread_message_notifications_count (db_manager w) user_profile_id
                        sender_id))
                  (Room sid None)])
  | None => (w, [])
  end.

(** [participant['_id']], line 1445, where [participant] is one of the
    strings [get_chat] returns: indexing a [str] with a [str] raises
    [TypeError]. *)
Definition subscript_id (participant : string) : option string := None.

(** The loop of lines 1443-1457; [None] when a round raises. *)
Fixpoint initial_statuses (d : db) (user_profile_id : string) (participants : list string)
  : option (list (string * string)) :=
  match participants with
  | [] => Some []
  | participant :: rest =>
      match subscript_id participant with
      | None => None
      | Some participant_id =>
          if String.eqb participant_id user_profile_id
          then initial_statuses d user_profile_id rest
          else
            match initial_statuses d user_profile_id rest with
            | None => None
            | Some statuses =>
                match get_user_profile d participant_id with
                | Some user_profile =>
                    Some ((participant_id, default "offline" (pf_status user_profile))
                          :: statuses)
                | None => Some statuses
                end
            end
      end
  end.

(** [handle_request_initial_statuses], lines 1432-1464; the [except]
    branch only prints. *)
Definition handle_request_initial_statuses (w : world) (sid : string)
    (chat_id : option string) : world * list signal :=
  match chat_id, session w !! sid with
  | Some chat_id, Some user_profile_id =>
      if String.eqb chat_id "" then (w, [])
      else
        match get_chat (db_manager w) chat_id user_profile_id with
        | Some chat =>
            match initial_statuses (db_manager w) user_profile_id (cv_participants chat) with
            | Some statuses =>
                (w, [Signal "initial_statuses" (PStatuses statuses) (Room sid None)])
            | None => (w, [])
            end
        | None => (w, [])
        end
  | _, _ => (w, [])
  end.

(** The payload of a [reaction_added] or [reaction_removed] event. *)
Record reaction_data := ReactionData {
  rd_message_id : option string;
  rd_emoji : option string;
  rd_user_id : option string;
  rd_reactions : list string
}.

(** The body shared by [handle_reaction_added], lines 2783-2800, and
    [handle_reaction_removed], lines 2802-2819, which differ in [action].
    The lookup is outside any [try]: with a [message_id] that is no
    ObjectId the handler ends with the exception and emits nothing. *)
Definition relay_reaction (action : string) (w : world) (sid : string) (data : reaction_data)
  : world * list signal :=
  if Py.truthy (rd_message_id data) && Py.truthy (rd_emoji data) && Py.truthy (rd_user_id data)
  then
    let message_id := default "" (rd_message_id data) in
    match ObjectId message_id with
    | None => (w, [])
    | Some m =>
        match find_one (message_by_id m) (messages (db_manager w)) with
        | Some message =>
            (w, [Signal "reaction_updated"
                        (PReaction message_id (default "" (rd_emoji data))
                                   (default "" (rd_user_id data)) action
                                   (rd_reactions data))
                        (Room (str (msg_chat_id message)) (Some sid))])
        | None => (w, [])
        end
    end
  else (w, []).

Definition handle_reaction_added : world → string → reaction_data → world * list signal :=
  relay_reaction "added".

Definition handle_reaction_removed : world → string → reaction_data → world * list signal :=
  relay_reaction "removed".

End Relay.

(** ** utils/database.py: reactions *)

Module Reactions.
Import Oid Coll CollMore.

Record reaction_doc := Reaction {
  rc_id : oid;
  rc_message_id : oid;
  rc_user_id : oid;
  rc_emoji : string;
  rc_reacted_at : N
}.

(** The collection [message_reactions] with the id its next document
    gets. The unique index on [(message_id, user_id)] is requested inside
    the [try] of [_create_indexes] and may be missing; the methods are
    modelled without it. On a collection with at most one reaction for
    each message and user they behave the same with the index. *)
Record reactions := Reactions {
  message_reactions : list reaction_doc;
  rs_next_oid : N
}.

(** [{'message_id': m, 'user_id': u}] *)
Definition by_message_and_user (m u : oid) (r : reaction_doc) : bool :=
  N.eqb (rc_message_id r) m && N.eqb (rc_user_id r) u.

(** [add_message_reaction(message_id, user_id, emoji)], lines 328-350;
    the result is the ['reaction_id'], [None] for [{'success': False}]. *)
Definition add_message_reaction (s : reactions) (message_id user_id emoji : string) (now : N)
  : reactions * option string :=
  match ObjectId message_id, ObjectId user_id with
  | Some m, Some u =>
      let remaining := delete_one (by_message_and_user m u) (message_reactions s) in
      let reaction_doc := Reaction (rs_next_oid s) m u emoji now in
      (Reactions (remaining ++ [reaction_doc])%list (N.succ (rs_next_oid s)),
       Some (str (rc_id reaction_doc)))
  | _, _ => (s, None)
  end.

(** [remove_message_reaction(message_id, user_id)], lines 352-364; the
    result is the ['deleted_count'], [None] for [{'success': False}]. *)
Definition remove_message_reaction (s : reactions) (message_id user_id : string)
  : reactions * option nat :=
  match ObjectId message_id, ObjectId user_id with
  | Some m, Some u =>
      (Reactions (delete_one (by_message_and_user m u) (message_reactions s)) (rs_next_oid s),
       Some (deleted_one (by_message_and_user m u) (message_reactions s)))
  | _, _ => (s, None)
  end.

(** [get_user_reaction(message_id, user_id)], lines 408-425: the
    ['emoji'] and ['reacted_at'] of the user's reaction. *)
Definition get_user_reaction (s : reactions) (message_id user_id : string)
  : option (string * N) :=
  match ObjectId message_id, ObjectId user_id with
  | Some m, Some u =>
      match find_one (by_message_and_user m u) (message_reactions s) with
      | Some reaction => Some (rc_emoji reaction, rc_reacted_at reaction)
      | None => None
      end
  | _, _ => None
  end.

(** At most one reaction of each user to each message. *)
Definition one_reaction_each (s : reactions) : Prop :=
  ∀ m u, count_documents (by_message_and_user m u) (message_reactions s) ≤ 1.

End Reactions.

(** ** utils/database.py: editing and deleting messages *)

Module Editing.
Import Oid Coll CollMore DatabaseManager.

(** A document of [messages] with the fields the methods below add to
    it; a message as [create_message] stores it has none of them. *)
Record stored_message := Stored {
  st_doc : message_doc;
  st_edited_at : option N;
  st_edit_count : option nat;
  st_original_content : option string;
  st_deleted_at : option N;
  st_deleted_by : option oid
}.

(** A document of [message_edits]. *)
Record edit_record := EditRecord {
  ed_message_id : oid;
  ed_edit_number : nat;
  ed_previous_content : string;
  ed_new_content : string;
  ed_edited_by : oid;
  ed_edited_at : N
}.

(** A document of [user_deleted_messages]. *)
Record user_deleted_message := UserDeleted {
  ud_user_id : oid;
  ud_message_id : oid;
  ud_deleted_at : N;
  ud_original_content : string;
  ud_original_sender_id : oid;
  ud_chat_id : oid
}.

#[global] Instance stored_message_eq_dec : EqDecision stored_message.
Proof. solve_decision. Defined.
#[global] Instance edit_record_eq_dec : EqDecision edit_record.
Proof. solve_decision. Defined.
#[global] Instance user_deleted_message_eq_dec : EqDecision user_deleted_message.
Proof. solve_decision. Defined.

(** The three collections these methods work on. *)
Record message_store := MessageStore {
  ms_messages : list stored_message;
  message_edits : list edit_record;
  user_deleted_messages : list user_deleted_message
}.

(** What a method answers: [{'success': True, 'message': ..}], with the
    ['edit_count'] where there is one; [{'success': False, 'error': ..}]
    from one of its own checks; or the same from its [except] branch,
    whose text is that of the exception. *)
Inductive answer :=
| Succeeded (message : string) (edit_count : option nat)
| Refused (error : string)
| Raised.

(** [{'_id': m}] and [{'_id': m, 'sender_id': s}] *)
Definition stored_by_id (m : oid) (x : stored_message) : bool := N.eqb (msg_id (st_doc x)) m.
Definition stored_by_id_and_sender (m s : oid) (x : stored_message) : bool :=
  N.eqb (msg_id (st_doc x)) m && N.eqb (msg_sender_id (st_doc x)) s.

Definition with_content (content : string) (is_edited is_deleted : bool) (m : message_doc)
  : message_doc :=
  Message (msg_id m) (msg_chat_id m) (msg_sender_id m) content (msg_type m) (msg_timestamp m)
          is_edited is_deleted (msg_read_by m).

(** The [$set] of [update_message], lines 1421-1437; [original_message]
    is the document read at the start. *)
Definition set_edited (original_message : stored_message) (new_content : string) (now : N)
    (x : stored_message) : stored_message :=
  Stored (with_content new_content true (msg_is_deleted (st_doc x)) (st_doc x))
         (Some now)
         (Some (default 0 (st_edit_count original_message) + 1))
         (if negb (msg_is_edited (st_doc original_message))
          then Some (msg_content (st_doc original_message))
          else st_original_content x)
         (st_deleted_at x) (st_deleted_by x).

(** [update_message(message_id, sender_id, new_content)], lines 1383-1454. *)
Definition update_message (st : message_store) (message_id sender_id new_content : string)
    (now : N) : message_store * answer :=
  match ObjectId message_id with
  | None => (st, Raised)
  | Some m =>
      match find_one (stored_by_id m) (ms_messages st) with
      | None => (st, Refused "Message not found")
      | Some original_message =>
          match ObjectId sender_id with
          | None => (st, Raised)
          | Some s =>
              if negb (N.eqb (msg_sender_id (st_doc original_message)) s)
              then (st, Refused "Not authorized to edit this message")
              else if msg_is_deleted (st_doc original_message)
              then (st, Refused "Cannot edit deleted message")
              else
                let edit_number :=
                  if negb (msg_is_edited (st_doc original_message)) then 1
                  else default 0 (st_edit_count original_message) + 1 in
                let edit_record :=
                  EditRecord m edit_number (msg_content (st_doc original_message))
                             new_content s now in
                let edits := (message_edits st ++ [edit_record])%list in
                let edit_count := default 0 (st_edit_count original_message) + 1 in
                let set := set_edited original_message new_content now in
                let modified_count :=
                  modified_one (stored_by_id_and_sender m s) set (ms_messages st) in
                let st' :=
                  MessageStore (update_one (stored_by_id_and_sender m s) set (ms_messages st))
                               edits (user_deleted_messages st) in
                if Nat.ltb 0 modified_count
                then (st', Succeeded "Message updated successfully" (Some edit_count))
                else (st', Refused "Message not found or not authorized")
          end
      end
  end.

(** The [$set] of [delete_message], lines 1519-1526, and, with
    [deleted_by], of [delete_message_for_everyone], lines 1592-1600. *)
Definition set_deleted (message : stored_message) (now : N) (deleted_by : option oid)
    (x : stored_message) : stored_message :=
  Stored (with_content "This message was deleted" (msg_is_edited (st_doc x)) true (st_doc x))
         (st_edited_at x) (st_edit_count x)
         (Some (default (msg_content (st_doc message)) (st_original_content message)))
         (Some now)
         (match deleted_by with Some s => Some s | None => st_deleted_by x end).

(** The body the two methods share; they differ in the texts and in
    [deleted_by]. *)
Definition soft_delete (not_authorized done : string) (by_user : bool)
    (st : message_store) (message_id sender_id : string) (now : N) : message_store * answer :=
  match ObjectId message_id with
  | None => (st, Raised)
  | Some m =>
      match find_one (stored_by_id m) (ms_messages st) with
      | None => (st, Refused "Message not found")
      | Some message =>
          match ObjectId sender_id with
          | None => (st, Raised)
          | Some s =>
              if negb (N.eqb (msg_sender_id (st_doc message)) s)
              then (st, Refused not_authorized)
              else
                let set := set_deleted message now (if by_user then Some s else None) in
                let modified_count :=
                  modified_one (stored_by_id_and_sender m s) set (ms_messages st) in
                let st' :=
                  MessageStore (update_one (stored_by_id_and_sender m s) set (ms_messages st))
                               (message_edits st) (user_deleted_messages st) in
                if Nat.ltb 0 modified_count
                then (st', Succeeded done None)
                else (st', Refused "Message not found or not authorized")
          end
      end
  end.

(** [delete_message(message_id, sender_id)], lines 1502-1536. *)
Definition delete_message : message_store → string → string → N → message_store * answer :=
  soft_delete "Not authorized to delete this message" "Message deleted successfully" false.

(** [delete_message_for_everyone(message_id, user_id)], lines 1573-1610. *)
Definition delete_message_for_everyone
  : message_store → string → string → N → message_store * answer :=
  soft_delete "Only the message sender can delete for everyone" "Message deleted for everyone"
              true.

(** [{'user_id': u, 'message_id': m}] *)
Definition deleted_for (u m : oid) (x : user_deleted_message) : bool :=
  N.eqb (ud_user_id x) u && N.eqb (ud_message_id x) m.

(** [update_one(query, {'$set': document}, upsert=True)] where the
    document sets every field. *)
Definition upsert {A : Type} (query : A → bool) (document : A) (c : list A) : list A :=
  if existsb query c then update_one query (λ _, document) c else (c ++ [document])%list.

(** [delete_message_for_user(message_id, user_id)], lines 1538-1571. *)
Definition delete_message_for_user (st : message_store) (message_id user_id : string)
    (now : N) : message_store * answer :=
  match ObjectId message_id with
  | None => (st, Raised)
  | Some m =>
      match find_one (stored_by_id m) (ms_messages st) with
      | None => (st, Refused "Message not found")
      | Some message =>
          match ObjectId user_id with
          | None => (st, Raised)
          | Some u =>
              let user_deleted_message :=
                UserDeleted u m now
                  (default (msg_content (st_doc message)) (st_original_content message))
                  (msg_sender_id (st_doc message)) (msg_chat_id (st_doc message)) in
              (MessageStore (ms_messages st) (message_edits st)
                 (upsert (deleted_for u m) user_deleted_message (user_deleted_messages st)),
               Succeeded "Message deleted for you" None)
          end
      end
  end.

(** [is_message_deleted_for_user(message_id, user_id)], lines 1612-1622. *)
Definition is_message_deleted_for_user (st : message_store) (message_id user_id : string)
  : bool :=
  match ObjectId user_id, ObjectId message_id with
  | Some u, Some m =>
      bool_decide (is_Some (find_one (deleted_for u m) (user_deleted_messages st)))
  | _, _ => false
  end.

(** An entry of the list [get_chat_messages_with_persistence] returns.
    No message document has a ['type'] key ([create_message] stores the
    key ['message_type']), so [message.get('type', 'text')] is
    ['text']. *)
Record listed_message := Listed {
  lm_id : string;
  lm_chat_id : string;
  lm_sender_id : string;
  lm_content : string;
  lm_type : string;
  lm_timestamp : N;
  lm_is_edited : bool;
  lm_is_deleted : bool;
  lm_edited_at : option N;
  lm_read_by : list string;
  lm_edit_count : nat
}.

(** [.sort('timestamp', 1)]: oldest first. *)
Definition older_first (x y : stored_message) : Prop :=
  (msg_timestamp (st_doc x) ≤ msg_timestamp (st_doc y))%N.

#[global] Instance older_first_dec (x y : stored_message) : Decision (older_first x y).
Proof. unfold older_first. apply _. Defined.

(** One round of the loop of lines 2974-3026: the entries it appends. *)
Definition listed (deleted_message_ids : list oid) (user_id : string) (u : oid)
    (message : stored_message) : list listed_message :=
  let doc := st_doc message in
  if existsb (N.eqb (msg_id doc)) deleted_message_ids then []
  else if msg_is_deleted doc then
    match st_deleted_by message with
    | Some deleted_by =>
        if negb (String.eqb (str deleted_by) user_id) && negb (N.eqb (msg_sender_id doc) u)
        then [Listed (str (msg_id doc)) (str (msg_chat_id doc)) (str (msg_sender_id doc))
                     "This message was deleted" "text" (msg_timestamp doc) false true None [] 0]
        else []
    | None => []
    end
  else [Listed (str (msg_id doc)) (str (msg_chat_id doc)) (str (msg_sender_id doc))
               (msg_content doc) "text" (msg_timestamp doc) (msg_is_edited doc)
               (msg_is_deleted doc) (st_edited_at message)
               (List.map str (msg_read_by doc)) (default 0 (st_edit_count message))].

(** [get_chat_messages_with_persistence(chat_id, user_id, limit)], lines
    2959-3033, for messages without [file_metadata]. *)
Definition get_chat_messages_with_persistence (st : message_store) (chat_id user_id : string)
    (limit : nat) : list listed_message :=
  match ObjectId chat_id, ObjectId user_id with
  | Some c, Some u =>
      let messages :=
        CollMore.limit limit
          (merge_sort older_first
             (List.filter (λ x, N.eqb (msg_chat_id (st_doc x)) c) (ms_messages st))) in
      let deleted_message_ids :=
        List.map ud_message_id
                 (List.filter (λ x, N.eqb (ud_user_id x) u) (user_deleted_messages st)) in
      flat_map (listed deleted_message_ids user_id u) messages
  | _, _ => []
  end.

(** What MongoDB keeps true of [messages]: no two documents share an
    [_id], and an [_id] is an ObjectId. *)
Definition ids_proper (st : message_store) : Prop :=
  NoDup (List.map (λ x, msg_id (st_doc x)) (ms_messages st))
  ∧ ∀ x, x ∈ ms_messages st → valid (msg_id (st_doc x)).

(** The edits [update_message] is asked for, one after the other. *)
Fixpoint update_all (st : message_store) (message_id sender_id : string)
    (edits : list (string * N)) : message_store :=
  match edits with
  | [] => st
  | (new_content, now) :: rest =>
      update_all (fst (update_message st message_id sender_id new_content now))
                 message_id sender_id rest
  end.

(** The history of a message that read [content] before [edits], the
    first of which has the number [n]. *)
Fixpoint history (m s : oid) (n : nat) (content : string) (edits : list (string * N))
  : list edit_record :=
  match edits with
  | [] => []
  | (new_content, now) :: rest =>
      EditRecord m n content new_content s now :: history m s (S n) new_content rest
  end.

End Editing.

(** ** utils/database.py: creating chats *)

Module Chats.
Import Oid Coll CollMore DatabaseManager DatabaseMore.

(** The fields [create_chat] writes that [chat_doc] and [profile_doc]
    leave out, kept beside the database by the [_id] of their document:
    [created_at] and [last_message_at] of a chat, [chat_ids] of a
    profile. *)
Record chat_times := ChatTimes {
  ct_created_at : N;
  ct_last_message_at : N
}.

Record chat_state := ChatState {
  cs_db : db;
  cs_times : gmap N chat_times;
  cs_chat_ids : gmap N (list string)
}.

(** The query of lines 1188-1192. The dictionary literal names the key
    ['participants'] twice, and the later value replaces the earlier:
    the query that reaches MongoDB is
    [{'participants': {'$size': 2}, 'is_group': False}], in which the
    requested participants do not occur. *)
Definition direct (ch : chat_doc) : bool :=
  Nat.eqb (List.length (ch_participants ch)) 2 && bool_decide (ch_is_group ch = Some false).

(** The loop of lines 1211-1218 after its first round, which only notes
    the first participant: the name of the first of the others that has
    a profile. *)
Fixpoint first_known_name (d : db) (pids : list oid) : option string :=
  match pids with
  | [] => None
  | pid :: rest =>
      match find_one (profile_by_id pid) (user_profiles d) with
      | Some other_user => Some (default (pf_username other_user) (pf_display_name other_user))
      | None => first_known_name d rest
      end
  end.

(** Lines 1207-1223. *)
Definition name_of_chat (d : db) (participants : list oid) (chat_name : option string)
    (is_group : bool) : string :=
  if is_group && Py.truthy chat_name then default "" chat_name
  else if negb is_group && Nat.eqb (List.length participants) 2
  then default "Direct Chat" (first_known_name d (tail participants))
  else "Group Chat".

(** [{'$addToSet': {'chat_ids': chat_id}}] on the profile [p], if there
    is one. *)
Definition add_chat_id (d : db) (chat_id : string) (ids : gmap N (list string)) (p : oid)
  : gmap N (list string) :=
  if existsb (profile_by_id p) (user_profiles d) then
    let old := default [] (ids !! p) in
    if existsb (String.eqb chat_id) old then ids else <[p := (old ++ [chat_id])%list]> ids
  else ids.

(** [create_chat(participant_ids, chat_name, is_group)], lines 1182-1241. *)
Definition create_chat (st : chat_state) (participant_ids : list string)
    (chat_name : option string) (is_group : bool) (now : N)
  : chat_state * option chat_view :=
  match object_ids participant_ids with
  | None => (st, None)
  | Some participants =>
      let d := cs_db st in
      let existing_chat :=
        if negb is_group && Nat.eqb (List.length participants) 2
        then find_one direct (chats d) else None in
      match existing_chat with
      | Some existing_chat =>
          (st, Some (ChatView (str (ch_id existing_chat))
                              (List.map str (ch_participants existing_chat))
                              (ch_is_group existing_chat) (ch_name existing_chat)))
      | None =>
          let name := name_of_chat d participants chat_name is_group in
          let chat := Chat (next_oid d) participants (Some is_group) (Some name) None in
          let d1 := bump_oid (with_chats d (chats d ++ [chat])%list) in
          let chat_id := str (ch_id chat) in
          (ChatState d1 (<[ch_id chat := ChatTimes now now]> (cs_times st))
                     (fold_left (add_chat_id d1 chat_id) participants (cs_chat_ids st)),
           Some (ChatView chat_id (List.map str participants) (Some is_group) (Some name)))
      end
  end.

(** The [_id] of a new chat is one no chat has yet, and an ObjectId. *)
Definition next_chat_id_fresh (d : db) : Prop :=
  valid (next_oid d) ∧ ∀ ch, ch ∈ chats d → ch_id ch ≠ next_oid d.

End Chats.

(** ** app.py: the kinds of files *)

Module Files.

(** [app.config['ALLOWED_EXTENSIONS']], lines 312-317, in the order of
    the dictionary. *)
Definition ALLOWED_EXTENSIONS : list (string * list string) :=
  [("images", ["png"; "jpg"; "jpeg"; "gif"; "bmp"; "webp"]);
   ("videos", ["mp4"; "avi"; "mov"; "wmv"; "flv"; "webm"; "mkv"]);
   ("audio", ["mp3"; "wav"; "ogg"; "flac"; "aac"; "m4a"]);
   ("documents", ["pdf"; "doc"; "docx"; "txt"; "rtf"; "xls"; "xlsx"; "ppt"; "pptx"; "csv"])].

(** [ext in extensions] *)
Definition contains (extensions : list string) (ext : string) : bool :=
  existsb (String.eqb ext) extensions.

(** [filename.rsplit('.', 1)[1]] when ['.' in filename]: what follows the
    last dot; [None] when the name has no dot. *)
Fixpoint after_last_dot (filename : string) : option string :=
  match filename with
  | EmptyString => None
  | String c rest =>
      match after_last_dot rest with
      | Some ext => Some ext
      | None => if Ascii.eqb c "." then Some rest else None
      end
  end.

(** In the three functions below [lower] is [str.lower]. *)

(** [allowed_file(filename)], lines 329-340. *)
Definition allowed_file (lower : string → string) (filename : string) : bool :=
  match after_last_dot filename with
  | None => false
  | Some ext =>
      let all_extensions := flat_map snd ALLOWED_EXTENSIONS in
      contains all_extensions (lower ext)
  end.

(** [get_file_category(filename)], lines 357-368. *)
Definition get_file_category (lower : string → string) (filename : string) : string :=
  match after_last_dot filename with
  | None => "other"
  | Some ext =>
      match List.find (λ '(category, extensions), contains extensions (lower ext))
                      ALLOWED_EXTENSIONS with
      | Some (category, _) => category
      | None => "other"
      end
  end.

(** [file_ext] of [save_file], line 377. *)
Definition file_ext (lower : string → string) (filename : string) : string :=
  match after_last_dot filename with
  | Some ext => lower ext
  | None => ""
  end.

(** [get_file_type(extension)], lines 2460-2473. *)
Definition get_file_type (extension : string) : string :=
  let image_extensions := ["png"; "jpg"; "jpeg"; "gif"; "bmp"; "webp"] in
  let video_extensions := ["mp4"; "avi"; "mov"; "wmv"; "flv"; "webm"; "mkv"] in
  let audio_extensions := ["mp3"; "wav"; "ogg"; "flac"; "aac"; "m4a"] in
  if contains image_extensions extension then "image"
  else if contains video_extensions extension then "video"
  else if contains audio_extensions extension then "audio"
  else "document".

(** [str.lower] on a name in ASCII. *)
Definition lower_ascii_char (c : ascii) : ascii :=
  let n := nat_of_ascii c in
  if Nat.leb 65 n && Nat.leb n 90 then ascii_of_nat (n + 32) else c.

Fixpoint lower_ascii (s : string) : string :=
  match s with
  | EmptyString => EmptyString
  | String c rest => String (lower_ascii_char c) (lower_ascii rest)
  end.

End Files.

(** ** More of the small world *)

Module Demo2.
Import App SocketIO DatabaseManager Store Demo.

Definition carol : string := "0000000000000000000000c4".

Definition no_data : ndata := NData None None None None None None None None None None.

(** Bob's inbox: Alice wrote twice (one row, counted 2) and a friend
    request came in. *)
Definition inbox : db :=
  fst (_create_notification
         (consolidate_all demo_db [(said "hi" 1, 1%N); (said "there" 2, 2%N)] bob)
         bob "friend_request" "C sent you a friend request" no_data 3).

(** Bob's stored status is not one of the three; Carol, who joined the
    chat, never chose a display name. *)
Definition odd_profiles : db :=
  Db [Profile 161 "alice" (Some "A") (Some true) (Some "busy") None;
      Profile 196 "carol" None None None None]
     [Chat 195 [161; 178]%N None None None; Chat 197 [161; 196]%N None None None]
     [] [] 1000.

(** A connection without a profile in its session, after Alice's "hello". *)
Definition with_guest : world := fst (connect alice_sent "sidG" None 8).

Definition thumbs_up : Relay.reaction_data :=
  Relay.ReactionData (Some hello_id) (Some "+1") (Some bob) [].

(** Carol, who is in no chat with Alice or Bob, connects as well. *)
Definition with_carol : world := fst (connect bob_joined "sidC" (Some carol) 3).

(** So does Dave, another stranger to that chat. *)
Definition dave : string := "0000000000000000000000d5".

Definition with_dave : world := fst (connect with_carol "sidD" (Some dave) 4).

(** A stranger writes to the chat of Alice and Bob. *)
Definition intrusion : send_message_data := SendMessage (Some c123) (Some "psst") None.

(** Bob liked Alice's message; Alice reacted to it herself. *)
Definition two_reactions : Reactions.reactions :=
  Reactions.Reactions [Reactions.Reaction 2000 1000 178 "+1" 6;
                       Reactions.Reaction 2001 1000 161 "!" 7] 2002.

(** Alice's "hello" and Bob's answer, as stored. *)
Definition told : Editing.message_store :=
  Editing.MessageStore
    [Editing.Stored (Message 1000 195 161 "hello" "text" 5 false false []) None None None
                    None None;
     Editing.Stored (Message 1001 195 178 "hi" "text" 6 false false []) None None None
                    None None]
    [] [].

(** Alice has started a direct chat with Bob through [create_chat]. *)
Definition chatting : Chats.chat_state :=
  fst (Chats.create_chat (Chats.ChatState demo_db ∅ ∅) [alice; bob] None false 1).

(** Alice has opened the chat as well. *)
Definition both_in_room : world := fst (handle_join_chat bob_joined "sidA" (Some c123)).

(** Bob's inbox behind a running server. *)
Definition inbox_world : world :=
  World inbox ∅ {["sidB" := bob]} (Transport {["sidB"]} {["sidB" := {["sidB"]}]}).

End Demo2.

(** * Properties *)

(** ** Strings and ObjectIds *)

Module PyFacts.
Import Py.

Lemma append_String (b : ascii) (s t : string) : String b s ++ t = String b (s ++ t).
Proof. reflexivity. Qed.

Lemma append_empty (t : string) : "" ++ t = t.
Proof. reflexivity. Qed.

Lemma string_app_assoc (s t u : string) : (s ++ t) ++ u = s ++ (t ++ u).
Proof.
  induction s as [|b s IH]; [done|]. by rewrite !append_String, IH.
Qed.

Lemma len_app (s t : string) : len (s ++ t) = (len s + len t)%nat.
Proof.
  induction s as [|c s IH]; [done|].
  rewrite append_String. cbn [len]. rewrite IH. lia.
Qed.

Lemma len_take (n : nat) (s : string) : (n ≤ len s)%nat → len (take n s) = n.
Proof.
  revert n. induction s as [|c s IH]; intros n; cbn [len take].
  - lia.
  - destruct (continuation c) eqn:Hc; cbn [len]; rewrite ?Hc.
    + apply IH.
    + destruct n as [|n]; cbn [len]; rewrite ?Hc; [done|].
      intros Hle. rewrite IH; [done | lia].
Qed.

Lemma take_all (n : nat) (s : string) : (len s ≤ n)%nat → take n s = s.
Proof.
  revert n. induction s as [|c s IH]; intros n; cbn [len take]; [done|].
  destruct (continuation c).
  - intros Hle. by rewrite IH.
  - destruct n as [|n]; [lia|]. intros Hle. rewrite IH; [done | lia].
Qed.

Lemma len_continuations (s : string) : continuations s = true → len s = 0.
Proof.
  induction s as [|c s IH]; cbn [continuations len]; [done|].
  intros [-> Hs]%andb_prop. by apply IH.
Qed.

Lemma take_continuations (n : nat) (s t : string) :
  continuations s = true → take n (s ++ t) = s ++ take n t.
Proof.
  induction s as [|c s IH]; cbn [continuations]; [done|].
  intros [Hc Hs]%andb_prop. rewrite !append_String. cbn [take]. by rewrite Hc, IH.
Qed.

Lemma of_characters_app (cs cs' : list string) :
  of_characters (cs ++ cs') = of_characters cs ++ of_characters cs'.
Proof.
  unfold of_characters. induction cs as [|c cs IH]; cbn [List.app fold_right]; [done|].
  by rewrite IH, string_app_assoc.
Qed.

(** On a [str] given by its characters, [len] is their number and the
    slice [[:n]] is the first [n] of them. *)
Lemma len_of_characters (cs : list string) :
  Forall (λ c, character c = true) cs → len (of_characters cs) = List.length cs.
Proof.
  unfold of_characters.
  induction 1 as [|c cs Hc _ IH]; cbn [fold_right List.length]; [done|].
  rewrite len_app, IH. destruct c as [|b c]; [done|]. cbn [character len] in *.
  apply andb_prop in Hc as [Hb Hc]. apply negb_true_iff in Hb. rewrite Hb.
  by rewrite (len_continuations c Hc).
Qed.

Lemma take_of_characters (n : nat) (cs : list string) :
  Forall (λ c, character c = true) cs →
  take n (of_characters cs) = of_characters (List.firstn n cs).
Proof.
  unfold of_characters. intros Hcs. revert n.
  induction Hcs as [|c cs Hc _ IH]; intros n; cbn [fold_right].
  - by destruct n.
  - destruct c as [|b c]; [done|]. cbn [character] in Hc.
    apply andb_prop in Hc as [Hb Hc]. apply negb_true_iff in Hb.
    rewrite append_String. cbn [take]. rewrite Hb. destruct n as [|n]; [done|].
    cbn [firstn fold_right]. by rewrite (take_continuations n c _ Hc), IH, append_String.
Qed.

Lemma truthy_Some (o : option string) :
  truthy o = true ↔ ∃ s, o = Some s ∧ s ≠ "".
Proof.
  destruct o as [s|]; simpl.
  - destruct (String.eqb_spec s ""); simpl; split.
    + done.
    + intros (s' & [= <-] & Hne). done.
    + eauto.
    + done.
  - split; [done | intros (s & ? & _); done].
Qed.

End PyFacts.

Module OidFacts.
Import Oid.
#[local] Open Scope N_scope.

Lemma hexval_hexdigit (d : N) : d < 16 → hexval (hexdigit d) = Some d.
Proof.
  intros Hd.
  assert (Hcases : d = 0 ∨ d = 1 ∨ d = 2 ∨ d = 3 ∨ d = 4 ∨ d = 5 ∨ d = 6 ∨ d = 7 ∨
                   d = 8 ∨ d = 9 ∨ d = 10 ∨ d = 11 ∨ d = 12 ∨ d = 13 ∨ d = 14 ∨ d = 15)
    by lia.
  repeat (destruct Hcases as [-> | Hcases]; [reflexivity |]).
  subst d. reflexivity.
Qed.

Lemma hexval_lt (c : ascii) (v : N) : hexval c = Some v → v < 16.
Proof.
  unfold hexval. cbv zeta.
  repeat match goal with
         | |- context [if ?b then _ else _] => destruct b eqn:?
         end; intros [= <-];
    repeat match goal with
           | H : (_ && _)%bool = true |- _ => apply andb_prop in H as [? ?]
           | H : (_ <=? _) = true |- _ => apply N.leb_le in H
           end; lia.
Qed.

Lemma parse_digits (k : nat) (n a : N) (rest : string) :
  n < 16 ^ N.of_nat k →
  parse_hex (digits k n rest) a = parse_hex rest (a * 16 ^ N.of_nat k + n).
Proof.
  revert n a rest. induction k as [|k IH]; intros n a rest Hn.
  - simpl in *. f_equal. lia.
  - rewrite Nat2N.inj_succ, N.pow_succ_r' in Hn.
    cbn [digits]. rewrite IH.
    + cbn [parse_hex]. rewrite hexval_hexdigit by (apply N.mod_lt; lia).
      f_equal. rewrite Nat2N.inj_succ, N.pow_succ_r'.
      pose proof (N.div_mod n 16 ltac:(lia)). lia.
    + apply N.Div0.div_lt_upper_bound. lia.
Qed.

Lemma length_digits (k : nat) (n : N) (rest : string) :
  String.length (digits k n rest) = (k + String.length rest)%nat.
Proof.
  revert n rest. induction k as [|k IH]; intros n rest; simpl; [done|].
  rewrite IH. simpl. lia.
Qed.

Lemma parse_hex_lt (s : string) (a n : N) :
  parse_hex s a = Some n → n < (a + 1) * 16 ^ N.of_nat (String.length s).
Proof.
  revert a. induction s as [|c s IH]; intros a; simpl String.length.
  - intros [= <-]. simpl. lia.
  - cbn [parse_hex]. destruct (hexval c) as [v|] eqn:Hv; [|done].
    intros Hp. apply IH in Hp. apply hexval_lt in Hv.
    rewrite Nat2N.inj_succ, N.pow_succ_r'. nia.
Qed.

Lemma ObjectId_str (o : N) : valid o → ObjectId (str o) = Some o.
Proof.
  intros Ho. unfold ObjectId, str. rewrite length_digits. simpl Nat.eqb.
  rewrite parse_digits by exact Ho. simpl. f_equal.
Qed.

Lemma ObjectId_valid (s : string) (o : N) : ObjectId s = Some o → valid o.
Proof.
  unfold ObjectId, valid. destruct (Nat.eqb_spec (String.length s) 24) as [Hl|]; [|done].
  intros Hp. apply parse_hex_lt in Hp. rewrite Hl in Hp. simpl in Hp. lia.
Qed.

Lemma ObjectId_canonical (s : string) (o : N) :
  ObjectId s = Some o → ObjectId (str o) = Some o.
Proof. intros H. apply ObjectId_str. by eapply ObjectId_valid. Qed.

End OidFacts.

(** From here on the two conversions are used through their lemmas (and
    evaluated on closed strings); they are not unfolded on open terms. *)
#[global] Opaque Oid.ObjectId Oid.str.

Module CollFacts.
Section CollFacts.
Context {A : Type} `{EqDecision A}.
Import Coll.

Lemma find_one_Some (q : A → bool) (c : list A) (x : A) : find_one q c = Some x → x ∈ c ∧ q x = true.
Proof.
  intros H. apply List.find_some in H as [Hin Hq]. split; [|done].
  by apply list_elem_of_In.
Qed.

Lemma find_one_None (q : A → bool) (c : list A) : find_one q c = None ↔ List.filter q c = [].
Proof.
  unfold find_one. induction c as [|x c IH]; simpl; [done|].
  destruct (q x); [split; done | done].
Qed.

Lemma length_update_one (q : A → bool) (f : A → A) (c : list A) : List.length (update_one q f c) = List.length c.
Proof. induction c as [|x c IH]; simpl; [done|]. destruct (q x); simpl; congruence. Qed.

End CollFacts.
End CollFacts.

(** ** The summary line of a consolidated notification *)

Module Summary.
Import Oid Coll CollFacts DatabaseManager.

Lemma update_one_hits {A : Type} (q : A → bool) (f : A → A) (c : list A) (x : A) :
  x ∈ c → q x = true → ∃ y, y ∈ c ∧ q y = true ∧ f y ∈ update_one q f c.
Proof.
  induction c as [|z c IH]; intros Hin Hq; [by apply elem_of_nil in Hin|].
  simpl. destruct (q z) eqn:Hz.
  - exists z. split_and!; [left | done | left].
  - apply elem_of_cons in Hin as [-> | Hin]; [congruence|].
    destruct (IH Hin Hq) as (y & Hy & Hqy & Hfy).
    exists y. split_and!; [by right | done | by right].
Qed.

Lemma message_preview_short (content : string) :
  Py.len content ≤ 50 → message_preview content = content.
Proof.
  intros Hlen. unfold message_preview.
  destruct (Nat.ltb_spec 50 (Py.len content)); [lia | done].
Qed.

Lemma message_preview_long (content : string) :
  50 < Py.len content →
  message_preview content = Py.take 47 content ++ "..." ∧
  Py.len (message_preview content) = 50.
Proof.
  intros Hlen. unfold message_preview.
  destruct (Nat.ltb_spec 50 (Py.len content)); [|lia].
  split; [done|]. rewrite PyFacts.len_app, PyFacts.len_take by lia. done.
Qed.

(** The preview of a content given by its characters. *)
Lemma message_preview_characters (characters : list string) :
  Forall (λ c, Py.character c = true) characters →
  message_preview (Py.of_characters characters)
  = if Nat.ltb 50 (List.length characters)
    then Py.of_characters (List.firstn 47 characters ++ ["."; "."; "."])
    else Py.of_characters characters.
Proof.
  intros Hcs. unfold message_preview. rewrite PyFacts.len_of_characters by done.
  destruct (Nat.ltb 50 (List.length characters)); [|done].
  by rewrite PyFacts.take_of_characters, PyFacts.of_characters_app.
Qed.

(** C8. The summary line of every notification the consolidator creates
    or updates is the sender's display name, a colon and a space, and the
    preview of the content. For a content of at most 50 characters the
    preview is the content itself; for a longer one it is the first 47
    characters of the content followed by the three characters of the
    ellipsis, 50 characters in all. Characters are those of the Python
    [str], whatever number of bytes encodes each. The line is both in the
    record returned and in the stored row of that id. *)
Theorem consolidated_summary_line (d d' : db) (message_data : message_data)
    (receiver_id : string) (now : N) (nv : notification_view) (characters : list string) :
  create_consolidated_message_notification d message_data receiver_id now = (d', Some nv) →
  Forall (λ c, Py.character c = true) characters →
  md_content message_data = Py.of_characters characters →
  let sender_name := display_name_of (get_user_profile d (md_sender_id message_data)) in
  let preview :=
    if Nat.ltb 50 (List.length characters)
    then Py.of_characters (List.firstn 47 characters ++ ["."; "."; "."])
    else Py.of_characters characters in
  let summary := sender_name ++ ": " ++ preview in
  nt_message (nv_doc nv) = summary
  ∧ (∃ row, row ∈ notifications d' ∧ str (nt_id row) = nv_id nv ∧ nt_message row = summary).
Proof.
  intros Hcall Hcs Hcontent. cbv zeta.
  rewrite <- (message_preview_characters characters Hcs), <- Hcontent.
  split.
  - unfold create_consolidated_message_notification in Hcall.
    destruct (ObjectId receiver_id) as [receiver|]; [|done].
    destruct (find_one _ _) as [existing|]; by injection Hcall as <- <-.
  - unfold create_consolidated_message_notification in Hcall.
    destruct (ObjectId receiver_id) as [receiver|]; [|done].
    destruct (find_one _ _) as [existing|] eqn:Hfind; injection Hcall as <- <-.
    + apply find_one_Some in Hfind as [Hin _].
      edestruct (update_one_hits (notification_by_id (nt_id existing))) as (y & _ & Hy & Hfy);
        [exact Hin | apply N.eqb_refl |].
      eexists. split; [exact Hfy|].
      apply N.eqb_eq in Hy. simpl. by rewrite Hy.
    + eexists. split; [apply elem_of_app; right; apply list_elem_of_singleton; reflexivity|].
      done.
Qed.

(** Alice writes 51 times the letter e with an acute accent, two bytes
    each: Bob's notification shows 47 of them and the ellipsis. *)
Lemma consolidated_summary_line_witness :
  ∃ nv, snd (create_consolidated_message_notification
               Demo.demo_db (Demo.said (Py.of_characters Demo.accents) 5) Demo.bob 6) = Some nv
        ∧ nt_message (nv_doc nv)
          = "A: " ++ Py.of_characters (List.repeat Demo.e_acute 47) ++ "...".
Proof.
  eexists. split; [vm_compute; reflexivity|].
  etransitivity.
  - refine (proj1 (consolidated_summary_line Demo.demo_db _
                     (Demo.said (Py.of_characters Demo.accents) 5) Demo.bob 6 _
                     Demo.accents _ _ _)).
    + vm_compute. reflexivity.
    + unfold Demo.accents. apply Forall_forall. intros c Hc.
      apply list_elem_of_In, repeat_spec in Hc. subst c. vm_compute. reflexivity.
    + reflexivity.
  - vm_compute. reflexivity.
Defined.

(** A content of 60 characters is cut to 47 and closed by the ellipsis;
    one of 26 accented letters, 52 bytes, is kept whole. *)
Example message_preview_60 :
  message_preview "123456789012345678901234567890123456789012345678901234567890"
  = "12345678901234567890123456789012345678901234567..."
  ∧ message_preview (Py.of_characters (List.repeat Demo.e_acute 26))
    = Py.of_characters (List.repeat Demo.e_acute 26).
Proof. split; vm_compute; reflexivity. Qed.

End Summary.

(** ** Fan-out of a new message *)

Module Fanout.
Import Oid Coll DatabaseManager SocketIO App.

Lemma deliveries_app (t : transport) (event : string) (out1 out2 : list emission) :
  deliveries t event (out1 ++ out2)%list
  = (deliveries t event out1 ++ deliveries t event out2)%list.
Proof. unfold deliveries. apply flat_map_app. Qed.

Lemma deliveries_other_events (t : transport) (event : string) (out : list emission) :
  Forall (λ e, em_event e ≠ event) out → deliveries t event out = [].
Proof.
  induction 1 as [|e out He _ IH]; [done|].
  unfold deliveries in *. simpl. rewrite IH.
  destruct (String.eqb_spec (em_event e) event); [done | done].
Qed.

(** The notification loops announce notifications and badge counts only. *)
Lemma notify_participants_events (d : db) (md : message_data) (u : string) (now : N)
    (participants : list string) :
  Forall (λ e, em_event e = "notification_updated")
         (snd (fst (notify_participants d md u now participants))).
Proof.
  revert d. induction participants as [|p rest IH]; intros d; simpl; [constructor|].
  destruct (negb (String.eqb p u)); [|apply IH].
  destruct (create_consolidated_message_notification d md p now) as [d1 notification].
  destruct (raises _); [by repeat constructor|].
  specialize (IH d1). destruct (notify_participants d1 md u now rest) as [[d2 out'] raised].
  simpl in *. by constructor.
Qed.

Lemma notify_participants_first_events (d : db) (md : message_data) (u : string) (now : N)
    (participants : list string) :
  Forall (λ e, em_event e = "notification_updated" ∨
               em_event e = "notification_badge_updated")
         (snd (fst (notify_participants_first d md u now participants))).
Proof.
  revert d. induction participants as [|p rest IH]; intros d; simpl; [constructor|].
  destruct (negb (String.eqb p u)); [|apply IH].
  destruct (create_consolidated_message_notification d md p now) as [d1 [nv|]];
    [|apply IH].
  destruct (raises _); [constructor; [by left | constructor]|].
  specialize (IH d1).
  destruct (notify_participants_first d1 md u now rest) as [[d2 out'] raised].
  simpl in *. constructor; [by left|]. constructor; [by right | done].
Qed.

(** A notification that was produced cannot be sent: the loop ends at the
    first participant the consolidator returns a notification for. Both
    loops then hold the same database and have raised, or neither has. *)
Lemma notify_participants_agree (d : db) (md : message_data) (u : string) (now : N)
    (participants : list string) :
  fst (fst (notify_participants_first d md u now participants))
  = fst (fst (notify_participants d md u now participants))
  ∧ snd (notify_participants_first d md u now participants)
    = snd (notify_participants d md u now participants).
Proof.
  revert d. induction participants as [|p rest IH]; intros d; simpl; [done|].
  destruct (negb (String.eqb p u)); [|apply IH].
  destruct (create_consolidated_message_notification d md p now) as [d1 [nv|]].
  - done.
  - cbn [raises serializable em_payload negb]. specialize (IH d1).
    destruct (notify_participants_first d1 md u now rest) as [[d2 out2] raised2].
    destruct (notify_participants d1 md u now rest) as [[d3 out3] raised3].
    done.
Qed.

(** The loop raises exactly when it has made an [emit] that raises, the
    last one it made. *)
Lemma notify_participants_raised (d : db) (md : message_data) (u : string) (now : N)
    (participants : list string) :
  snd (notify_participants d md u now participants)
  = existsb raises (snd (fst (notify_participants d md u now participants))).
Proof.
  revert d. induction participants as [|p rest IH]; intros d; simpl; [done|].
  destruct (negb (String.eqb p u)); [|apply IH].
  destruct (create_consolidated_message_notification d md p now) as [d1 notification].
  destruct (raises _) eqn:Hraises; [simpl; by rewrite Hraises|].
  specialize (IH d1). destruct (notify_participants d1 md u now rest) as [[d2 out'] raised].
  simpl in *. by rewrite Hraises.
Qed.

Lemma count_occ_elements (X : gset string) (c : string) :
  count_occ string_dec (elements X) c = if decide (c ∈ X) then 1 else 0.
Proof.
  pose proof (NoDup_elements X) as Hnd. apply NoDup_ListNoDup in Hnd.
  destruct (decide (c ∈ X)) as [Hin | Hnin].
  - apply elem_of_elements, list_elem_of_In in Hin.
    by apply (proj1 (NoDup_count_occ' string_dec (elements X)) Hnd).
  - apply (proj1 (count_occ_not_In string_dec (elements X) c)).
    rewrite <- list_elem_of_In, elem_of_elements. done.
Qed.

Lemma ObjectId_nonempty (s : string) (o : oid) : ObjectId s = Some o → s ≠ "".
Proof. intros H ->. vm_compute in H. done. Qed.

(** What either definition of the handler emits once the message is
    stored: the [emit] calls of the loop and then, when one of them
    raised, [message_error] to the sender and nothing else; otherwise the
    room broadcast that skips the sender and the echo to the sender's own
    room. *)
Lemma send_message_with_emits
    (notify : db → message_data → string → N → list string → db * list emission * bool)
    (w : world) (sid : string) (data : send_message_data) (now : N)
    (chat_id message_content user_profile_id : string) (d1 : db) (message : message_doc) :
  session w !! sid = Some user_profile_id →
  sm_chat_id data = Some chat_id →
  sm_message data = Some message_content →
  message_content ≠ "" →
  create_message (db_manager w) chat_id user_profile_id message_content
                 (default "text" (sm_type data)) now = (d1, Some message) →
  ∃ d2 notified raised md,
    send_message_with notify w sid data now
    = (with_db w d2,
       (notified ++
        if raised : bool
        then [Emit "message_error" (PError "Failed to send message") (Room sid None)]
        else [Emit "new_message" (PMessage md) (Room chat_id (Some sid));
              Emit "new_message" (PMessage md) (Room sid None)])%list)
    ∧ md_content md = message_content
    ∧ ((d2, notified, raised) = (d1, [], false) ∨
       ∃ chat, get_chat d1 chat_id user_profile_id = Some chat
               ∧ (d2, notified, raised)
                 = notify d1 md user_profile_id now (cv_participants chat)).
Proof.
  intros Hsession Hchat Hmessage Hne Hcreate.
  assert (chat_id ≠ "") as Hchat_ne.
  { unfold create_message in Hcreate.
    destruct (ObjectId chat_id) eqn:Hoid; [|done]. by eapply ObjectId_nonempty. }
  unfold send_message_with. rewrite Hchat, Hmessage.
  destruct (String.eqb_spec chat_id ""); [done|].
  destruct (String.eqb_spec message_content ""); [done|].
  simpl. rewrite Hsession, Hcreate.
  set (md := MessageData _ _ _ _ _ _ _ _).
  destruct (get_chat d1 chat_id user_profile_id) as [chat|].
  - destruct (notify d1 md user_profile_id now (cv_participants chat))
      as [[d2 notified] raised] eqn:Hn.
    exists d2, notified, raised, md. split_and!; [by destruct raised | done |].
    right. exists chat. split; [done|]. symmetry. exact Hn.
  - exists d1, [], false, md. split_and!; [reflexivity | done | by left].
Qed.

(** The handler that runs never delivers [new_message] for a message it
    has produced a notification for: the [emit] of the notification
    raises, and of what follows only [message_error] is sent. *)
Lemma notification_aborts_fanout (w : world) (sid : string) (data : send_message_data)
    (now : N) (t : transport) :
  let out := snd (handle_send_message w sid data now) in
  existsb raises out = true →
  deliveries t "new_message" out = []
  ∧ deliveries t "message_error" out = recipients t (Room sid None).
Proof.
  cbv zeta. unfold handle_send_message, send_message_with.
  destruct (sm_chat_id data) as [chat_id|]; [|done].
  destruct (sm_message data) as [message_content|]; [|done].
  destruct (_ || _); [done|].
  destruct (session w !! sid) as [user_profile_id|]; [|done].
  destruct (create_message _ _ _ _ _ _) as [d1 [message|]]; [|done].
  destruct (get_chat d1 chat_id user_profile_id) as [chat|]; [|done].
  pose proof (notify_participants_events d1
                (MessageData (str (msg_id message)) chat_id user_profile_id
                   (display_name_of (get_user_profile d1 user_profile_id)) message_content
                   (default "text" (sm_type data)) (msg_timestamp message) None)
                user_profile_id now (cv_participants chat)) as Hevents.
  pose proof (notify_participants_raised d1
                (MessageData (str (msg_id message)) chat_id user_profile_id
                   (display_name_of (get_user_profile d1 user_profile_id)) message_content
                   (default "text" (sm_type data)) (msg_timestamp message) None)
                user_profile_id now (cv_participants chat)) as Hraised.
  destruct (notify_participants _ _ _ _ _) as [[d2 notified] raised].
  cbn [fst snd] in *. subst raised.
  destruct (existsb raises notified) eqn:Hex; cbn [snd].
  - intros _. rewrite !deliveries_app.
    rewrite !(deliveries_other_events t _ notified)
      by (eapply Forall_impl; [exact Hevents|]; by intros e ->).
    split; [done|]. unfold deliveries. cbn. by rewrite app_nil_r.
  - rewrite existsb_app, Hex. done.
Qed.

(** C1, at an input where the code departs from the specification. Bob
    has the chat open on [sidB]; Alice, on [sidA], sends "hello". The
    message is stored and Bob's notification is created, but the handler
    passes the notification, which holds an [ObjectId] and [datetime]s,
    to [emit]: encoding it raises, the [except] branch emits
    [message_error] to Alice, and the two [new_message] emits that
    follow the loop are never reached. Bob's connection, joined to the
    room, and Alice's own get no copy, where the specification counts
    two. The handler as first defined does the same. *)
Theorem stored_message_is_not_delivered :
  let w' := fst (handle_send_message Demo.bob_joined "sidA" Demo.hello 5) in
  let out := snd (handle_send_message Demo.bob_joined "sidA" Demo.hello 5) in
  session Demo.bob_joined !! "sidA" = Some Demo.alice
  ∧ List.map msg_content (messages (db_manager w')) = ["hello"]
  ∧ members_of (sio w') Demo.c123 = {["sidB"]}
  ∧ List.map (λ e, (em_event e, raises e, em_to e)) out
    = [("notification_updated", true, Room Demo.bob None);
       ("message_error", false, Room "sidA" None)]
  ∧ deliveries (sio w') "new_message" out = []
  ∧ deliveries (sio w') "message_error" out = ["sidA"]
  ∧ List.map em_event (snd (handle_send_message_first Demo.bob_joined "sidA" Demo.hello 5))
    = ["notification_updated"; "message_error"].
Proof. cbv zeta. split_and!; vm_compute; reflexivity. Qed.

(** A connection without a profile in its session: nothing is stored and
    nothing is emitted. *)
Lemma send_message_unauthenticated
    (notify : db → message_data → string → N → list string → db * list emission * bool)
    (w : world) (sid : string) (data : send_message_data) (now : N) :
  session w !! sid = None → send_message_with notify w sid data now = (w, []).
Proof.
  intros Hsession. unfold send_message_with.
  destruct (sm_chat_id data), (sm_message data); try done.
  destruct (_ || _); [done|]. by rewrite Hsession.
Qed.

(** Where nobody is to be notified the fan-out is as specified. With no
    chat found for the sender, or no participant but the sender, the
    handler sends [new_message] once to every connection joined to the
    chat room other than the sender's, and once to the sender's. *)
Lemma new_message_copies (t : transport) (sid chat_id : string) (md : message_data) :
  members_of t sid = {[sid]} →
  let copies :=
    deliveries t "new_message"
      [Emit "new_message" (PMessage md) (Room chat_id (Some sid));
       Emit "new_message" (PMessage md) (Room sid None)] in
  let others := members_of t chat_id ∖ {[sid]} in
  (∀ c, count_occ string_dec copies c = if decide (c = sid ∨ c ∈ others) then 1 else 0)
  ∧ List.length copies = S (size others).
Proof.
  intros Hown. cbv zeta.
  unfold deliveries. simpl. rewrite Hown, elements_singleton, app_nil_r.
  split.
  - intros c. rewrite count_occ_app, count_occ_elements. simpl.
    destruct (string_dec sid c) as [-> | Hc].
    + rewrite decide_False
        by (rewrite elem_of_difference, elem_of_singleton; by intros [_ ?]).
      rewrite decide_True by (by left). done.
    + destruct (decide (c ∈ members_of t chat_id ∖ {[sid]})) as [Hin | Hnin].
      * rewrite decide_True by (by right). done.
      * rewrite decide_False; [done|]. intros [-> | ?]; done.
  - rewrite length_app. simpl. unfold size, set_size. simpl. lia.
Qed.

End Fanout.

(** ** Rewriting the first match *)

Module UpdateFacts.
Import Coll.
Section UpdateFacts.
Context {A : Type} `{EqDecision A}.
Implicit Types (q p : A → bool) (f : A → A) (c : list A).

Lemma find_one_update_one q f c :
  (∀ x, q (f x) = q x) →
  find_one q (update_one q f c) = f <$> find_one q c.
Proof.
  intros Hq. unfold find_one. induction c as [|x c IH]; simpl; [done|].
  destruct (q x) eqn:Hx; simpl.
  - by rewrite Hq, Hx.
  - by rewrite Hx.
Qed.

Lemma find_one_head_filter q c : find_one q c = head (List.filter q c).
Proof.
  unfold find_one. induction c as [|x c IH]; simpl; [done|]. by destruct (q x).
Qed.

Lemma modified_one_fixed q f c :
  (∀ x, q x = true → f x = x) → modified_one q f c = 0.
Proof.
  intros Hfix. unfold modified_one.
  destruct (find_one q c) as [x|] eqn:Hfind; [|done].
  apply CollFacts.find_one_Some in Hfind as [_ Hq].
  by rewrite decide_True by auto.
Qed.

Lemma update_one_fixed q f c :
  (∀ x, q x = true → f x = x) → update_one q f c = c.
Proof.
  intros Hfix. induction c as [|x c IH]; simpl; [done|].
  destruct (q x) eqn:Hx; [by rewrite Hfix | by rewrite IH].
Qed.

Lemma update_one_no_match q f c :
  (∀ x, x ∈ c → q x = false) → update_one q f c = c.
Proof.
  induction c as [|x c IH]; intros Hno; simpl; [done|].
  rewrite (Hno x) by left. rewrite IH; [done|]. intros y Hy. apply Hno. by right.
Qed.

Lemma update_one_app_last q f c x :
  (∀ y, y ∈ c → q y = false) → q x = true →
  update_one q f (c ++ [x]) = (c ++ [f x])%list.
Proof.
  induction c as [|y c IH]; intros Hno Hx; simpl.
  - by rewrite Hx.
  - rewrite (Hno y) by left. rewrite IH; [done | | done].
    intros z Hz. apply Hno. by right.
Qed.

(** A rewrite that keeps [p] keeps the number of documents satisfying it. *)
Lemma filter_length_update_one p q f c :
  (∀ x, p (f x) = p x) →
  List.length (List.filter p (update_one q f c)) = List.length (List.filter p c).
Proof.
  intros Hp. induction c as [|x c IH]; simpl; [done|].
  destruct (q x); simpl.
  - rewrite Hp. by destruct (p x).
  - destruct (p x); simpl; by rewrite IH.
Qed.

(** A rewrite that never makes [p] true does not add to them. *)
Lemma filter_length_update_one_le p q f c :
  (∀ x, p (f x) = true → p x = true) →
  List.length (List.filter p (update_one q f c)) ≤ List.length (List.filter p c).
Proof.
  intros Hp. induction c as [|x c IH]; simpl; [done|].
  destruct (q x); simpl.
  - destruct (p (f x)) eqn:Hfx; [rewrite (Hp _ Hfx); simpl; lia|].
    destruct (p x); simpl; lia.
  - destruct (p x); simpl; lia.
Qed.

Lemma filter_length_update_many_le p q f c :
  (∀ x, p (f x) = true → p x = true) →
  List.length (List.filter p (update_many q f c)) ≤ List.length (List.filter p c).
Proof.
  intros Hp. unfold update_many. induction c as [|x c IH]; simpl; [done|].
  destruct (q x); simpl.
  - destruct (p (f x)) eqn:Hfx; [rewrite (Hp _ Hfx); simpl; lia|].
    destruct (p x); simpl; lia.
  - destruct (p x); simpl; lia.
Qed.

Lemma filter_length_delete_many_le p q c :
  List.length (List.filter p (delete_many q c)) ≤ List.length (List.filter p c).
Proof.
  unfold delete_many. induction c as [|x c IH]; simpl; [done|].
  destruct (q x); simpl; destruct (p x); simpl; lia.
Qed.

Lemma map_update_one {B : Type} (g : A → B) q f c :
  (∀ x, g (f x) = g x) → List.map g (update_one q f c) = List.map g c.
Proof.
  intros Hg. induction c as [|x c IH]; simpl; [done|].
  destruct (q x); simpl; [by rewrite Hg | by rewrite IH].
Qed.

Lemma map_update_many {B : Type} (g : A → B) q f c :
  (∀ x, g (f x) = g x) → List.map g (update_many q f c) = List.map g c.
Proof.
  intros Hg. unfold update_many. induction c as [|x c IH]; simpl; [done|].
  rewrite IH. destruct (q x); [by rewrite Hg | done].
Qed.

Lemma elem_of_update_one q f c y :
  y ∈ update_one q f c → y ∈ c ∨ ∃ x, x ∈ c ∧ y = f x.
Proof.
  induction c as [|x c IH]; simpl; [by left|].
  destruct (q x).
  - intros [-> | Hy]%elem_of_cons.
    + right. exists x. split; [left | done].
    + left. by right.
  - intros [-> | Hy]%elem_of_cons; [left; left|].
    destruct (IH Hy) as [? | (z & ? & ?)]; [left; by right|].
    right. exists z. split; [by right | done].
Qed.

Lemma elem_of_update_many q f c y :
  y ∈ update_many q f c → y ∈ c ∨ ∃ x, x ∈ c ∧ y = f x.
Proof.
  unfold update_many. intros Hy. apply list_elem_of_In, in_map_iff in Hy as (x & Hx & Hin).
  apply list_elem_of_In in Hin. destruct (q x); subst; [right; eauto | by left].
Qed.

Lemma elem_of_delete_many q c y : y ∈ delete_many q c → y ∈ c.
Proof.
  unfold delete_many. intros Hy. apply list_elem_of_In, filter_In in Hy as [Hy _].
  by apply list_elem_of_In.
Qed.

End UpdateFacts.
End UpdateFacts.

(** ** A message that cannot be stored *)

Module PersistenceFailure.
Import Oid Coll DatabaseManager SocketIO App.

Lemma create_message_failure (d d1 : db) (chat_id sender_id content message_type : string)
    (now : N) :
  create_message d chat_id sender_id content message_type now = (d1, None) → d1 = d.
Proof.
  unfold create_message.
  destruct (ObjectId chat_id), (ObjectId sender_id); by intros [= <-].
Qed.

(** Whichever loop is used, a message that is not stored changes nothing
    and emits nothing: no broadcast, no notification, and no
    [message_error] either. *)
Lemma send_message_not_stored
    (notify : db → message_data → string → N → list string → db * list emission * bool)
    (w : world) (sid : string) (data : send_message_data) (now : N)
    (chat_id message_content user_profile_id : string) (d1 : db) :
  session w !! sid = Some user_profile_id →
  sm_chat_id data = Some chat_id →
  sm_message data = Some message_content →
  create_message (db_manager w) chat_id user_profile_id message_content
                 (default "text" (sm_type data)) now = (d1, None) →
  send_message_with notify w sid data now = (w, []).
Proof.
  intros Hsession Hchat Hmessage Hcreate.
  unfold send_message_with. rewrite Hchat, Hmessage.
  destruct (_ || _); [done|].
  rewrite Hsession, Hcreate.
  apply create_message_failure in Hcreate as ->. by destruct w.
Qed.

(** C7, at an input where the code departs from the specification. Alice sends
    "hello" to the chat id "lobby", which is no ObjectId, so
    [create_message] fails: the handler broadcasts nothing and creates no
    notification, as specified, but it does not emit [message_error] to the
    sender either; its list of emissions is empty. *)
Theorem send_message_failure_emits_nothing :
  create_message (db_manager Demo.bob_joined) "lobby" Demo.alice "hello" "text" 5
  = (db_manager Demo.bob_joined, None)
  ∧ handle_send_message Demo.bob_joined "sidA"
      (SendMessage (Some "lobby") (Some "hello") None) 5
    = (Demo.bob_joined, [])
  ∧ handle_send_message_first Demo.bob_joined "sidA"
      (SendMessage (Some "lobby") (Some "hello") None) 5
    = (Demo.bob_joined, []).
Proof. split_and!; vm_compute; reflexivity. Qed.

End PersistenceFailure.

(** ** The identity channel *)

Module IdentityChannel.
Import Oid Coll DatabaseManager SocketIO App.

Lemma members_of_join_room_ne (t : transport) (sid room room' : string) :
  room ≠ room' → members_of (join_room sid room t) room' = members_of t room'.
Proof. intros Hne. unfold members_of, join_room. simpl. by rewrite lookup_insert_ne. Qed.

Lemma members_of_leave_room_ne (t : transport) (sid room room' : string) :
  room ≠ room' → members_of (leave_room sid room t) room' = members_of t room'.
Proof. intros Hne. unfold members_of, leave_room. simpl. by rewrite lookup_insert_ne. Qed.

(** A new connection is alone in the room of its own name. *)
Lemma open_connection_own_room (t : transport) (sid : string) :
  rooms t !! sid = None → members_of (open_connection sid t) sid = {[sid]}.
Proof.
  intros Hnew. unfold open_connection, join_room, members_of. simpl.
  rewrite lookup_insert_eq, Hnew. simpl. by rewrite union_empty_r_L.
Qed.

(** So is a connection whose id was not in use, once it has connected. *)
Lemma connect_own_room (w : world) (sid : string) (user : option string) (now : N) :
  rooms (sio w) !! sid = None →
  members_of (sio (fst (connect w sid user now))) sid = {[sid]}.
Proof.
  intros Hnew. unfold connect, handle_connect. cbn [session].
  destruct user as [u|].
  - rewrite lookup_insert_eq. cbn [fst sio with_db with_connected_clients].
    by apply open_connection_own_room.
  - rewrite lookup_delete_eq. cbn [fst sio]. by apply open_connection_own_room.
Qed.

(** Joining or leaving a room of another name does not touch it. *)
Lemma join_chat_other_room (w : world) (sid sid' chat_id : string) :
  chat_id ≠ sid' →
  members_of (sio (fst (handle_join_chat w sid (Some chat_id)))) sid'
  = members_of (sio w) sid'.
Proof.
  intros Hne. unfold handle_join_chat.
  destruct (session w !! sid); [|done].
  destruct (String.eqb chat_id ""); [done|].
  cbn [fst sio with_sio]. by apply members_of_join_room_ne.
Qed.

Lemma leave_chat_other_room (w : world) (sid sid' chat_id : string) :
  chat_id ≠ sid' →
  members_of (sio (fst (handle_leave_chat w sid (Some chat_id)))) sid'
  = members_of (sio w) sid'.
Proof.
  intros Hne. unfold handle_leave_chat.
  destruct (session w !! sid); [|done].
  destruct (String.eqb chat_id ""); [done|].
  cbn [fst sio with_sio]. by apply members_of_leave_room_ne.
Qed.

(** Connecting enters no room but the connection's own: the room named
    by the user id gains no member. *)
Lemma connect_user_room (w : world) (sid user_profile_id : string) (now : N) :
  sid ≠ user_profile_id →
  members_of (sio (fst (connect w sid (Some user_profile_id) now))) user_profile_id
  = members_of (sio w) user_profile_id.
Proof.
  intros Hne. unfold connect, handle_connect. simpl. rewrite lookup_insert_eq. simpl.
  unfold open_connection. by rewrite members_of_join_room_ne.
Qed.

(** C3, at an input where the code departs from the specification. Bob is
    connected and authenticated on [sidB] and has the chat open; Alice
    sends "hello". The handler stores Bob's notification and emits
    [notification_updated] to the room named by Bob's user id, but no
    handler ever entered Bob's connection into that room: the event is
    delivered to no connection. *)
Theorem notification_updated_reaches_nobody :
  let w' := fst (handle_send_message Demo.bob_joined "sidA" Demo.hello 5) in
  let out := snd (handle_send_message Demo.bob_joined "sidA" Demo.hello 5) in
  connected_clients w' !! "sidB" = Some Demo.bob
  ∧ session w' !! "sidB" = Some Demo.bob
  ∧ "sidB" ∈ live (sio w')
  ∧ List.map em_to (List.filter (λ e, String.eqb (em_event e) "notification_updated") out)
    = [Room Demo.bob None]
  ∧ members_of (sio w') Demo.bob = ∅
  ∧ deliveries (sio w') "notification_updated" out = [].
Proof. cbv zeta. split_and!; vm_compute; try reflexivity. Qed.

End IdentityChannel.

(** ** Presence *)

Module PresenceFacts.
Import Oid Coll DatabaseManager SocketIO App Presence.

Lemma status_after_update (d : db) (profile_id status : string) (now : N) (o : oid) :
  ObjectId profile_id = Some o →
  find_one (profile_by_id o)
           (user_profiles (fst (update_user_status d profile_id status now)))
  = set_status status now <$> find_one (profile_by_id o) (user_profiles d).
Proof.
  intros Ho. unfold update_user_status. rewrite Ho. simpl.
  by apply UpdateFacts.find_one_update_one.
Qed.

Lemma status_offline_after_update (d : db) (profile_id : string) (now : N) :
  get_user_status (fst (update_user_status d profile_id "offline" now)) profile_id = "offline".
Proof.
  unfold get_user_status. destruct (ObjectId profile_id) as [o|] eqn:Ho; [|done].
  rewrite (status_after_update _ _ _ _ _ Ho).
  by destruct (find_one _ _).
Qed.

(** C5, as the code has it. Every disconnect of a connection registered
    in [connected_clients] sets the user's persisted status to
    ['offline'], records the last-seen time on the profile, broadcasts
    [user_offline] and removes that connection only; nothing looks at
    the user's other connections, which stay registered. *)
Theorem disconnect_sets_offline (w : world) (sid user_profile_id : string) (now : N) :
  connected_clients w !! sid = Some user_profile_id →
  let w' := fst (handle_disconnect w sid now) in
  get_user_status (db_manager w') user_profile_id = "offline"
  ∧ snd (handle_disconnect w sid now) = [Emit "user_offline" (PUser user_profile_id) Broadcast]
  ∧ connected_clients w' = delete sid (connected_clients w)
  ∧ (∀ sid', sid' ≠ sid → connected_clients w' !! sid' = connected_clients w !! sid')
  ∧ (∀ o profile, ObjectId user_profile_id = Some o →
       find_one (profile_by_id o) (user_profiles (db_manager w)) = Some profile →
       ∃ profile', find_one (profile_by_id o) (user_profiles (db_manager w')) = Some profile'
                   ∧ pf_status profile' = Some "offline"
                   ∧ pf_last_seen profile' = Some now).
Proof.
  intros Hreg. cbv zeta. unfold handle_disconnect. rewrite Hreg. simpl.
  split_and!.
  - apply status_offline_after_update.
  - done.
  - done.
  - intros sid' Hne. by rewrite lookup_delete_ne.
  - intros o profile Ho Hfind. rewrite (status_after_update _ _ _ _ _ Ho), Hfind.
    by eexists.
Qed.

Lemma disconnect_sets_offline_witness :
  get_user_status (db_manager (fst (handle_disconnect Demo.two_devices "sidA1" 3))) Demo.alice
  = "offline".
Proof.
  refine (proj1 (disconnect_sets_offline Demo.two_devices "sidA1" Demo.alice 3 _)).
  vm_compute. reflexivity.
Defined.

(** The first device disconnects: Alice's status is ['offline'] while her
    second device is still registered, so the status is not ['online']
    exactly when a connection maps to the user. *)
Lemma presence_inconsistent_after_disconnect :
  connected_clients (fst (disconnect Demo.two_devices "sidA1" 3)) !! "sidA2" = Some Demo.alice
  ∧ get_user_status (db_manager (fst (disconnect Demo.two_devices "sidA1" 3))) Demo.alice = "offline"
  ∧ ¬ consistent (fst (disconnect Demo.two_devices "sidA1" 3)) Demo.alice.
Proof.
  assert (connected_clients (fst (disconnect Demo.two_devices "sidA1" 3)) !! "sidA2"
          = Some Demo.alice) as Hreg by (vm_compute; reflexivity).
  assert (get_user_status (db_manager (fst (disconnect Demo.two_devices "sidA1" 3))) Demo.alice
          = "offline") as Hoff by (vm_compute; reflexivity).
  split_and!; [done | done |].
  intros [_ Hback]. rewrite Hoff in Hback.
  discriminate Hback. by exists "sidA2".
Qed.

End PresenceFacts.

(** ** Read receipts *)

Module ReadReceipt.
Import Oid Coll DatabaseManager SocketIO App Store.

Lemma add_to_read_by_id (u : oid) (m : message_doc) : msg_id (add_to_read_by u m) = msg_id m.
Proof. unfold add_to_read_by. by destruct (existsb _ _). Qed.

Lemma add_to_read_by_sender (u : oid) (m : message_doc) :
  msg_sender_id (add_to_read_by u m) = msg_sender_id m.
Proof. unfold add_to_read_by. by destruct (existsb _ _). Qed.

Lemma add_to_read_by_chat (u : oid) (m : message_doc) :
  msg_chat_id (add_to_read_by u m) = msg_chat_id m.
Proof. unfold add_to_read_by. by destruct (existsb _ _). Qed.

(** The set-add is idempotent. *)
Lemma add_to_read_by_idem (u : oid) (m : message_doc) :
  add_to_read_by u (add_to_read_by u m) = add_to_read_by u m.
Proof.
  unfold add_to_read_by. destruct (existsb (N.eqb u) (msg_read_by m)) eqn:Hin.
  - by rewrite Hin.
  - simpl. rewrite existsb_app. simpl. by rewrite N.eqb_refl, orb_true_r.
Qed.

Lemma add_to_read_by_new (u : oid) (m : message_doc) :
  existsb (N.eqb u) (msg_read_by m) = false → add_to_read_by u m ≠ m.
Proof.
  intros Hnew Heq. unfold add_to_read_by in Heq. rewrite Hnew in Heq.
  apply (f_equal msg_read_by) in Heq. simpl in Heq.
  apply (f_equal List.length) in Heq. rewrite length_app in Heq. simpl in Heq. lia.
Qed.

Lemma messages_after_mark (d : db) (message_id user_id : string) (now : N) (m u : oid) :
  ObjectId message_id = Some m → ObjectId user_id = Some u →
  messages (fst (mark_message_as_read d message_id user_id now))
  = update_one (message_by_id m) (add_to_read_by u) (messages d).
Proof.
  intros Hm Hu. unfold mark_message_as_read. rewrite Hm, Hu.
  destruct (Nat.ltb _ _); [|done].
  destruct (find_one _ _) as [message|]; [|done].
  destruct (negb _); [|done].
  unfold _create_notification. by destruct (ObjectId (str _)).
Qed.

(** Marking the same message read again by the same reader reports no
    success. *)
Lemma mark_message_as_read_again (d : db) (message_id user_id : string) (now now' : N) :
  snd (mark_message_as_read (fst (mark_message_as_read d message_id user_id now))
                            message_id user_id now') = false.
Proof.
  destruct (ObjectId message_id) as [m|] eqn:Hm;
    [destruct (ObjectId user_id) as [u|] eqn:Hu|].
  - pose proof (messages_after_mark d message_id user_id now m u Hm Hu) as Hmsgs.
    unfold mark_message_as_read at 1. rewrite Hm, Hu, Hmsgs.
    assert (modified_one (message_by_id m) (add_to_read_by u)
              (update_one (message_by_id m) (add_to_read_by u) (messages d)) = 0) as ->.
    { unfold modified_one. rewrite UpdateFacts.find_one_update_one.
      - destruct (find_one _ _); simpl; [|done].
        by rewrite decide_True by apply add_to_read_by_idem.
      - intros x. unfold message_by_id. by rewrite add_to_read_by_id. }
    done.
  - unfold mark_message_as_read. by rewrite Hm, Hu.
  - unfold mark_message_as_read. by rewrite Hm.
Qed.

(** The handler emits a receipt only after a successful mark. *)
Lemma handle_message_read_quiet (w : world) (sid message_id : string) (now : N)
    (user_profile_id : string) :
  session w !! sid = Some user_profile_id →
  snd (mark_message_as_read (db_manager w) message_id user_profile_id now) = false →
  snd (handle_message_read w sid (Some message_id) now) = [].
Proof.
  intros Hsession Hfail. unfold handle_message_read. rewrite Hsession.
  destruct (String.eqb _ _); [done|].
  destruct (mark_message_as_read _ _ _ _) as [d1 success]. simpl in Hfail. by subst.
Qed.

(** Reading the same message twice from the same connection: the second
    event emits nothing. *)
Lemma message_read_twice (w : world) (sid message_id : string) (now now' : N) :
  snd (handle_message_read (fst (handle_message_read w sid (Some message_id) now))
                           sid (Some message_id) now') = [].
Proof.
  destruct (session w !! sid) as [user_profile_id|] eqn:Hsession.
  - assert (∃ w1, fst (handle_message_read w sid (Some message_id) now) = w1
                  ∧ session w1 = session w
                  ∧ (message_id ≠ "" →
                     db_manager w1
                     = fst (mark_message_as_read (db_manager w) message_id user_profile_id now)))
      as (w1 & -> & Hs & Hd).
    { eexists. split; [reflexivity|]. unfold handle_message_read. rewrite Hsession.
      destruct (String.eqb_spec message_id ""); [done|].
      destruct (mark_message_as_read _ _ _ _) as [d1 success]. simpl.
      destruct success; [|done].
      destruct (ObjectId message_id); [|done]. by destruct (find_one _ _). }
    destruct (String.eqb_spec message_id "") as [-> | Hne].
    + unfold handle_message_read. rewrite Hs, Hsession. done.
    + eapply handle_message_read_quiet; [by rewrite Hs|].
      rewrite Hd by done. apply mark_message_as_read_again.
  - assert (fst (handle_message_read w sid (Some message_id) now) = w) as ->.
    { unfold handle_message_read. by rewrite Hsession. }
    unfold handle_message_read. by rewrite Hsession.
Qed.

(** C6, at an input where the code departs from the specification. Alice's own
    connection reports her message as read. The reader is newly added to
    [read_by], [mark_message_as_read] answers success (it skips only the
    stored notification when reader and sender coincide), and the handler,
    which looks at success alone, emits [message_read_receipt] to the
    sender's room although the reader is the sender. *)
Theorem own_message_read_emits_receipt :
  (∃ message, find_one (message_by_id 1000) (messages (db_manager Demo.alice_sent)) = Some message
              ∧ str (msg_sender_id message) = Demo.alice
              ∧ msg_read_by message = [])
  ∧ session Demo.alice_sent !! "sidA" = Some Demo.alice
  ∧ snd (handle_message_read Demo.alice_sent "sidA" (Some Demo.hello_id) 7)
    = [Emit "message_read_receipt" (PReceipt Demo.hello_id Demo.alice Demo.c123 7)
            (Room Demo.alice None)]
  ∧ snd (handle_message_read
           (fst (handle_message_read Demo.alice_sent "sidA" (Some Demo.hello_id) 7))
           "sidA" (Some Demo.hello_id) 8) = [].
Proof.
  split_and!.
  - eexists. split_and!; vm_compute; reflexivity.
  - vm_compute. reflexivity.
  - vm_compute. reflexivity.
  - apply message_read_twice.
Qed.

End ReadReceipt.

(** ** The badge count after a read receipt *)

Module Badge.
Import Oid OidFacts Coll DatabaseManager Store ReadReceipt.

Lemma count_app_last {A : Type} (q : A → bool) (c : list A) (x : A) :
  count_documents q (c ++ [x]) = count_documents q c + (if q x then 1 else 0).
Proof.
  unfold count_documents. rewrite List.filter_app, length_app. simpl. by destruct (q x).
Qed.

Lemma mark_message_as_read_new (d : db) (message_id user_id : string) (now : N)
    (m u : oid) (message : message_doc) :
  ObjectId message_id = Some m →
  ObjectId user_id = Some u →
  find_one (message_by_id m) (messages d) = Some message →
  existsb (N.eqb u) (msg_read_by message) = false →
  str (msg_sender_id message) ≠ user_id →
  valid (msg_sender_id message) →
  mark_message_as_read d message_id user_id now
  = (bump_oid
       (with_notifications
          (with_messages d (update_one (message_by_id m) (add_to_read_by u) (messages d)))
          (notifications d ++ [receipt_row d message message_id user_id now])),
     true).
Proof.
  intros Hm Hu Hfind Hnew Hother Hsender.
  pose proof (ObjectId_str _ Hsender) as Hsid.
  unfold mark_message_as_read. rewrite Hm, Hu.
  assert (modified_one (message_by_id m) (add_to_read_by u) (messages d) = 1) as ->.
  { unfold modified_one. rewrite Hfind.
    by rewrite decide_False by (by apply add_to_read_by_new). }
  cbn [Nat.ltb Nat.leb messages with_messages].
  rewrite UpdateFacts.find_one_update_one
    by (intros x; unfold message_by_id; by rewrite add_to_read_by_id).
  rewrite Hfind. cbn [fmap option_fmap option_map].
  rewrite add_to_read_by_sender, add_to_read_by_chat.
  destruct (String.eqb_spec (str (msg_sender_id message)) user_id) as [|_]; [done|].
  cbn [negb]. unfold _create_notification. rewrite Hsid. reflexivity.
Qed.

(** C10. When [mark_message_as_read] newly adds a reader who is not the
    sender, it appends an unread notification of type ['message_read']
    addressed to the sender; [get_unread_notifications_count] of the
    sender grows by one, and is back at its old value once that row is
    marked read. *)
Theorem read_receipt_raises_badge (d : db) (message_id user_id : string) (now : N)
    (m u : oid) (message : message_doc) :
  ObjectId message_id = Some m →
  ObjectId user_id = Some u →
  find_one (message_by_id m) (messages d) = Some message →
  existsb (N.eqb u) (msg_read_by message) = false →
  str (msg_sender_id message) ≠ user_id →
  valid (msg_sender_id message) →
  ids_fresh d →
  valid (next_oid d) →
  let sender_id := str (msg_sender_id message) in
  let d' := fst (mark_message_as_read d message_id user_id now) in
  snd (mark_message_as_read d message_id user_id now) = true
  ∧ ∃ row,
      notifications d' = (notifications d ++ [row])%list
      ∧ nt_type row = "message_read"
      ∧ nt_user_id row = msg_sender_id message
      ∧ nt_is_read row = false
      ∧ d_reader_id (nt_data row) = Some user_id
      ∧ get_unread_notifications_count d' sender_id
        = S (get_unread_notifications_count d sender_id)
      ∧ get_unread_notifications_count
          (fst (mark_notification_as_read d' (str (nt_id row)) sender_id)) sender_id
        = get_unread_notifications_count d sender_id.
Proof.
  intros Hm Hu Hfind Hnew Hother Hsender [_ Hbelow] Hnext. cbv zeta.
  pose proof (ObjectId_str _ Hsender) as Hsid.
  pose proof (ObjectId_str _ Hnext) as Hnid.
  rewrite (mark_message_as_read_new d message_id user_id now m u message) by done.
  cbn [fst snd]. split; [done|].
  exists (receipt_row d message message_id user_id now).
  split_and!; try reflexivity.
  - unfold get_unread_notifications_count. rewrite Hsid.
    cbn [notifications bump_oid with_notifications].
    rewrite count_app_last. cbn [receipt_row nt_user_id nt_is_read].
    rewrite N.eqb_refl. cbn [andb negb]. lia.
  - unfold mark_notification_as_read. cbn [receipt_row nt_id]. rewrite Hnid, Hsid.
    unfold get_unread_notifications_count. rewrite Hsid.
    cbn [fst notifications bump_oid with_notifications].
    rewrite UpdateFacts.update_one_app_last.
    + rewrite count_app_last. cbn [set_is_read nt_user_id nt_is_read negb].
      rewrite andb_false_r. lia.
    + intros y Hy. apply Hbelow in Hy. unfold notification_by_id.
      destruct (N.eqb_spec (nt_id y) (next_oid d)); [lia | done].
    + unfold notification_by_id. cbn [nt_id nt_user_id]. by rewrite !N.eqb_refl.
Qed.

(** Bob reads Alice's "hello". *)
Lemma read_receipt_raises_badge_witness :
  get_unread_notifications_count
    (fst (mark_message_as_read (App.db_manager Demo.alice_sent) Demo.hello_id Demo.bob 7)) Demo.alice
  = 1.
Proof.
  pose proof (read_receipt_raises_badge (App.db_manager Demo.alice_sent) Demo.hello_id Demo.bob 7
                1000 178 (Message 1000 195 161 "hello" "text" 5 false false [])) as H.
  destruct H as (_ & row & _ & _ & _ & _ & _ & Hcount & _).
  - vm_compute. reflexivity.
  - vm_compute. reflexivity.
  - vm_compute. reflexivity.
  - reflexivity.
  - vm_compute. discriminate.
  - vm_compute. reflexivity.
  - split.
    + vm_compute. repeat constructor; set_solver.
    + intros n Hn. vm_compute in Hn.
      apply list_elem_of_singleton in Hn as ->. vm_compute. reflexivity.
  - vm_compute. reflexivity.
  - etransitivity; [exact Hcount|]. vm_compute. reflexivity.
Defined.

End Badge.

(** ** One unread consolidated notification per pair *)

Module Consolidation.
Import Oid OidFacts Coll CollFacts DatabaseManager Store.

Lemma unread_from_spec (receiver : oid) (sender_id : string) (n : notification_doc) :
  unread_from receiver sender_id n = true ↔
  nt_user_id n = receiver ∧ nt_type n = "new_message" ∧ nt_is_read n = false
  ∧ d_sender_id (nt_data n) = Some sender_id.
Proof.
  unfold unread_from. rewrite !andb_true_iff, N.eqb_eq, String.eqb_eq, negb_true_iff,
    bool_decide_eq_true. tauto.
Qed.

Lemma unread_from_set_consolidated (receiver : oid) (sender_id msg content : string)
    (count : nat) (ts now : N) (n : notification_doc) :
  unread_from receiver sender_id (set_consolidated msg count content ts now n)
  = unread_from receiver sender_id n.
Proof. done. Qed.

Lemma unread_from_set_is_read (receiver : oid) (sender_id : string) (n : notification_doc) :
  unread_from receiver sender_id (set_is_read n) = false.
Proof. unfold unread_from. simpl. by rewrite andb_false_r. Qed.

Lemma unread_from_set_is_read_at (receiver : oid) (sender_id : string) (now : N)
    (n : notification_doc) :
  unread_from receiver sender_id (set_is_read_at now n) = false.
Proof. unfold unread_from. simpl. by rewrite andb_false_r. Qed.

(** *** Appending a freshly numbered row *)

Lemma ids_fresh_insert (d : db) (row : notification_doc) :
  ids_fresh d → nt_id row = next_oid d →
  ids_fresh (bump_oid (with_notifications d (notifications d ++ [row]))).
Proof.
  intros [Hnd Hbelow] Hid. split; simpl.
  - rewrite map_app. simpl. apply NoDup_app. split_and!; [done | | apply NoDup_singleton].
    intros i Hi ->%list_elem_of_singleton.
    apply list_elem_of_In, in_map_iff in Hi as (x & Hx & Hin).
    apply list_elem_of_In, Hbelow in Hin. lia.
  - intros n [Hn | ->%list_elem_of_singleton]%elem_of_app.
    + apply Hbelow in Hn. lia.
    + lia.
Qed.

Lemma unread_rows_insert (d : db) (row : notification_doc) (receiver : oid)
    (sender_id : string) :
  unread_rows (bump_oid (with_notifications d (notifications d ++ [row]))) receiver sender_id
  = (unread_rows d receiver sender_id
     ++ if unread_from receiver sender_id row then [row] else [])%list.
Proof.
  unfold unread_rows. simpl. rewrite List.filter_app. simpl.
  by destruct (unread_from _ _ row).
Qed.

(** *** Rewriting rows in place *)

Lemma ids_fresh_update_one (d : db) (q : notification_doc → bool)
    (f : notification_doc → notification_doc) :
  (∀ x, nt_id (f x) = nt_id x) → ids_fresh d →
  ids_fresh (with_notifications d (update_one q f (notifications d))).
Proof.
  intros Hid [Hnd Hbelow]. split; simpl.
  - by rewrite UpdateFacts.map_update_one.
  - intros n [Hn | (x & Hx & ->)]%UpdateFacts.elem_of_update_one; [by apply Hbelow|].
    rewrite Hid. by apply Hbelow.
Qed.

Lemma ids_fresh_update_many (d : db) (q : notification_doc → bool)
    (f : notification_doc → notification_doc) :
  (∀ x, nt_id (f x) = nt_id x) → ids_fresh d →
  ids_fresh (with_notifications d (update_many q f (notifications d))).
Proof.
  intros Hid [Hnd Hbelow]. split; simpl.
  - by rewrite UpdateFacts.map_update_many.
  - intros n [Hn | (x & Hx & ->)]%UpdateFacts.elem_of_update_many; [by apply Hbelow|].
    rewrite Hid. by apply Hbelow.
Qed.

Lemma NoDup_map_filter {A B : Type} (g : A → B) (p : A → bool) (c : list A) :
  NoDup (List.map g c) → NoDup (List.map g (List.filter p c)).
Proof.
  induction c as [|x c IH]; simpl; [done|].
  intros [Hx Hnd]%NoDup_cons. destruct (p x); simpl; [|by apply IH].
  apply NoDup_cons. split; [|by apply IH].
  intros Hin. apply Hx.
  apply list_elem_of_In, in_map_iff in Hin as (y & Hy & Hin).
  apply filter_In in Hin as [Hin _].
  apply list_elem_of_In, in_map_iff. eauto.
Qed.

Lemma ids_fresh_delete_many (d : db) (q : notification_doc → bool) :
  ids_fresh d → ids_fresh (with_notifications d (delete_many q (notifications d))).
Proof.
  intros [Hnd Hbelow]. split; simpl.
  - by apply NoDup_map_filter.
  - intros n Hn%UpdateFacts.elem_of_delete_many. by apply Hbelow.
Qed.

(** *** The invariant of the store *)

Lemma invariant_insert_other (d : db) (row : notification_doc) :
  invariant d → nt_id row = next_oid d → nt_type row ≠ "new_message" →
  invariant (bump_oid (with_notifications d (notifications d ++ [row]))).
Proof.
  intros [Hfresh Hone] Hid Hty. split; [by apply ids_fresh_insert|].
  intros receiver sender_id. rewrite unread_rows_insert.
  destruct (unread_from receiver sender_id row) eqn:Hrow.
  - apply unread_from_spec in Hrow as (_ & ? & _). done.
  - rewrite app_nil_r. apply Hone.
Qed.

Lemma invariant_update_one_read (d : db) (q : notification_doc → bool) :
  invariant d → invariant (with_notifications d (update_one q set_is_read (notifications d))).
Proof.
  intros [Hfresh Hone]. split; [by apply ids_fresh_update_one|].
  intros receiver sender_id. unfold unread_rows. simpl.
  etransitivity; [|apply (Hone receiver sender_id)].
  apply UpdateFacts.filter_length_update_one_le.
  intros x. by rewrite unread_from_set_is_read.
Qed.

Lemma invariant_update_many_read (d : db) (q : notification_doc → bool)
    (f : notification_doc → notification_doc) :
  (∀ x, nt_id (f x) = nt_id x) →
  (∀ receiver sender_id x, unread_from receiver sender_id (f x) = false) →
  invariant d → invariant (with_notifications d (update_many q f (notifications d))).
Proof.
  intros Hid Hread [Hfresh Hone]. split; [by apply ids_fresh_update_many|].
  intros receiver sender_id. unfold unread_rows. simpl.
  etransitivity; [|apply (Hone receiver sender_id)].
  apply UpdateFacts.filter_length_update_many_le.
  intros x. by rewrite Hread.
Qed.

Lemma invariant_delete_many (d : db) (q : notification_doc → bool) :
  invariant d → invariant (with_notifications d (delete_many q (notifications d))).
Proof.
  intros [Hfresh Hone]. split; [by apply ids_fresh_delete_many|].
  intros receiver sender_id. unfold unread_rows. simpl.
  etransitivity; [|apply (Hone receiver sender_id)].
  apply UpdateFacts.filter_length_delete_many_le.
Qed.

(** Changes outside the notification store, generating ids or not. *)
Lemma invariant_elsewhere (d d' : db) :
  notifications d' = notifications d → (next_oid d ≤ next_oid d')%N →
  invariant d → invariant d'.
Proof.
  intros Hn Hoid [[Hnd Hbelow] Hone]. split; [split|].
  - by rewrite Hn.
  - intros n Hin. rewrite Hn in Hin. apply Hbelow in Hin. lia.
  - intros receiver sender_id. unfold unread_rows. rewrite Hn. apply Hone.
Qed.

Lemma invariant_create_consolidated (d : db) (md : message_data) (receiver_id : string)
    (now : N) :
  invariant d →
  invariant (fst (create_consolidated_message_notification d md receiver_id now)).
Proof.
  intros Hinv. unfold create_consolidated_message_notification.
  destruct (ObjectId receiver_id) as [receiver|]; [|done].
  destruct (find_one _ _) as [existing|] eqn:Hfind; simpl.
  - destruct Hinv as [Hfresh Hone]. split; [by apply ids_fresh_update_one|].
    intros r s. unfold unread_rows. simpl.
    rewrite UpdateFacts.filter_length_update_one; [apply Hone | done].
  - destruct Hinv as [Hfresh Hone]. split; [by apply ids_fresh_insert|].
    intros r s. rewrite unread_rows_insert.
    destruct (unread_from r s _) eqn:Hrow; [|rewrite app_nil_r; apply Hone].
    apply unread_from_spec in Hrow as (<- & _ & _ & [= <-]). simpl.
    apply find_one_None in Hfind. unfold unread_rows. by rewrite Hfind.
Qed.

Lemma invariant_create_notification (d : db) (user_id notification_type message : string)
    (data : ndata) (now : N) :
  notification_type ≠ "new_message" → invariant d →
  invariant (fst (_create_notification d user_id notification_type message data now)).
Proof.
  intros Hty Hinv. unfold _create_notification.
  destruct (ObjectId user_id); [|done]. simpl. by apply invariant_insert_other.
Qed.

Lemma invariant_create_message (d : db) (chat_id sender_id content message_type : string)
    (now : N) :
  invariant d → invariant (fst (create_message d chat_id sender_id content message_type now)).
Proof.
  intros Hinv. unfold create_message.
  destruct (ObjectId chat_id), (ObjectId sender_id); try done. simpl.
  eapply invariant_elsewhere; [| |exact Hinv]; simpl; [done | lia].
Qed.

Lemma invariant_mark_message_as_read (d : db) (message_id user_id : string) (now : N) :
  invariant d → invariant (fst (mark_message_as_read d message_id user_id now)).
Proof.
  intros Hinv. unfold mark_message_as_read.
  destruct (ObjectId message_id), (ObjectId user_id); try done.
  set (d1 := with_messages d _).
  assert (invariant d1) as Hinv1.
  { eapply invariant_elsewhere; [| |exact Hinv]; simpl; [done | lia]. }
  destruct (Nat.ltb _ _); [|done].
  destruct (find_one _ _); [|done].
  destruct (negb _); [|done]. simpl.
  by apply invariant_create_notification.
Qed.

Lemma invariant_exec (d : db) (c : db_call) (now : N) :
  permitted c → invariant d → invariant (exec now d c).
Proof.
  intros Hperm Hinv. destruct c; simpl.
  - by apply invariant_create_message.
  - by apply invariant_create_consolidated.
  - by apply invariant_create_notification.
  - by apply invariant_mark_message_as_read.
  - unfold mark_notification_as_read.
    destruct (ObjectId notification_id), (ObjectId user_id); try done.
    by apply invariant_update_one_read.
  - unfold mark_all_notifications_as_read. destruct (ObjectId user_id); [|done].
    apply invariant_update_many_read; [done | | done].
    intros. apply unread_from_set_is_read.
  - unfold mark_all_message_notifications_as_read. destruct (ObjectId user_id); [|done].
    apply invariant_update_many_read; [done | | done].
    intros. apply unread_from_set_is_read_at.
  - unfold cleanup_read_notifications. destruct (ObjectId user_id); [|done].
    by apply invariant_delete_many.
  - by apply invariant_delete_many.
Qed.

Lemma reachable_invariant (d : db) : serially_reachable d → invariant d.
Proof.
  induction 1 as [d Hempty | d c now _ IH Hperm | d d' _ IH Hsame Hoid].
  - split; [split|].
    + rewrite Hempty. constructor.
    + intros n Hn. rewrite Hempty in Hn. by apply elem_of_nil in Hn.
    + intros receiver sender_id. unfold unread_rows. rewrite Hempty. simpl. lia.
  - by apply invariant_exec.
  - by eapply invariant_elsewhere.
Qed.

(** The database behind a running server stays among these states: the
    handlers write the notification store through the methods above. *)
Lemma reachable_update_user_status (d : db) (profile_id status : string) (now : N) :
  serially_reachable d → serially_reachable (fst (update_user_status d profile_id status now)).
Proof.
  intros Hreach. eapply serial_elsewhere; [exact Hreach | |].
  - unfold update_user_status. by destruct (ObjectId profile_id).
  - unfold update_user_status. destruct (ObjectId profile_id); simpl; lia.
Qed.

(** *** The row a call finds is the row it rewrites *)

Lemma update_one_at {A : Type} (q : A → bool) (f : A → A) (c1 c2 : list A) (x : A) :
  (∀ y, y ∈ c1 → q y = false) → q x = true →
  update_one q f (c1 ++ x :: c2) = (c1 ++ f x :: c2)%list.
Proof.
  induction c1 as [|y c1 IH]; intros Hno Hx; simpl.
  - by rewrite Hx.
  - rewrite (Hno y) by left. rewrite IH; [done | | done].
    intros z Hz. apply Hno. by right.
Qed.

Lemma update_one_split (q : notification_doc → bool)
    (f : notification_doc → notification_doc) (c : list notification_doc)
    (x : notification_doc) :
  NoDup (List.map nt_id c) → x ∈ c → q x = true →
  (∀ y, q y = true → nt_id y = nt_id x) →
  ∃ c1 c2, c = (c1 ++ x :: c2)%list ∧ update_one q f c = (c1 ++ f x :: c2)%list.
Proof.
  intros Hnd Hin Hx Hq.
  apply list_elem_of_split in Hin as (c1 & c2 & ->).
  exists c1, c2. split; [done|].
  apply update_one_at; [|done].
  intros y Hy. destruct (q y) eqn:Hqy; [|done].
  apply Hq in Hqy. rewrite map_app in Hnd. simpl in Hnd.
  apply NoDup_app in Hnd as (_ & Hdisj & _).
  exfalso. apply (Hdisj (nt_id y)).
  - apply list_elem_of_In, in_map, list_elem_of_In. done.
  - rewrite Hqy. left.
Qed.

Lemma filter_singleton_parts {A : Type} (p : A → bool) (c1 c2 : list A) (x row : A) :
  List.filter p (c1 ++ x :: c2) = [row] → p x = true →
  List.filter p c1 = [] ∧ List.filter p c2 = [] ∧ row = x.
Proof.
  intros Hfilter Hx. rewrite List.filter_app in Hfilter. simpl in Hfilter.
  rewrite Hx in Hfilter.
  destruct (List.filter p c1) as [|a l]; simpl in Hfilter.
  - by injection Hfilter as <- ->.
  - injection Hfilter as _ Hnil. by destruct l.
Qed.

Lemma unread_rows_elem (d : db) (receiver : oid) (sender_id : string) (row : notification_doc) :
  row ∈ unread_rows d receiver sender_id ↔
  row ∈ notifications d ∧ unread_from receiver sender_id row = true.
Proof. unfold unread_rows. by rewrite !list_elem_of_In, filter_In. Qed.

(** With no unread row for the pair, the call appends one, counted 1. *)
Lemma consolidate_insert (d : db) (md : message_data) (receiver_id : string) (now : N)
    (receiver : oid) :
  ObjectId receiver_id = Some receiver →
  unread_rows d receiver (md_sender_id md) = [] →
  ∃ row,
    fst (create_consolidated_message_notification d md receiver_id now)
    = bump_oid (with_notifications d (notifications d ++ [row]))
    ∧ nt_id row = next_oid d
    ∧ unread_from receiver (md_sender_id md) row = true
    ∧ d_message_count (nt_data row) = Some 1.
Proof.
  intros Hr Hnone. unfold create_consolidated_message_notification. rewrite Hr.
  apply find_one_None in Hnone. rewrite Hnone.
  eexists. split_and!; [reflexivity | done | | done].
  apply unread_from_spec. done.
Qed.

(** With one unread row for the pair, the call rewrites that row and adds
    one to its count. *)
Lemma consolidate_existing (d : db) (md : message_data) (receiver_id : string) (now : N)
    (receiver : oid) (row : notification_doc) :
  ObjectId receiver_id = Some receiver →
  ids_fresh d →
  unread_rows d receiver (md_sender_id md) = [row] →
  let d' := fst (create_consolidated_message_notification d md receiver_id now) in
  ∃ row',
    unread_rows d' receiver (md_sender_id md) = [row']
    ∧ d_message_count (nt_data row') = Some (default 1 (d_message_count (nt_data row)) + 1)
    ∧ nt_id row' = nt_id row
    ∧ List.length (notifications d') = List.length (notifications d)
    ∧ ids_fresh d'.
Proof.
  intros Hr Hfresh Hrows. cbv zeta.
  assert (row ∈ notifications d ∧ unread_from receiver (md_sender_id md) row = true)
    as [Hin Hrow] by (apply unread_rows_elem; rewrite Hrows; left).
  unfold create_consolidated_message_notification. rewrite Hr.
  rewrite UpdateFacts.find_one_head_filter. fold (unread_rows d receiver (md_sender_id md)).
  rewrite Hrows. cbn [head fst].
  assert (ids_fresh
            (with_notifications d
               (update_one (notification_by_id (nt_id row))
                  (set_consolidated
                     (display_name_of (get_user_profile d (md_sender_id md)) ++ ": "
                      ++ message_preview (md_content md))
                     (default 1 (d_message_count (nt_data row)) + 1)
                     (md_content md) (md_timestamp md) now)
                  (notifications d)))) as Hfresh' by (by apply ids_fresh_update_one).
  destruct Hfresh as [Hnd Hbelow].
  edestruct (update_one_split (notification_by_id (nt_id row))) as (c1 & c2 & Hc & Hupd);
    [exact Hnd | exact Hin | apply N.eqb_refl | by intros y ?%N.eqb_eq |].
  eexists. split_and!; [| | | | exact Hfresh'].
  - unfold unread_rows. cbn [notifications with_notifications].
    rewrite Hupd. unfold unread_rows in Hrows. rewrite Hc in Hrows.
    apply filter_singleton_parts in Hrows as (Hc1 & Hc2 & _); [|done].
    rewrite List.filter_app. cbn [List.filter].
    rewrite unread_from_set_consolidated, Hrow, Hc1, Hc2. reflexivity.
  - reflexivity.
  - reflexivity.
  - cbn [notifications with_notifications]. apply length_update_one.
Qed.

Lemma consolidate_all_existing (calls : list (message_data * N)) (d : db)
    (receiver_id sender_id : string) (receiver : oid) (row : notification_doc) (k : nat) :
  ObjectId receiver_id = Some receiver →
  Forall (λ c, md_sender_id (fst c) = sender_id) calls →
  ids_fresh d →
  unread_rows d receiver sender_id = [row] →
  d_message_count (nt_data row) = Some k →
  ∃ row',
    unread_rows (consolidate_all d calls receiver_id) receiver sender_id = [row']
    ∧ d_message_count (nt_data row') = Some (k + List.length calls)
    ∧ List.length (notifications (consolidate_all d calls receiver_id))
      = List.length (notifications d).
Proof.
  intros Hr Hcalls. revert d row k.
  induction Hcalls as [|[md now] calls Hmd _ IH]; intros d row k Hfresh Hrows Hk.
  - exists row. simpl. split_and!; [done | by rewrite Nat.add_0_r | done].
  - simpl in Hmd. subst sender_id. cbn [consolidate_all].
    destruct (consolidate_existing d md receiver_id now receiver row Hr Hfresh Hrows)
      as (row1 & Hrows1 & Hk1 & _ & Hlen1 & Hfresh1).
    rewrite Hk in Hk1. cbn [default] in Hk1.
    destruct (IH _ row1 (k + 1) Hfresh1 Hrows1 Hk1) as (row' & Hrows' & Hk' & Hlen').
    exists row'. split_and!; [done | | congruence].
    rewrite Hk'. f_equal. simpl. lia.
Qed.

(** K consecutive calls for a pair that had no unread row. *)
Lemma consecutive_calls_one_row (d : db) (calls : list (message_data * N))
    (receiver_id sender_id : string) (receiver : oid) :
  ids_fresh d →
  ObjectId receiver_id = Some receiver →
  Forall (λ c, md_sender_id (fst c) = sender_id) calls →
  calls ≠ [] →
  unread_rows d receiver sender_id = [] →
  ∃ row,
    unread_rows (consolidate_all d calls receiver_id) receiver sender_id = [row]
    ∧ nt_type row = "new_message"
    ∧ nt_is_read row = false
    ∧ d_message_count (nt_data row) = Some (List.length calls)
    ∧ List.length (notifications (consolidate_all d calls receiver_id))
      = S (List.length (notifications d)).
Proof.
  intros Hfresh Hr Hcalls Hne Hnone.
  destruct calls as [|[md now] calls]; [done|].
  apply Forall_cons in Hcalls as [Hmd Hcalls]. simpl in Hmd. subst sender_id.
  destruct (consolidate_insert d md receiver_id now receiver Hr Hnone)
    as (row1 & Hd1 & Hid1 & Hrow1 & Hk1).
  cbn [consolidate_all]. rewrite Hd1.
  edestruct (consolidate_all_existing calls
               (bump_oid (with_notifications d (notifications d ++ [row1])))
               receiver_id (md_sender_id md) receiver row1 1)
    as (row & Hrows & Hk & Hlen); [done | done | by apply ids_fresh_insert | | done |].
  { rewrite unread_rows_insert, Hnone, Hrow1. done. }
  exists row.
  assert (row ∈ unread_rows
            (consolidate_all (bump_oid (with_notifications d (notifications d ++ [row1])))
                             calls receiver_id) receiver (md_sender_id md)) as Hin
    by (rewrite Hrows; left).
  apply unread_rows_elem in Hin as [_ (_ & Hty & Hread & _)%unread_from_spec].
  split_and!; [done | done | done | by rewrite Hk | ].
  rewrite Hlen. cbn [notifications bump_oid with_notifications].
  rewrite length_app. simpl. lia.
Qed.

(** Two calls under a schedule are what threads can do. *)
Lemma run_reachable (now : N) (schedule : list Interleaving.turn) (d : db)
    (a b : Interleaving.call) :
  Threads.reachable d [a; b] →
  Threads.reachable (fst (fst (Interleaving.run now schedule d a b)))
                    [snd (fst (Interleaving.run now schedule d a b));
                     snd (Interleaving.run now schedule d a b)].
Proof.
  revert d a b. induction schedule as [|[|] schedule IH]; intros d a b Hreach; [done | |].
  - cbn [Interleaving.run].
    pose proof (Threads.reachable_step d [a; b] 0 a now Hreach eq_refl) as Hstep.
    destruct (Interleaving.step now d a) as [d' a']. by apply IH.
  - cbn [Interleaving.run].
    pose proof (Threads.reachable_step d [a; b] 1 b now Hreach eq_refl) as Hstep.
    destruct (Interleaving.step now d b) as [d' b']. by apply IH.
Qed.

(** C2, as the code has it. When every call returns before the next one
    starts, a (recipient, sender) pair has at most one unread
    consolidated notification in every state reached; and K consecutive
    calls of the consolidator for a pair that had none leave exactly one
    unread ['new_message'] row for the pair, with [message_count] K, in
    a store one row longer. Calls whose database operations interleave
    are not covered. *)
Theorem one_unread_row_per_pair :
  (∀ d, serially_reachable d → at_most_one_unread d)
  ∧ (∀ d calls receiver_id sender_id receiver,
       ids_fresh d →
       ObjectId receiver_id = Some receiver →
       Forall (λ c, md_sender_id (fst c) = sender_id) calls →
       calls ≠ [] →
       unread_rows d receiver sender_id = [] →
       let d' := consolidate_all d calls receiver_id in
       ∃ row,
         unread_rows d' receiver sender_id = [row]
         ∧ nt_type row = "new_message"
         ∧ nt_is_read row = false
         ∧ d_message_count (nt_data row) = Some (List.length calls)
         ∧ List.length (notifications d') = S (List.length (notifications d))).
Proof.
  split.
  - intros d Hreach. by apply reachable_invariant.
  - intros d calls receiver_id sender_id receiver Hfresh Hr Hcalls Hne Hnone. cbv zeta.
    by apply consecutive_calls_one_row.
Qed.

(** Alice writes three times to Bob, who reads nothing in between. *)
Lemma one_unread_row_per_pair_witness :
  ∃ row,
    unread_rows (consolidate_all Demo.demo_db
                   [(Demo.said "hi" 1, 1%N); (Demo.said "there" 2, 2%N);
                    (Demo.said "Bob" 3, 3%N)] Demo.bob) 178%N Demo.alice = [row]
    ∧ d_message_count (nt_data row) = Some 3.
Proof.
  destruct (proj2 one_unread_row_per_pair Demo.demo_db
              [(Demo.said "hi" 1, 1%N); (Demo.said "there" 2, 2%N); (Demo.said "Bob" 3, 3%N)]
              Demo.bob Demo.alice 178%N) as (row & Hrows & _ & _ & Hk & _).
  - split; [constructor | intros n Hn; by apply elem_of_nil in Hn].
  - vm_compute. reflexivity.
  - repeat constructor.
  - discriminate.
  - reflexivity.
  - exists row. split; [exact Hrows | exact Hk].
Defined.

(** The invariant does not hold of the running server. Alice's "hi" and
    "there" are handled on two threads and both calls of the
    consolidator look before either writes: a state that threads reach,
    in which Bob has two unread notifications from Alice; it is none of
    the states reached by calls made one after the other. *)
Theorem threads_reach_two_unread_rows :
  (∃ calls, Threads.reachable Demo.raced calls)
  ∧ List.map (λ n, (nt_type n, nt_is_read n, d_sender_id (nt_data n),
                   d_message_count (nt_data n)))
      (unread_rows Demo.raced 178%N Demo.alice)
    = [("new_message", false, Some Demo.alice, Some 1);
       ("new_message", false, Some Demo.alice, Some 1)]
  ∧ ¬ at_most_one_unread Demo.raced
  ∧ ¬ serially_reachable Demo.raced.
Proof.
  assert (¬ at_most_one_unread Demo.raced) as Hnot.
  { intros Hone. specialize (Hone 178%N Demo.alice). vm_compute in Hone. lia. }
  split_and!.
  - eexists. unfold Demo.raced. apply run_reachable.
    apply (Threads.reachable_start _ [_]). apply (Threads.reachable_start _ []).
    by apply Threads.reachable_init.
  - vm_compute. reflexivity.
  - exact Hnot.
  - intros Hserial. apply Hnot. by apply reachable_invariant.
Qed.

(** The scenario of two messages: the count goes from 1 to 2 and the
    summary shows the later message. *)
Example hi_then_there :
  List.map (λ n, (nt_message n, d_message_count (nt_data n)))
    (notifications (consolidate_all Demo.demo_db [(Demo.said "hi" 1, 1%N)] Demo.bob))
  = [("A: hi", Some 1)]
  ∧ List.map (λ n, (nt_message n, d_message_count (nt_data n)))
      (notifications (consolidate_all Demo.demo_db
                        [(Demo.said "hi" 1, 1%N); (Demo.said "there" 2, 2%N)] Demo.bob))
    = [("A: there", Some 2)].
Proof. split; vm_compute; reflexivity. Qed.

(** *** After a mark-read *)

Lemma at_most_one_singleton {A : Type} (l : list A) (x : A) :
  List.length l ≤ 1 → x ∈ l → l = [x].
Proof.
  destruct l as [|y [|z l]]; simpl; intros Hlen Hin.
  - by apply elem_of_nil in Hin.
  - by apply list_elem_of_singleton in Hin as ->.
  - lia.
Qed.

Lemma filter_update_many_nil {A : Type} (p q : A → bool) (f : A → A) (c : list A) :
  (∀ x, p x = true → q x = true) → (∀ x, p (f x) = false) →
  List.filter p (update_many q f c) = [].
Proof.
  intros Hpq Hpf. unfold update_many. induction c as [|x c IH]; simpl; [done|].
  destruct (q x) eqn:Hq.
  - by rewrite Hpf.
  - destruct (p x) eqn:Hp; [|done]. apply Hpq in Hp. congruence.
Qed.

Lemma elem_of_update_many_hit {A : Type} (q : A → bool) (f : A → A) (c : list A) (x : A) :
  x ∈ c → q x = true → f x ∈ update_many q f c.
Proof.
  intros Hin Hq. unfold update_many. apply list_elem_of_In, in_map_iff.
  exists x. rewrite Hq. split; [done | by apply list_elem_of_In].
Qed.

(** A mark-read that covers the pair's unread row leaves the pair without
    an unread row; the row is still there, read, with its id, summary and
    data. *)
Lemma mark_read_clears_pair (d : db) (row : notification_doc) (receiver_id sender_id : string)
    (receiver : oid) (m : mark_read) (now : N) :
  invariant d →
  ObjectId receiver_id = Some receiver →
  row ∈ notifications d →
  unread_from receiver sender_id row = true →
  covers m row sender_id →
  let d1 := apply_mark_read d receiver_id m now in
  unread_rows d1 receiver sender_id = []
  ∧ next_oid d1 = next_oid d
  ∧ ∃ read_row,
      read_row ∈ notifications d1
      ∧ nt_id read_row = nt_id row
      ∧ nt_is_read read_row = true
      ∧ nt_message read_row = nt_message row
      ∧ nt_data read_row = nt_data row.
Proof.
  intros [[Hnd Hbelow] Hone] Hr Hin Hrow Hcovers. cbv zeta.
  pose proof Hrow as (Huser & Hty & Hunread & Hsender)%unread_from_spec.
  destruct m as [notification_id | s |]; cbn [apply_mark_read covers] in *.
  - unfold mark_notification_as_read. rewrite Hcovers, Hr. cbn [fst].
    edestruct (update_one_split
                 (λ x, notification_by_id (nt_id row) x && N.eqb (nt_user_id x) receiver)
                 set_is_read (notifications d) row)
      as (c1 & c2 & Hc & Hupd); [done | done | | |].
    { unfold notification_by_id. rewrite Huser, !N.eqb_refl. done. }
    { intros y [Hy _]%andb_prop. by apply N.eqb_eq in Hy. }
    assert (unread_rows d receiver sender_id = [row]) as Hrows.
    { apply at_most_one_singleton; [apply Hone | by apply unread_rows_elem]. }
    unfold unread_rows in *. cbn [notifications with_notifications next_oid]. rewrite Hupd.
    rewrite Hc in Hrows. apply filter_singleton_parts in Hrows as (Hc1 & Hc2 & _); [|done].
    split_and!; [| done |].
    + rewrite List.filter_app. cbn [List.filter].
      by rewrite unread_from_set_is_read, Hc1, Hc2.
    + exists (set_is_read row). split_and!; try done.
      apply elem_of_app. right. left.
  - unfold mark_all_message_notifications_as_read. rewrite Hr. cbn [fst].
    unfold unread_rows. cbn [notifications with_notifications next_oid].
    assert (∀ x, unread_from receiver sender_id x = true →
                 unread_message_query receiver s x = true) as Hq.
    { intros x (Hu & Ht & Hi & Hs)%unread_from_spec. unfold unread_message_query.
      rewrite Hu, Ht, Hi, N.eqb_refl. simpl.
      destruct (Py.truthy s) eqn:Htruthy; [|done].
      rewrite (Hcovers eq_refl), Hs. by apply bool_decide_eq_true. }
    split_and!; [| done |].
    + apply filter_update_many_nil; [done|]. intros. apply unread_from_set_is_read_at.
    + exists (set_is_read_at now row). split_and!; try done.
      apply elem_of_update_many_hit; [done | by apply Hq].
  - unfold mark_all_notifications_as_read. rewrite Hr. cbn [fst].
    unfold unread_rows. cbn [notifications with_notifications next_oid].
    assert (∀ x, unread_from receiver sender_id x = true →
                 N.eqb (nt_user_id x) receiver && negb (nt_is_read x) = true) as Hq.
    { intros x (Hu & _ & Hi & _)%unread_from_spec. by rewrite Hu, Hi, N.eqb_refl. }
    split_and!; [| done |].
    + apply filter_update_many_nil; [done|]. intros. apply unread_from_set_is_read.
    + exists (set_is_read row). split_and!; try done.
      apply elem_of_update_many_hit; [done | by apply Hq].
Qed.

Lemma update_one_keeps {A : Type} (q : A → bool) (f : A → A) (c : list A) (y : A) :
  y ∈ c → q y = false → y ∈ update_one q f c.
Proof.
  induction c as [|x c IH]; simpl; [done|].
  intros [-> | Hy]%elem_of_cons Hq.
  - rewrite Hq. left.
  - destruct (q x); right; [done | by apply IH].
Qed.

Lemma same_id_same_row (c : list notification_doc) (x y : notification_doc) :
  NoDup (List.map nt_id c) → x ∈ c → y ∈ c → nt_id x = nt_id y → x = y.
Proof.
  induction c as [|z c IH]; simpl; [by intros _ ?%elem_of_nil|].
  intros [Hz Hnd]%NoDup_cons [-> | Hx]%elem_of_cons [-> | Hy]%elem_of_cons Hid; [done | | |].
  - exfalso. apply Hz. rewrite Hid. apply list_elem_of_In, in_map. by apply list_elem_of_In.
  - exfalso. apply Hz. rewrite <- Hid. apply list_elem_of_In, in_map. by apply list_elem_of_In.
  - by apply IH.
Qed.

(** A mark-read that covers an unread row marks that row, in any store
    whose ids are distinct: the row is still there, read, with its id,
    summary and data. *)
Lemma mark_read_marks_row (d : db) (row : notification_doc) (receiver_id sender_id : string)
    (receiver : oid) (m : mark_read) (now : N) :
  ids_fresh d →
  ObjectId receiver_id = Some receiver →
  row ∈ notifications d →
  unread_from receiver sender_id row = true →
  covers m row sender_id →
  let d1 := apply_mark_read d receiver_id m now in
  ids_fresh d1
  ∧ next_oid d1 = next_oid d
  ∧ ∃ read_row,
      read_row ∈ notifications d1
      ∧ nt_id read_row = nt_id row
      ∧ nt_is_read read_row = true
      ∧ nt_message read_row = nt_message row
      ∧ nt_data read_row = nt_data row.
Proof.
  intros Hfresh Hr Hin Hrow Hcovers. cbv zeta.
  pose proof Hfresh as [Hnd Hbelow].
  pose proof Hrow as (Huser & Hty & Hunread & Hsender)%unread_from_spec.
  destruct m as [notification_id | s |]; cbn [apply_mark_read covers] in *.
  - unfold mark_notification_as_read. rewrite Hcovers, Hr. cbn [fst].
    split; [by apply ids_fresh_update_one|]. split; [done|].
    edestruct (update_one_split
                 (λ x, notification_by_id (nt_id row) x && N.eqb (nt_user_id x) receiver)
                 set_is_read (notifications d) row)
      as (c1 & c2 & Hc & Hupd); [done | done | | |].
    { unfold notification_by_id. rewrite Huser, !N.eqb_refl. done. }
    { intros y [Hy _]%andb_prop. by apply N.eqb_eq in Hy. }
    cbn [notifications with_notifications]. rewrite Hupd.
    exists (set_is_read row). split_and!; try done.
    apply elem_of_app. right. left.
  - unfold mark_all_message_notifications_as_read. rewrite Hr. cbn [fst].
    split; [by apply ids_fresh_update_many|]. split; [done|].
    cbn [notifications with_notifications].
    exists (set_is_read_at now row). split_and!; try done.
    apply elem_of_update_many_hit; [done|].
    unfold unread_message_query. rewrite Huser, Hty, Hunread, N.eqb_refl. simpl.
    destruct (Py.truthy s) eqn:Htruthy; [|done].
    rewrite (Hcovers eq_refl), Hsender. by apply bool_decide_eq_true.
  - unfold mark_all_notifications_as_read. rewrite Hr. cbn [fst].
    split; [by apply ids_fresh_update_many|]. split; [done|].
    cbn [notifications with_notifications].
    exists (set_is_read row). split_and!; try done.
    apply elem_of_update_many_hit; [done|]. by rewrite Huser, Hunread, N.eqb_refl.
Qed.

(** A call of the consolidator leaves every read row where it is. *)
Lemma consolidator_keeps_read_rows (d : db) (md : message_data) (receiver_id : string)
    (now : N) (read_row : notification_doc) :
  ids_fresh d →
  read_row ∈ notifications d →
  nt_is_read read_row = true →
  read_row ∈ notifications (fst (create_consolidated_message_notification d md receiver_id now)).
Proof.
  intros [Hnd _] Hin Hread. unfold create_consolidated_message_notification.
  destruct (ObjectId receiver_id) as [receiver|]; [|done]. cbv zeta.
  destruct (find_one _ _) as [existing|] eqn:Hfind; cbn [fst notifications with_notifications
                                                        bump_oid].
  - apply find_one_Some in Hfind as [Hex Hunread].
    apply update_one_keeps; [done|].
    apply N.eqb_neq. intros Hid.
    assert (read_row = existing) as -> by (by eapply same_id_same_row).
    apply unread_from_spec in Hunread as (_ & _ & Hunread & _). congruence.
  - apply elem_of_app. by left.
Qed.

(** C4, as the code has it. Once an unread notification of the pair has
    been marked read (by its id, by sender, or with all of the user's
    notifications), no later call of the consolidator matches it: the
    next call for the pair leaves the read row as it is. When the pair
    has no other unread notification, that call appends a new row with
    [message_count] 1, which becomes the pair's unread row; and the pair
    has no other one when calls have run one after the other. *)
Theorem read_notification_is_inert (d : db) (row : notification_doc)
    (receiver_id sender_id : string) (receiver : oid) (m : mark_read)
    (md : message_data) (now now' : N) :
  ids_fresh d →
  ObjectId receiver_id = Some receiver →
  row ∈ notifications d →
  unread_from receiver sender_id row = true →
  covers m row sender_id →
  md_sender_id md = sender_id →
  let d1 := apply_mark_read d receiver_id m now in
  let d2 := fst (create_consolidated_message_notification d1 md receiver_id now') in
  (∃ read_row,
     read_row ∈ notifications d1
     ∧ nt_id read_row = nt_id row
     ∧ nt_is_read read_row = true
     ∧ nt_message read_row = nt_message row
     ∧ nt_data read_row = nt_data row
     ∧ read_row ∈ notifications d2)
  ∧ (unread_rows d1 receiver sender_id = [] →
     ∃ fresh,
       notifications d2 = (notifications d1 ++ [fresh])%list
       ∧ nt_id fresh ≠ nt_id row
       ∧ nt_is_read fresh = false
       ∧ d_message_count (nt_data fresh) = Some 1
       ∧ unread_rows d2 receiver sender_id = [fresh])
  ∧ (serially_reachable d → unread_rows d1 receiver sender_id = []).
Proof.
  intros Hfresh Hr Hin Hrow Hcovers Hmd. cbv zeta. subst sender_id.
  destruct (mark_read_marks_row d row receiver_id (md_sender_id md) receiver m now
              Hfresh Hr Hin Hrow Hcovers)
    as (Hfresh1 & Hnext & read_row & Hread_in & Hread_id & Hread & Hread_msg & Hread_data).
  split_and!.
  - exists read_row. split_and!; try done. by apply consolidator_keeps_read_rows.
  - intros Hnone.
    destruct (consolidate_insert _ md receiver_id now' receiver Hr Hnone)
      as (fresh & Hd2 & Hid & Hunread_fresh & Hk).
    exists fresh. rewrite Hd2.
    pose proof Hunread_fresh as (_ & _ & Hunread & _)%unread_from_spec.
    split_and!; try done.
    + rewrite Hid, Hnext. destruct Hfresh as [_ Hbelow]. apply Hbelow in Hin. lia.
    + rewrite unread_rows_insert, Hnone, Hunread_fresh. done.
  - intros Hserial.
    by destruct (mark_read_clears_pair d row receiver_id (md_sender_id md) receiver m now
                   (reachable_invariant d Hserial) Hr Hin Hrow Hcovers) as [Hnone _].
Qed.

(** Bob has one unread notification from Alice (id [0x3e8]), marks it
    read by id, and Alice writes again. *)
Lemma read_notification_is_inert_witness :
  List.map (λ n, (nt_id n, nt_is_read n, d_message_count (nt_data n)))
    (notifications
       (fst (create_consolidated_message_notification
               (apply_mark_read
                  (consolidate_all Demo.demo_db
                     [(Demo.said "hi" 1, 1%N); (Demo.said "there" 2, 2%N)] Demo.bob)
                  Demo.bob (ByNotification "0000000000000000000003e8") 3)
               (Demo.said "again" 4) Demo.bob 4)))
  = [(1000%N, true, Some 2); (1001%N, false, Some 1)].
Proof.
  set (d := consolidate_all Demo.demo_db
              [(Demo.said "hi" 1, 1%N); (Demo.said "there" 2, 2%N)] Demo.bob).
  assert (serially_reachable d) as Hserial.
  { apply (serial_exec _ (CreateConsolidated (Demo.said "there" 2) Demo.bob) 2); [|done].
    apply (serial_exec _ (CreateConsolidated (Demo.said "hi" 1) Demo.bob) 1); [|done].
    by apply serial_init. }
  destruct (read_notification_is_inert d
              (Notification 1000 178 "new_message" "A: there"
                 (NData (Some "0000000000000000000003e8") (Some Demo.c123) (Some Demo.alice)
                        (Some "A") (Some "hi") (Some "Chat") (Some 2) (Some "there")
                        (Some 2%N) None)
                 false 1 (Some 2%N) None)
              Demo.bob Demo.alice 178 (ByNotification "0000000000000000000003e8")
              (Demo.said "again" 4) 3 4)
    as (_ & Hfresh & Hnone).
  - by destruct (reachable_invariant d Hserial).
  - vm_compute. reflexivity.
  - vm_compute. left.
  - vm_compute. reflexivity.
  - vm_compute. reflexivity.
  - reflexivity.
  - destruct (Hfresh (Hnone Hserial)) as (fresh & Happ & _).
    vm_compute. reflexivity.
Defined.

(** The fresh row is not promised where threads have left the pair two
    unread rows. In the raced store Bob marks the first of them (id
    [0x3e8]) read, and Alice writes again: the call finds the other
    unread row and rewrites it to a count of 2; no row is added and
    none is counted 1. *)
Theorem raced_pair_gets_no_fresh_row :
  let d1 := apply_mark_read Demo.raced Demo.bob (ByNotification "0000000000000000000003e8") 6 in
  let d2 := fst (create_consolidated_message_notification d1 (Demo.said "again" 7)
                   Demo.bob 7) in
  ids_fresh Demo.raced
  ∧ List.map (λ n, (nt_id n, nt_is_read n, d_message_count (nt_data n))) (notifications d1)
    = [(1000%N, true, Some 1); (1001%N, false, Some 1)]
  ∧ List.map (λ n, (nt_id n, nt_is_read n, d_message_count (nt_data n))) (notifications d2)
    = [(1000%N, true, Some 1); (1001%N, false, Some 2)]
  ∧ ¬ (∃ fresh, notifications d2 = (notifications d1 ++ [fresh])%list).
Proof.
  cbv zeta. split_and!.
  - split.
    + apply (bool_decide_unpack _). vm_compute. reflexivity.
    + intros n Hn. vm_compute in Hn.
      repeat (apply elem_of_cons in Hn as [-> | Hn]; [vm_compute; reflexivity|]).
      by apply elem_of_nil in Hn.
  - vm_compute. reflexivity.
  - vm_compute. reflexivity.
  - intros [fresh Hfresh]. apply (f_equal List.length) in Hfresh.
    rewrite length_app in Hfresh. vm_compute in Hfresh. discriminate.
Qed.

End Consolidation.

(** ** Two calls of the consolidator at once *)

Module Race.
Import Oid Coll DatabaseManager Store Interleaving Consolidation.

(** Run without interruption, the three operations are the method. *)
Lemma to_completion_is_method (now : N) (d : db) (md : message_data) (receiver_id : string) :
  to_completion now d (Called md receiver_id)
  = (fst (create_consolidated_message_notification d md receiver_id now),
     Returned (snd (create_consolidated_message_notification d md receiver_id now))).
Proof.
  unfold to_completion, create_consolidated_message_notification. cbn [step].
  destruct (ObjectId receiver_id) as [receiver|]; [|done].
  cbn [step]. by destruct (find_one _ _).
Qed.

Lemma run_first_then_second (now : N) (d : db) (a b : call) :
  run now [First; First; First; Second; Second; Second] d a b
  = let '(d1, a') := to_completion now d a in
    let '(d2, b') := to_completion now d1 b in (d2, a', b').
Proof.
  unfold to_completion. cbn [run].
  destruct (step now d a) as [d1 a1]. destruct (step now d1 a1) as [d2 a2].
  destruct (step now d2 a2) as [d3 a3]. destruct (step now d3 b) as [d4 b1].
  destruct (step now d4 b1) as [d5 b2]. by destruct (step now d5 b2).
Qed.

Lemma run_second_then_first (now : N) (d : db) (a b : call) :
  run now [Second; Second; Second; First; First; First] d a b
  = let '(d1, b') := to_completion now d b in
    let '(d2, a') := to_completion now d1 a in (d2, a', b').
Proof.
  unfold to_completion. cbn [run].
  destruct (step now d b) as [d1 b1]. destruct (step now d1 b1) as [d2 b2].
  destruct (step now d2 b2) as [d3 b3]. destruct (step now d3 a) as [d4 a1].
  destruct (step now d4 a1) as [d5 a2]. by destruct (step now d5 a2).
Qed.

(** One call after the other, in either order. *)
Lemma two_calls_in_turn (d : db) (md md' : message_data) (receiver_id sender_id : string)
    (receiver : oid) (now : N) :
  ids_fresh d →
  ObjectId receiver_id = Some receiver →
  md_sender_id md = sender_id →
  md_sender_id md' = sender_id →
  unread_rows d receiver sender_id = [] →
  ∃ row,
    unread_rows
      (fst (create_consolidated_message_notification
              (fst (create_consolidated_message_notification d md receiver_id now))
              md' receiver_id now)) receiver sender_id = [row]
    ∧ d_message_count (nt_data row) = Some 2.
Proof.
  intros Hfresh Hr Hmd Hmd' Hnone.
  destruct (consecutive_calls_one_row d [(md, now); (md', now)] receiver_id sender_id
              receiver Hfresh Hr) as (row & Hrows & _ & _ & Hk & _);
    [by repeat constructor | done | done |].
  by exists row.
Qed.

(** C9, as the code has it. The upsert is a [find_one] followed by a
    separate [update_one] or [insert_one]. When two calls for the same
    pair run one after the other, in either order, both return and the
    pair has one unread row, counted 2. *)
Theorem serial_calls_share_one_row (d : db) (md1 md2 : message_data)
    (receiver_id sender_id : string) (receiver : oid) (now : N) (schedule : list turn) :
  ids_fresh d →
  ObjectId receiver_id = Some receiver →
  md_sender_id md1 = sender_id →
  md_sender_id md2 = sender_id →
  unread_rows d receiver sender_id = [] →
  serial schedule →
  let result := run now schedule d (Called md1 receiver_id) (Called md2 receiver_id) in
  finished (snd (fst result)) (snd result)
  ∧ ∃ row, unread_rows (fst (fst result)) receiver sender_id = [row]
           ∧ d_message_count (nt_data row) = Some 2.
Proof.
  intros Hfresh Hr Hmd1 Hmd2 Hnone [-> | ->]; cbv zeta.
  - rewrite run_first_then_second, !to_completion_is_method. cbn [fst snd].
    split; [split; eauto|]. by eapply two_calls_in_turn.
  - rewrite run_second_then_first, !to_completion_is_method. cbn [fst snd].
    split; [split; eauto|]. by eapply two_calls_in_turn.
Qed.

Lemma serial_calls_share_one_row_witness :
  List.map (λ n, d_message_count (nt_data n))
    (unread_rows
       (fst (fst (run 5 [First; First; First; Second; Second; Second] Demo.demo_db
                      (Called (Demo.said "hi" 1) Demo.bob)
                      (Called (Demo.said "there" 2) Demo.bob))))
       178%N Demo.alice)
  = [Some 2].
Proof.
  destruct (serial_calls_share_one_row Demo.demo_db (Demo.said "hi" 1) (Demo.said "there" 2)
              Demo.bob Demo.alice 178%N 5 [First; First; First; Second; Second; Second])
    as (_ & row & Hrows & Hk).
  - split; [constructor | intros n Hn; by apply elem_of_nil in Hn].
  - vm_compute. reflexivity.
  - reflexivity.
  - reflexivity.
  - reflexivity.
  - by left.
  - rewrite Hrows. simpl. by rewrite Hk.
Defined.

(** Under it both calls find no unread row and both insert: each returns
    a notification counted 1, and the pair has two unread rows. *)
Lemma racing_calls_make_two_rows :
  let result := run 5 racing Demo.demo_db
                    (Called (Demo.said "hi" 1) Demo.bob)
                    (Called (Demo.said "there" 2) Demo.bob) in
  finished (snd (fst result)) (snd result)
  ∧ List.map (λ n, (nt_id n, nt_message n, d_message_count (nt_data n)))
      (unread_rows (fst (fst result)) 178%N Demo.alice)
    = [(1000%N, "A: hi", Some 1); (1001%N, "A: there", Some 1)]
  ∧ ¬ (∃ row, unread_rows (fst (fst result)) 178%N Demo.alice = [row]).
Proof.
  cbv zeta. split_and!.
  - split; eexists; vm_compute; reflexivity.
  - vm_compute. reflexivity.
  - intros [row Hrow]. apply (f_equal List.length) in Hrow.
    vm_compute in Hrow. discriminate.
Qed.

End Race.

(** * Properties of the further methods and handlers *)

(** ** Rewriting and removing the first match *)

Module UpdateMore.
Import Coll CollMore.
Section UpdateMore.
Context {A : Type}.
Implicit Types (q p : A → bool) (f : A → A) (c : list A).

Lemma update_one_fixed_first q f c x :
  find_one q c = Some x → f x = x → update_one q f c = c.
Proof.
  unfold find_one. induction c as [|y c IH]; simpl; [done|].
  destruct (q y).
  - intros [= ->] ->. done.
  - intros Hfind Hx. by rewrite IH.
Qed.

(** Rewriting the first match out of [p] takes one off the count of [p]. *)
Lemma count_update_one_first p q f c x :
  find_one q c = Some x → p x = true → p (f x) = false →
  count_documents p (update_one q f c) + 1 = count_documents p c.
Proof.
  unfold find_one, count_documents. induction c as [|y c IH]; simpl; [done|].
  destruct (q y); simpl.
  - intros [= ->] Hp Hpf. rewrite Hp, Hpf. simpl. lia.
  - intros Hfind Hp Hpf. specialize (IH Hfind Hp Hpf). destruct (p y); simpl; lia.
Qed.

(** Rewriting the first match into [p] adds one. *)
Lemma count_update_one_first_in p q f c x :
  find_one q c = Some x → p x = false → p (f x) = true →
  count_documents p (update_one q f c) = S (count_documents p c).
Proof.
  unfold find_one, count_documents. induction c as [|y c IH]; simpl; [done|].
  destruct (q y); simpl.
  - intros [= ->] Hp Hpf. rewrite Hp, Hpf. simpl. lia.
  - intros Hfind Hp Hpf. specialize (IH Hfind Hp Hpf). destruct (p y); simpl; lia.
Qed.

(** A rewrite of the first match that keeps [p] keeps the count. *)
Lemma count_update_one_same p q f c :
  (∀ x, q x = true → p (f x) = p x) →
  count_documents p (update_one q f c) = count_documents p c.
Proof.
  intros Hp. unfold count_documents. induction c as [|y c IH]; simpl; [done|].
  destruct (q y) eqn:Hq; simpl.
  - rewrite Hp by done. by destruct (p y).
  - destruct (p y); simpl; by rewrite IH.
Qed.

Lemma find_one_delete_one_none q c :
  List.length (List.filter q c) ≤ 1 → find_one q (delete_one q c) = None.
Proof.
  unfold find_one. induction c as [|y c IH]; simpl; [done|].
  destruct (q y) eqn:Hq; simpl.
  - intros Hlen. apply CollFacts.find_one_None.
    destruct (List.filter q c); [done | simpl in Hlen; lia].
  - rewrite Hq. apply IH.
Qed.

Lemma filter_delete_one_other p q c :
  (∀ x, q x = true → p x = false) →
  List.filter p (delete_one q c) = List.filter p c.
Proof.
  intros Hqp. induction c as [|y c IH]; simpl; [done|].
  destruct (q y) eqn:Hq; simpl.
  - by rewrite (Hqp _ Hq).
  - destruct (p y); by rewrite IH.
Qed.

Lemma filter_delete_one_le p q c :
  List.length (List.filter p (delete_one q c)) ≤ List.length (List.filter p c).
Proof.
  induction c as [|y c IH]; simpl; [done|].
  destruct (q y); simpl; destruct (p y); simpl; lia.
Qed.

Lemma filter_delete_one_same q c :
  List.length (List.filter q c) ≤ 1 → List.filter q (delete_one q c) = [].
Proof.
  induction c as [|y c IH]; simpl; [done|].
  destruct (q y) eqn:Hq; simpl.
  - intros Hlen. destruct (List.filter q c); [done | simpl in Hlen; lia].
  - rewrite Hq. apply IH.
Qed.

Lemma length_delete_one q c :
  List.length (delete_one q c) + deleted_one q c = List.length c.
Proof.
  unfold deleted_one. induction c as [|y c IH]; simpl; [done|].
  destruct (q y); simpl; lia.
Qed.

Lemma existsb_find_one q c : existsb q c = bool_decide (is_Some (find_one q c)).
Proof.
  unfold find_one. induction c as [|x c IH]; simpl; [done|].
  by destruct (q x).
Qed.

(** The first match of a query is the first match of a narrower query it
    satisfies. *)
Lemma first_match_refined q p c x :
  (∀ y, p y = true → q y = true) → find_one q c = Some x → p x = true →
  find_one p c = Some x ∧ ∀ f, update_one p f c = update_one q f c.
Proof.
  intros Himp. unfold find_one. induction c as [|y c IH]; simpl; [done|].
  destruct (q y) eqn:Hq.
  - intros [= ->] Hp. by rewrite Hp.
  - intros Hfind Hp. destruct (p y) eqn:Hpy; [by rewrite Himp in Hq|].
    destruct (IH Hfind Hp) as [-> Hu]. split; [done|]. intros f. by rewrite Hu.
Qed.

End UpdateMore.
End UpdateMore.

(** ** Marking read and cleaning up *)

Module NotificationStore.
Import Oid Coll CollFacts DatabaseManager Store.

Lemma count_update_many_none {A : Type} (p q : A → bool) (f : A → A) (c : list A) :
  (∀ x, p x = true → q x = true) → (∀ x, p (f x) = false) →
  count_documents p (update_many q f c) = 0.
Proof.
  intros Hpq Hpf. unfold count_documents, update_many.
  induction c as [|x c IH]; simpl; [done|].
  destruct (q x) eqn:Hq.
  - by rewrite Hpf.
  - destruct (p x) eqn:Hp; [|done]. apply Hpq in Hp. congruence.
Qed.

Lemma count_update_many_same {A : Type} (p q : A → bool) (f : A → A) (c : list A) :
  (∀ x, q x = true → p (f x) = p x) →
  count_documents p (update_many q f c) = count_documents p c.
Proof.
  intros Hp. unfold count_documents, update_many.
  induction c as [|x c IH]; simpl; [done|].
  destruct (q x) eqn:Hq.
  - rewrite Hp by done. destruct (p x); simpl; by rewrite IH.
  - destruct (p x); simpl; by rewrite IH.
Qed.

(** Rows that satisfied [p] and are rewritten out of it are as many as
    the rewrite matched. *)
Lemma count_update_many_split {A : Type} (p q : A → bool) (f : A → A) (c : list A) :
  (∀ x, q x = true → p x = true) → (∀ x, p (f x) = false) →
  count_documents p (update_many q f c) + count_documents q c = count_documents p c.
Proof.
  intros Hqp Hpf. unfold count_documents, update_many.
  induction c as [|x c IH]; simpl; [done|].
  destruct (q x) eqn:Hq.
  - rewrite Hpf, (Hqp _ Hq). simpl. lia.
  - destruct (p x); simpl; lia.
Qed.

Lemma modified_many_all `{EqDecision A} (q : A → bool) (f : A → A) (c : list A) :
  (∀ x, q x = true → f x ≠ x) → modified_many q f c = count_documents q c.
Proof.
  intros Hf. unfold modified_many, count_documents.
  induction c as [|x c IH]; simpl; [done|].
  destruct (q x) eqn:Hq; simpl; [|done].
  rewrite bool_decide_eq_false_2 by auto. simpl. by rewrite IH.
Qed.

Lemma length_update_many {A : Type} (q : A → bool) (f : A → A) (c : list A) :
  List.length (update_many q f c) = List.length c.
Proof. unfold update_many. apply length_map. Qed.

Lemma set_is_read_changes (x : notification_doc) : nt_is_read x = false → set_is_read x ≠ x.
Proof. intros Hx Heq. apply (f_equal nt_is_read) in Heq. simpl in Heq. congruence. Qed.

Lemma set_is_read_at_changes (now : N) (x : notification_doc) :
  nt_is_read x = false → set_is_read_at now x ≠ x.
Proof. intros Hx Heq. apply (f_equal nt_is_read) in Heq. simpl in Heq. congruence. Qed.

(** X1. [mark_all_notifications_as_read] reports as [marked_count] the
    user's unread count, leaves that count at 0, keeps every row, and
    does not change the unread count of any other user. *)
Theorem mark_all_notifications_as_read_clears (d : db) (user_id : string) (u : oid) :
  ObjectId user_id = Some u →
  let d' := fst (mark_all_notifications_as_read d user_id) in
  snd (mark_all_notifications_as_read d user_id)
  = Success (Some (get_unread_notifications_count d user_id))
  ∧ get_unread_notifications_count d' user_id = 0
  ∧ List.length (notifications d') = List.length (notifications d)
  ∧ (∀ other o, ObjectId other = Some o → o ≠ u →
       get_unread_notifications_count d' other = get_unread_notifications_count d other).
Proof.
  intros Hu. cbv zeta. unfold mark_all_notifications_as_read, get_unread_notifications_count.
  rewrite Hu. cbn [fst snd notifications with_notifications]. split_and!.
  - do 2 f_equal. apply modified_many_all.
    intros x [_ Hx%negb_true_iff]%andb_prop. by apply set_is_read_changes.
  - apply count_update_many_none; [done|]. intros x. simpl. by rewrite andb_false_r.
  - apply length_update_many.
  - intros other o -> Hne. apply count_update_many_same.
    intros x [Hx%N.eqb_eq _]%andb_prop. simpl.
    destruct (N.eqb_spec (nt_user_id x) o); [congruence | done].
Qed.

Lemma mark_all_notifications_as_read_clears_witness :
  snd (mark_all_notifications_as_read Demo2.inbox Demo.bob) = Success (Some 2).
Proof.
  etransitivity.
  - refine (proj1 (mark_all_notifications_as_read_clears Demo2.inbox Demo.bob 178%N _)).
    vm_compute. reflexivity.
  - vm_compute. reflexivity.
Defined.

(** X2. [mark_all_message_notifications_as_read] returns the number of
    unread message notifications it was asked about (of the sender, or of
    every sender when none is given), leaves that number at 0, and lowers
    the user's unread count of all notifications by exactly what it
    returns: notifications of other types stay unread. *)
Theorem mark_all_message_notifications_as_read_count (d : db) (user_id : string)
    (sender_id : option string) (now : N) (u : oid) :
  ObjectId user_id = Some u →
  let d' := fst (mark_all_message_notifications_as_read d user_id sender_id now) in
  let cleared := snd (mark_all_message_notifications_as_read d user_id sender_id now) in
  cleared = get_unread_message_notifications_count d user_id sender_id
  ∧ get_unread_message_notifications_count d' user_id sender_id = 0
  ∧ get_unread_notifications_count d' user_id + cleared
    = get_unread_notifications_count d user_id.
Proof.
  intros Hu. cbv zeta.
  unfold mark_all_message_notifications_as_read, get_unread_message_notifications_count,
    get_unread_notifications_count.
  rewrite Hu. cbn [fst snd notifications with_notifications].
  assert (∀ x, unread_message_query u sender_id x = true → nt_is_read x = false) as Hunread.
  { intros x Hx. unfold unread_message_query in Hx.
    apply andb_prop in Hx as [[[_ _]%andb_prop Hr]%andb_prop _].
    by apply negb_true_iff in Hr. }
  assert (∀ x, unread_message_query u sender_id (set_is_read_at now x) = false) as Hgone.
  { intros x. unfold unread_message_query. simpl. by rewrite andb_false_r. }
  split_and!.
  - apply modified_many_all. intros x Hx. apply set_is_read_at_changes. by apply Hunread.
  - by apply count_update_many_none.
  - rewrite (modified_many_all _ _ _ (λ x Hx, set_is_read_at_changes now x (Hunread x Hx))).
    apply count_update_many_split.
    + intros x Hx. pose proof (Hunread x Hx) as Hr. unfold unread_message_query in Hx.
      apply andb_prop in Hx as [[[Hx _]%andb_prop _]%andb_prop _]. by rewrite Hx, Hr.
    + intros x. simpl. by rewrite andb_false_r.
Qed.

Lemma mark_all_message_notifications_as_read_count_witness :
  snd (mark_all_message_notifications_as_read Demo2.inbox Demo.bob (Some Demo.alice) 4) = 1
  ∧ get_unread_notifications_count
      (fst (mark_all_message_notifications_as_read Demo2.inbox Demo.bob (Some Demo.alice) 4))
      Demo.bob = 1.
Proof.
  destruct (mark_all_message_notifications_as_read_count Demo2.inbox Demo.bob
              (Some Demo.alice) 4 178%N) as (Hn & _ & Hsum).
  - vm_compute. reflexivity.
  - split.
    + rewrite Hn. vm_compute. reflexivity.
    + vm_compute. reflexivity.
Defined.

Lemma count_delete_many_same {A : Type} (p q : A → bool) (c : list A) :
  (∀ x, q x = true → p x = false) →
  count_documents p (delete_many q c) = count_documents p c.
Proof.
  intros Hqp. unfold count_documents, delete_many.
  induction c as [|x c IH]; simpl; [done|].
  destruct (q x) eqn:Hq; simpl.
  - by rewrite (Hqp _ Hq).
  - destruct (p x); simpl; by rewrite IH.
Qed.

Lemma length_delete_many {A : Type} (q : A → bool) (c : list A) :
  List.length (delete_many q c) + count_documents q c = List.length c.
Proof.
  unfold count_documents, delete_many.
  induction c as [|x c IH]; simpl; [done|]. destruct (q x); simpl; lia.
Qed.

Lemma elem_of_delete_many_iff {A : Type} (q : A → bool) (c : list A) (x : A) :
  x ∈ delete_many q c ↔ x ∈ c ∧ q x = false.
Proof.
  unfold delete_many. rewrite !list_elem_of_In, filter_In, negb_true_iff. done.
Qed.

(** X3. [cleanup_read_notifications] deletes exactly the user's read
    notifications: the count it returns is the number of rows removed,
    no read row of the user is left, every other row stays, and nobody's
    unread count changes. *)
Theorem cleanup_read_notifications_exact (d : db) (user_id : string) (u : oid) :
  ObjectId user_id = Some u →
  let d' := fst (cleanup_read_notifications d user_id) in
  List.length (notifications d') + snd (cleanup_read_notifications d user_id)
  = List.length (notifications d)
  ∧ (∀ row, row ∈ notifications d' ↔
            row ∈ notifications d ∧ (nt_user_id row ≠ u ∨ nt_is_read row = false))
  ∧ (∀ other, get_unread_notifications_count d' other
              = get_unread_notifications_count d other).
Proof.
  intros Hu. cbv zeta. unfold cleanup_read_notifications. rewrite Hu.
  cbn [fst snd notifications with_notifications]. split_and!.
  - apply length_delete_many.
  - intros row. rewrite elem_of_delete_many_iff, andb_false_iff, N.eqb_neq. done.
  - intros other. unfold get_unread_notifications_count.
    destruct (ObjectId other) as [o|]; [|done].
    cbn [notifications with_notifications]. apply count_delete_many_same.
    intros x [_ Hx]%andb_prop. by rewrite Hx, andb_false_r.
Qed.

Lemma cleanup_read_notifications_exact_witness :
  snd (cleanup_read_notifications
         (fst (mark_all_message_notifications_as_read Demo2.inbox Demo.bob None 4))
         Demo.bob) = 1.
Proof.
  pose proof (proj1 (cleanup_read_notifications_exact
                       (fst (mark_all_message_notifications_as_read Demo2.inbox Demo.bob None 4))
                       Demo.bob 178%N ltac:(vm_compute; reflexivity))) as Hlen.
  vm_compute in Hlen. vm_compute. reflexivity.
Defined.

(** X4. The outcome of [mark_notification_as_read] in every case. An id
    that is no ObjectId (the notification's is converted first) gives the
    failure whose error is the text of that [InvalidId], and the database
    stays as it was. When no notification of that id is owned by the
    user, or the one that is has been read already, the failure is
    ['Notification not found'] and the database stays as it was.
    Otherwise the call succeeds: the row is now read, with its other
    fields as they were, the owner's unread count is lower by one and no
    row has come or gone. *)
Theorem mark_notification_as_read_outcome (d : db) (notification_id user_id : string) :
  let result := mark_notification_as_read d notification_id user_id in
  match ObjectId notification_id, ObjectId user_id with
  | None, _ => result = (d, Failure (InvalidIdOf notification_id))
  | Some _, None => result = (d, Failure (InvalidIdOf user_id))
  | Some n, Some u =>
      match find_one (λ x, notification_by_id n x && N.eqb (nt_user_id x) u)
                     (notifications d) with
      | Some row =>
          if nt_is_read row
          then result = (d, Failure (Text "Notification not found"))
          else snd result = Success None
               ∧ set_is_read row ∈ notifications (fst result)
               ∧ get_unread_notifications_count (fst result) user_id + 1
                 = get_unread_notifications_count d user_id
               ∧ List.length (notifications (fst result)) = List.length (notifications d)
      | None => result = (d, Failure (Text "Notification not found"))
      end
  end.
Proof.
  cbv zeta. unfold mark_notification_as_read.
  destruct (ObjectId notification_id) as [n|]; [|done].
  destruct (ObjectId user_id) as [u|] eqn:Hu; [|done].
  set (q := λ x, notification_by_id n x && N.eqb (nt_user_id x) u).
  unfold modified_one. destruct (find_one q (notifications d)) as [x|] eqn:Hfind.
  - destruct (nt_is_read x) eqn:Hr.
    + assert (set_is_read x = x) as Hsame by (destruct x; simpl in Hr; by subst).
      destruct (decide (set_is_read x = x)); [|done].
      cbn [Nat.ltb Nat.leb].
      rewrite (UpdateMore.update_one_fixed_first q set_is_read _ x Hfind Hsame). by destruct d.
    + destruct (decide (set_is_read x = x)) as [Hsame | Hdiff].
      { rewrite <- Hsame in Hr. done. }
      cbn [Nat.ltb Nat.leb fst snd notifications with_notifications].
      pose proof (find_one_Some _ _ _ Hfind) as [Hin Hq].
      split_and!; [done | | | apply length_update_one].
      * clear -Hfind. revert Hfind. unfold find_one.
        induction (notifications d) as [|y c IH]; simpl; [done|].
        destruct (q y); [intros [= ->]; left | intros Hc; right; by apply IH].
      * unfold get_unread_notifications_count. rewrite Hu.
        cbn [notifications with_notifications].
        apply UpdateMore.count_update_one_first with (x := x); [done | | ].
        -- unfold q in Hq. apply andb_prop in Hq as [_ Hq]. by rewrite Hq, Hr.
        -- simpl. by rewrite andb_false_r.
  - cbn [Nat.ltb Nat.leb]. rewrite UpdateFacts.update_one_no_match; [by destruct d|].
    intros y Hy. destruct (q y) eqn:Hq; [|done].
    apply find_one_None in Hfind.
    assert (y ∈ List.filter q (notifications d)) as Hin
      by (apply list_elem_of_In, filter_In; split; [by apply list_elem_of_In | done]).
    rewrite Hfind in Hin. by apply elem_of_nil in Hin.
Qed.

(** Bob opens the notification of Alice's two messages: of his two unread
    notifications one is left. A second call for the same notification
    reports that it was not found. *)
Lemma mark_notification_as_read_outcome_witness :
  snd (mark_notification_as_read Demo2.inbox "0000000000000000000003e8" Demo.bob)
  = Success None
  ∧ get_unread_notifications_count Demo2.inbox Demo.bob = 2
  ∧ get_unread_notifications_count
      (fst (mark_notification_as_read Demo2.inbox "0000000000000000000003e8" Demo.bob))
      Demo.bob = 1
  ∧ snd (mark_notification_as_read
           (fst (mark_notification_as_read Demo2.inbox "0000000000000000000003e8" Demo.bob))
           "0000000000000000000003e8" Demo.bob)
    = Failure (Text "Notification not found")
  ∧ snd (mark_notification_as_read Demo2.inbox "3e8" Demo.bob) = Failure (InvalidIdOf "3e8").
Proof.
  pose proof (mark_notification_as_read_outcome Demo2.inbox "0000000000000000000003e8"
                Demo.bob) as Hfirst.
  pose proof (mark_notification_as_read_outcome
                (fst (mark_notification_as_read Demo2.inbox "0000000000000000000003e8"
                        Demo.bob))
                "0000000000000000000003e8" Demo.bob) as Hagain.
  pose proof (mark_notification_as_read_outcome Demo2.inbox "3e8" Demo.bob) as Hbad.
  cbv zeta in Hfirst, Hagain, Hbad.
  let v := eval vm_compute in (ObjectId "3e8") in
  change (ObjectId "3e8") with v in Hbad.
  let v := eval vm_compute in (ObjectId "0000000000000000000003e8") in
  change (ObjectId "0000000000000000000003e8") with v in Hfirst, Hagain.
  let v := eval vm_compute in (ObjectId Demo.bob) in
  change (ObjectId Demo.bob) with v in Hfirst, Hagain.
  cbv beta iota in Hfirst, Hagain, Hbad.
  let v := eval vm_compute in
             (find_one (λ x, notification_by_id 1000 x && N.eqb (nt_user_id x) 178)
                       (notifications Demo2.inbox)) in
  change (find_one _ (notifications Demo2.inbox)) with v in Hfirst.
  cbn [nt_is_read] in Hfirst. destruct Hfirst as (Hsuccess & _ & Hcount & _).
  split_and!.
  - exact Hsuccess.
  - vm_compute. reflexivity.
  - apply (Nat.add_cancel_r _ _ 1). rewrite Hcount. vm_compute. reflexivity.
  - let v := eval vm_compute in
               (find_one (λ x, notification_by_id 1000 x && N.eqb (nt_user_id x) 178)
                  (notifications
                     (fst (mark_notification_as_read Demo2.inbox "0000000000000000000003e8"
                             Demo.bob)))) in
    change (find_one _ _) with v in Hagain.
    cbn [nt_is_read] in Hagain. by rewrite Hagain.
  - by rewrite Hbad.
Defined.

End NotificationStore.

(** ** The badge counts senders, not messages *)

Module BadgeOfSenders.
Import Oid Coll CollFacts DatabaseManager Store Consolidation.

Lemma unread_count_after_consolidated (d : db) (md : message_data) (receiver_id : string)
    (now : N) (receiver : oid) :
  ObjectId receiver_id = Some receiver →
  get_unread_notifications_count
    (fst (create_consolidated_message_notification d md receiver_id now)) receiver_id
  = get_unread_notifications_count d receiver_id
    + match unread_rows d receiver (md_sender_id md) with [] => 1 | _ => 0 end.
Proof.
  intros Hr. unfold create_consolidated_message_notification, get_unread_notifications_count.
  rewrite Hr. rewrite UpdateFacts.find_one_head_filter.
  fold (unread_rows d receiver (md_sender_id md)).
  destruct (unread_rows d receiver (md_sender_id md)) as [|row rows]; cbn [head fst].
  - cbn [notifications bump_oid with_notifications]. rewrite Badge.count_app_last.
    cbn [fresh_consolidated nt_user_id nt_is_read]. by rewrite N.eqb_refl.
  - cbn [notifications with_notifications].
    rewrite UpdateMore.count_update_one_same; [lia | done].
Qed.

Lemma unread_rows_after_consolidated (d : db) (md : message_data) (receiver_id : string)
    (now : N) (receiver : oid) :
  ObjectId receiver_id = Some receiver →
  unread_rows (fst (create_consolidated_message_notification d md receiver_id now))
              receiver (md_sender_id md) ≠ [].
Proof.
  intros Hr Hnil. apply (f_equal List.length) in Hnil. revert Hnil.
  unfold create_consolidated_message_notification. rewrite Hr.
  rewrite UpdateFacts.find_one_head_filter.
  fold (unread_rows d receiver (md_sender_id md)).
  destruct (unread_rows d receiver (md_sender_id md)) as [|row rows] eqn:Hrows; cbn [head fst].
  - rewrite unread_rows_insert, Hrows.
    rewrite (proj2 (unread_from_spec receiver (md_sender_id md) _)) by done. done.
  - unfold unread_rows in *. cbn [notifications with_notifications].
    rewrite UpdateFacts.filter_length_update_one by done. by rewrite Hrows.
Qed.

(** X5. However many messages one sender writes in a row, the recipient's
    count of unread notifications goes up by one if there was no unread
    notification from that sender, and not at all if there was one. *)
Theorem badge_counts_senders (d : db) (calls : list (message_data * N))
    (receiver_id sender_id : string) (receiver : oid) :
  ObjectId receiver_id = Some receiver →
  Forall (λ c, md_sender_id (fst c) = sender_id) calls →
  calls ≠ [] →
  get_unread_notifications_count (consolidate_all d calls receiver_id) receiver_id
  = get_unread_notifications_count d receiver_id
    + match unread_rows d receiver sender_id with [] => 1 | _ => 0 end.
Proof.
  intros Hr Hcalls Hne. revert d.
  induction Hcalls as [|[md now] calls Hmd Hcalls IH]; intros d; [done|].
  simpl in Hmd. subst sender_id. cbn [consolidate_all].
  destruct calls as [|c calls].
  - cbn [consolidate_all]. by apply unread_count_after_consolidated.
  - rewrite IH by done. rewrite (unread_count_after_consolidated _ _ _ _ _ Hr).
    pose proof (unread_rows_after_consolidated d md receiver_id now receiver Hr) as Hsome.
    destruct (unread_rows (fst _) receiver (md_sender_id md)); [done | lia].
Qed.

Lemma badge_counts_senders_witness :
  get_unread_notifications_count
    (consolidate_all Demo.demo_db
       [(Demo.said "hi" 1, 1%N); (Demo.said "there" 2, 2%N); (Demo.said "Bob" 3, 3%N)]
       Demo.bob) Demo.bob = 1.
Proof.
  etransitivity.
  - refine (badge_counts_senders Demo.demo_db _ Demo.bob Demo.alice 178%N _ _ _).
    + vm_compute. reflexivity.
    + repeat constructor.
    + discriminate.
  - vm_compute. reflexivity.
Defined.

End BadgeOfSenders.

(** ** Unread messages *)

Module UnreadMessages.
Import Oid Coll CollFacts DatabaseManager DatabaseMore.

Lemma messages_after_create (d : db) (chat_id sender_id content message_type : string)
    (now : N) (c s : oid) :
  ObjectId chat_id = Some c → ObjectId sender_id = Some s →
  messages (fst (create_message d chat_id sender_id content message_type now))
  = (messages d ++ [Message (next_oid d) c s content message_type now false false []])%list.
Proof. intros Hc Hs. unfold create_message. by rewrite Hc, Hs. Qed.

(** X6. A stored message counts as unread for every user but its sender,
    whether or not that user takes part in the chat:
    [get_unread_messages_count] of every other user goes up by one, over
    all chats and for the chat of the message, and the sender's count
    stays. *)
Theorem create_message_unread_count (d : db) (chat_id sender_id content message_type : string)
    (now : N) (c s : oid) (user_id : string) (u : oid) :
  ObjectId chat_id = Some c →
  ObjectId sender_id = Some s →
  ObjectId user_id = Some u →
  let d' := fst (create_message d chat_id sender_id content message_type now) in
  get_unread_messages_count d' user_id None
  = get_unread_messages_count d user_id None + (if decide (u = s) then 0 else 1)
  ∧ get_unread_messages_count d' user_id (Some chat_id)
    = get_unread_messages_count d user_id (Some chat_id) + (if decide (u = s) then 0 else 1).
Proof.
  intros Hc Hs Hu. cbv zeta.
  assert (chat_id ≠ "") as Hne by (by eapply Fanout.ObjectId_nonempty).
  unfold get_unread_messages_count. rewrite Hu.
  rewrite (messages_after_create d chat_id sender_id content message_type now c s Hc Hs).
  cbn [Py.truthy mbind option_bind]. rewrite Hc.
  destruct (String.eqb_spec chat_id ""); [done|]. cbn [negb].
  rewrite !Badge.count_app_last. unfold unread_message.
  cbn [msg_read_by msg_sender_id msg_is_deleted msg_chat_id existsb negb andb].
  rewrite N.eqb_refl.
  destruct (decide (u = s)) as [-> | Hus].
  - by rewrite N.eqb_refl.
  - destruct (N.eqb_spec s u); [congruence | done].
Qed.

Lemma create_message_unread_count_witness :
  get_unread_messages_count
    (fst (create_message Demo.demo_db Demo.c123 Demo.alice "hello" "text" 5))
    Demo2.carol None = 1.
Proof.
  etransitivity.
  - refine (proj1 (create_message_unread_count Demo.demo_db Demo.c123 Demo.alice "hello"
                     "text" 5 195%N 161%N Demo2.carol 196%N _ _ _)); vm_compute; reflexivity.
  - vm_compute. reflexivity.
Defined.

Lemma unread_message_add_other (o u : oid) (chat : option oid) (m : message_doc) :
  o ≠ u → unread_message o chat (add_to_read_by u m) = unread_message o chat m.
Proof.
  intros Hne. unfold unread_message, add_to_read_by.
  destruct (existsb (N.eqb u) (msg_read_by m)); [done|].
  cbn [msg_read_by msg_sender_id msg_is_deleted msg_chat_id].
  rewrite existsb_app. simpl.
  destruct (N.eqb_spec o u); [congruence|]. by rewrite !orb_false_r.
Qed.

Lemma unread_message_add_self (u : oid) (chat : option oid) (m : message_doc) :
  unread_message u chat m = true → unread_message u chat (add_to_read_by u m) = false.
Proof.
  unfold unread_message, add_to_read_by.
  destruct (existsb (N.eqb u) (msg_read_by m)) eqn:Hin; [done|]. intros _.
  cbn [msg_read_by]. rewrite existsb_app. simpl. by rewrite N.eqb_refl, orb_true_r.
Qed.

(** X7. Reading a message that counted as unread takes exactly one off the
    reader's [get_unread_messages_count], and changes nobody else's. *)
Theorem mark_message_as_read_unread_count (d : db) (message_id user_id : string) (now : N)
    (m u : oid) (message : message_doc) :
  ObjectId message_id = Some m →
  ObjectId user_id = Some u →
  find_one (message_by_id m) (messages d) = Some message →
  unread_message u None message = true →
  let d' := fst (mark_message_as_read d message_id user_id now) in
  get_unread_messages_count d' user_id None + 1 = get_unread_messages_count d user_id None
  ∧ (∀ other o, ObjectId other = Some o → o ≠ u →
       get_unread_messages_count d' other None = get_unread_messages_count d other None).
Proof.
  intros Hm Hu Hfind Hunread. cbv zeta. unfold get_unread_messages_count.
  rewrite (ReadReceipt.messages_after_mark d message_id user_id now m u Hm Hu).
  rewrite Hu. cbn [Py.truthy]. split.
  - apply UpdateMore.count_update_one_first with (x := message); [done | done |].
    by apply unread_message_add_self.
  - intros other o -> Hne. apply UpdateMore.count_update_one_same.
    intros x _. by apply unread_message_add_other.
Qed.

Lemma mark_message_as_read_unread_count_witness :
  get_unread_messages_count
    (fst (mark_message_as_read (App.db_manager Demo.alice_sent) Demo.hello_id Demo.bob 7))
    Demo.bob None + 1 = 1.
Proof.
  etransitivity.
  - refine (proj1 (mark_message_as_read_unread_count (App.db_manager Demo.alice_sent)
                     Demo.hello_id Demo.bob 7 1000%N 178%N
                     (Message 1000 195 161 "hello" "text" 5 false false []) _ _ _ _));
      vm_compute; reflexivity.
  - vm_compute. reflexivity.
Defined.

End UnreadMessages.

(** ** Status of a profile *)

Module StatusFacts.
Import Oid Coll CollFacts DatabaseManager DatabaseMore.

Lemma find_one_update_one_other {A : Type} (p q : A → bool) (f : A → A) (c : list A) :
  (∀ x, q x = true → p x = false ∧ p (f x) = false) →
  find_one p (update_one q f c) = find_one p c.
Proof.
  intros Hq. unfold find_one. induction c as [|x c IH]; simpl; [done|].
  destruct (q x) eqn:Hx; simpl.
  - destruct (Hq x Hx) as [-> ->]. done.
  - by rewrite IH.
Qed.

Lemma find_one_update_many_other {A : Type} (p q : A → bool) (f : A → A) (c : list A) :
  (∀ x, q x = true → p x = false ∧ p (f x) = false) →
  find_one p (update_many q f c) = find_one p c.
Proof.
  intros Hq. unfold find_one, update_many. induction c as [|x c IH]; simpl; [done|].
  destruct (q x) eqn:Hx; simpl.
  - destruct (Hq x Hx) as [-> ->]. done.
  - by rewrite IH.
Qed.

Lemma find_one_update_many_hit {A : Type} (p q : A → bool) (f : A → A) (c : list A) :
  (∀ x, p x = true → q x = true) → (∀ x, p (f x) = p x) →
  find_one p (update_many q f c) = f <$> find_one p c.
Proof.
  intros Hpq Hpf. unfold find_one, update_many. induction c as [|x c IH]; simpl; [done|].
  destruct (p x) eqn:Hp.
  - rewrite (Hpq _ Hp), Hpf, Hp. done.
  - destruct (q x); [rewrite Hpf, Hp | rewrite Hp]; exact IH.
Qed.

(** X8. [update_user_status] then [get_user_status] of the same profile
    gives back the status that was set when the profile exists, and
    ['offline'] when it does not (nothing is created); the status of
    every other profile is as before. *)
Theorem status_round_trip (d : db) (profile_id status : string) (now : N) :
  let d' := fst (update_user_status d profile_id status now) in
  get_user_status d' profile_id
  = match ObjectId profile_id ≫= λ o, find_one (profile_by_id o) (user_profiles d) with
    | Some _ => status
    | None => "offline"
    end
  ∧ List.length (user_profiles d') = List.length (user_profiles d)
  ∧ (∀ other o o', ObjectId profile_id = Some o → ObjectId other = Some o' → o' ≠ o →
       get_user_status d' other = get_user_status d other).
Proof.
  cbv zeta. split_and!.
  - unfold get_user_status. destruct (ObjectId profile_id) as [o|] eqn:Ho; [|done].
    rewrite (PresenceFacts.status_after_update _ _ _ _ _ Ho). cbn [mbind option_bind].
    by destruct (find_one _ _).
  - unfold update_user_status. destruct (ObjectId profile_id); [|done].
    cbn [fst user_profiles with_user_profiles]. apply length_update_one.
  - intros other o o' Ho Ho' Hne. unfold get_user_status, update_user_status.
    rewrite Ho, Ho'. cbn [fst user_profiles with_user_profiles].
    rewrite find_one_update_one_other; [done|].
    intros x Hx%N.eqb_eq. unfold profile_by_id. simpl. rewrite Hx.
    destruct (N.eqb_spec o o'); [congruence | done].
Qed.

Lemma count_update_one_balance {A : Type} (p q : A → bool) (f : A → A) (c : list A) (x : A) :
  find_one q c = Some x →
  count_documents p (update_one q f c) + (if p x then 1 else 0)
  = count_documents p c + (if p (f x) then 1 else 0).
Proof.
  unfold find_one, count_documents. induction c as [|y c IH]; simpl; [done|].
  destruct (q y); simpl.
  - intros [= ->]. destruct (p x), (p (f x)); simpl; lia.
  - intros Hfind. specialize (IH Hfind). destruct (p y); simpl; lia.
Qed.

(** X9. [get_online_users_count] counts profiles, not connections:
    setting the status of an existing profile changes the count by what
    that one profile contributes before and after, so a second
    ['online'] for the same profile adds nothing. *)
Theorem online_count_after_update (d : db) (profile_id status : string) (now : N)
    (o : oid) (profile : profile_doc) :
  ObjectId profile_id = Some o →
  find_one (profile_by_id o) (user_profiles d) = Some profile →
  get_online_users_count (fst (update_user_status d profile_id status now))
  + (if bool_decide (pf_status profile = Some "online") then 1 else 0)
  = get_online_users_count d + (if String.eqb status "online" then 1 else 0).
Proof.
  intros Ho Hfind. unfold get_online_users_count, update_user_status. rewrite Ho.
  cbn [fst user_profiles with_user_profiles].
  pose proof (count_update_one_balance (λ p, bool_decide (pf_status p = Some "online"))
                (profile_by_id o) (set_status status now) (user_profiles d) profile Hfind)
    as Hbalance.
  cbn beta in Hbalance. cbn [set_status pf_status] in Hbalance. rewrite Hbalance.
  f_equal.
  destruct (String.eqb_spec status "online") as [-> | Hne].
  - by rewrite bool_decide_eq_true_2.
  - rewrite bool_decide_eq_false_2; [done|]. by intros [= ?].
Qed.

Lemma online_count_after_update_witness :
  get_online_users_count
    (fst (update_user_status (App.db_manager Demo.both_connected) Demo.alice "online" 9)) = 2.
Proof.
  pose proof (online_count_after_update (App.db_manager Demo.both_connected) Demo.alice
                "online" 9 161%N
                (Profile 161 "alice" (Some "A") (Some true) (Some "online") (Some 1%N))
                ltac:(vm_compute; reflexivity) ltac:(vm_compute; reflexivity)) as H.
  vm_compute in H. vm_compute. reflexivity.
Defined.

Lemma object_ids_spec (user_ids : list string) (ids : list oid) :
  object_ids user_ids = Some ids →
  ∀ uid o, uid ∈ user_ids → ObjectId uid = Some o → o ∈ ids.
Proof.
  revert ids. induction user_ids as [|x rest IH]; intros ids Hids uid o Hin Ho.
  - by apply elem_of_nil in Hin.
  - simpl in Hids. destruct (ObjectId x) as [ox|] eqn:Hx; [|done].
    destruct (object_ids rest) as [os|]; [|done]. injection Hids as <-.
    apply elem_of_cons in Hin as [-> | Hin].
    + rewrite Hx in Ho. injection Ho as ->. left.
    + right. by eapply IH.
Qed.

Lemma object_ids_None (user_ids : list string) :
  object_ids user_ids = None ↔ ∃ uid, uid ∈ user_ids ∧ ObjectId uid = None.
Proof.
  induction user_ids as [|x rest IH]; simpl.
  - split; [done | intros (uid & Hin & _); by apply elem_of_nil in Hin].
  - destruct (ObjectId x) as [ox|] eqn:Hx.
    + destruct (object_ids rest) as [os|].
      * split; [done|]. intros (uid & [-> | Hin]%elem_of_cons & Hnone); [congruence|].
        assert (Some os = None) as Hno by (apply IH; eauto). done.
      * split; [|done]. intros _. destruct (proj1 IH eq_refl) as (uid & Hin & Hnone).
        exists uid. split; [by right | done].
    + split; [|done]. intros _. exists x. split; [left | done].
Qed.

Lemma existsb_eqb_elem (o : oid) (ids : list oid) :
  existsb (N.eqb o) ids = true ↔ o ∈ ids.
Proof.
  rewrite existsb_exists. split.
  - intros (x & Hin & ->%N.eqb_eq). by apply list_elem_of_In.
  - intros Hin. exists o. split; [by apply list_elem_of_In | apply N.eqb_refl].
Qed.

(** X10. [bulk_update_user_statuses] is all or nothing on its input: one
    id in the list that is no ObjectId and no profile is touched (the
    result is 0); otherwise every listed profile that exists reads back
    the new status and every profile not listed keeps its own. *)
Theorem bulk_update_all_or_nothing (d : db) (user_ids : list string) (status : string)
    (now : N) :
  ((∃ uid, uid ∈ user_ids ∧ ObjectId uid = None) →
   bulk_update_user_statuses d user_ids status now = (d, 0))
  ∧ ((∀ uid, uid ∈ user_ids → is_Some (ObjectId uid)) →
     let d' := fst (bulk_update_user_statuses d user_ids status now) in
     (∀ uid o profile, uid ∈ user_ids → ObjectId uid = Some o →
        find_one (profile_by_id o) (user_profiles d) = Some profile →
        get_user_status d' uid = status)
     ∧ (∀ other o, ObjectId other = Some o →
          (∀ uid, uid ∈ user_ids → ObjectId uid ≠ Some o) →
          get_user_status d' other = get_user_status d other)).
Proof.
  split.
  - intros Hbad%object_ids_None. unfold bulk_update_user_statuses. by rewrite Hbad.
  - intros Hgood. cbv zeta. unfold bulk_update_user_statuses.
    destruct (object_ids user_ids) as [ids|] eqn:Hids.
    2: { apply object_ids_None in Hids as (uid & Hin & Hnone).
         destruct (Hgood uid Hin) as [? ?]. congruence. }
    cbn [fst user_profiles with_user_profiles]. split.
    + intros uid o profile Hin Ho Hfind. unfold get_user_status. rewrite Ho.
      cbn [user_profiles with_user_profiles].
      rewrite find_one_update_many_hit, Hfind; [done | | done].
      intros x Hx%N.eqb_eq. cbn beta. rewrite Hx. apply existsb_eqb_elem.
      by eapply object_ids_spec.
    + intros other o Ho Hnot. unfold get_user_status. rewrite Ho.
      cbn [user_profiles with_user_profiles].
      rewrite find_one_update_many_other; [done|].
      intros x Hx. cbn beta in Hx. apply existsb_eqb_elem in Hx.
      unfold profile_by_id. simpl.
      destruct (N.eqb_spec (pf_id x) o) as [Heq | Hne]; [|done].
      exfalso. subst o. clear -Hids Hx Hnot.
      revert ids Hids Hx. induction user_ids as [|y rest IH]; intros ids Hids Hx.
      * injection Hids as <-. by apply elem_of_nil in Hx.
      * simpl in Hids. destruct (ObjectId y) as [oy|] eqn:Hy; [|done].
        destruct (object_ids rest) as [os|]; [|done]. injection Hids as <-.
        apply elem_of_cons in Hx as [Heq | Hx].
        -- apply (Hnot y); [left | congruence].
        -- eapply IH; [|done | done]. intros uid Hin. apply Hnot. by right.
Qed.

Lemma bulk_update_all_or_nothing_witness :
  bulk_update_user_statuses Demo.demo_db [Demo.alice; "bob"] "away" 3 = (Demo.demo_db, 0).
Proof.
  refine (proj1 (bulk_update_all_or_nothing Demo.demo_db [Demo.alice; "bob"] "away" 3) _).
  exists "bob". split; [right; left | vm_compute; reflexivity].
Defined.

End StatusFacts.

(** ** Listing participants and notifications *)

Module Listings.
Import Oid Coll CollMore CollFacts DatabaseManager DatabaseMore.

Lemma participant_entry_status (p : profile_doc) (entry : participant_view) :
  participant_entry p = Some entry →
  pv_status entry = "online" ∨ pv_status entry = "offline" ∨ pv_status entry = "away".
Proof.
  unfold participant_entry. destruct (pf_display_name p); [|done]. intros [= <-]. simpl.
  destruct (String.eqb_spec (default "offline" (pf_status p)) "online") as [-> | _];
    [by left|].
  destruct (String.eqb_spec (default "offline" (pf_status p)) "offline") as [-> | _];
    [right; by left|].
  destruct (String.eqb_spec (default "offline" (pf_status p)) "away") as [-> | _];
    [right; by right|].
  simpl. destruct (default false (pf_is_online p)); [by left | right; by left].
Qed.

Lemma participant_entries_elem (ps : list profile_doc) (entries : list participant_view)
    (entry : participant_view) :
  participant_entries ps = Some entries → entry ∈ entries →
  ∃ p, p ∈ ps ∧ participant_entry p = Some entry.
Proof.
  revert entries. induction ps as [|p ps IH]; intros entries Hes Hin; simpl in Hes.
  - injection Hes as <-. by apply elem_of_nil in Hin.
  - destruct (participant_entry p) as [e|] eqn:He; [|done].
    destruct (participant_entries ps) as [es|]; [|done]. injection Hes as <-.
    apply elem_of_cons in Hin as [-> | Hin].
    + exists p. split; [left | done].
    + destruct (IH es eq_refl Hin) as (p' & Hp' & Hentry).
      exists p'. split; [by right | done].
Qed.

Lemma participant_entries_raise (ps : list profile_doc) (p : profile_doc) :
  p ∈ ps → pf_display_name p = None → participant_entries ps = None.
Proof.
  induction ps as [|x ps IH]; intros Hin Hname; [by apply elem_of_nil in Hin|].
  simpl. apply elem_of_cons in Hin as [<- | Hin].
  - unfold participant_entry. by rewrite Hname.
  - rewrite (IH Hin Hname). by destruct (participant_entry x).
Qed.

(** X11. Every status [get_chat_participants] reports is ['online'],
    ['offline'] or ['away'], whatever is stored; and one participant
    profile without a [display_name] empties the whole list, because the
    lookup of that key raises and the method answers [[]]. *)
Theorem chat_participants_listing (d : db) (chat_id : string) :
  (∀ entry, entry ∈ get_chat_participants d chat_id →
     pv_status entry = "online" ∨ pv_status entry = "offline" ∨ pv_status entry = "away")
  ∧ (∀ c chat p,
       ObjectId chat_id = Some c →
       find_one (λ ch, N.eqb (ch_id ch) c) (chats d) = Some chat →
       p ∈ user_profiles d → pf_id p ∈ ch_participants chat → pf_display_name p = None →
       get_chat_participants d chat_id = []).
Proof.
  split.
  - intros entry. unfold get_chat_participants.
    destruct (ObjectId chat_id) as [c|]; [|by intros ?%elem_of_nil].
    destruct (find_one _ _) as [chat|]; [|by intros ?%elem_of_nil].
    destruct (participant_entries _) as [entries|] eqn:Hes; [|by intros ?%elem_of_nil].
    intros Hin. destruct (participant_entries_elem _ _ _ Hes Hin) as (p & _ & Hp).
    by eapply participant_entry_status.
  - intros c chat p Hc Hchat Hp Hmember Hname. unfold get_chat_participants.
    rewrite Hc, Hchat. rewrite (participant_entries_raise _ p); [done | | done].
    apply list_elem_of_In, filter_In. split; [by apply list_elem_of_In|].
    apply StatusFacts.existsb_eqb_elem. done.
Qed.

Lemma chat_participants_listing_witness :
  List.map pv_status (get_chat_participants Demo2.odd_profiles Demo.c123) = ["online"]
  ∧ get_chat_participants Demo2.odd_profiles "0000000000000000000000c5" = [].
Proof.
  split; [vm_compute; reflexivity|].
  refine (proj2 (chat_participants_listing Demo2.odd_profiles "0000000000000000000000c5")
            197%N (Chat 197 [161; 196]%N None None None)
            (Profile 196 "carol" None None None None) _ _ _ _ _).
  - vm_compute. reflexivity.
  - vm_compute. reflexivity.
  - right. left.
  - right. left.
  - reflexivity.
Defined.

#[local] Instance newer_first_total : Total newer_first.
Proof. intros x y. unfold newer_first. lia. Qed.

#[local] Instance newer_first_trans : Transitive newer_first.
Proof. intros x y z. unfold newer_first. lia. Qed.

Lemma elem_of_firstn {A : Type} (n : nat) (l : list A) (x : A) :
  x ∈ List.firstn n l → x ∈ l.
Proof.
  revert n. induction l as [|y l IH]; intros [|n]; simpl; try by intros ?%elem_of_nil.
  intros [-> | Hx]%elem_of_cons; [left | right; by eapply IH].
Qed.

Lemma StronglySorted_firstn {A : Type} (R : relation A) (n : nat) (l : list A) :
  StronglySorted R l → StronglySorted R (List.firstn n l).
Proof.
  intros Hl. revert n. induction Hl as [|x l Hl IH Hx]; intros [|n]; simpl; try constructor.
  - apply IH.
  - apply List.Forall_forall. intros y Hy. rewrite List.Forall_forall in Hx. apply Hx.
    apply list_elem_of_In. apply list_elem_of_In in Hy. by eapply elem_of_firstn.
Qed.

Lemma StronglySorted_limit {A : Type} (R : relation A) (n : nat) (l : list A) :
  StronglySorted R l → StronglySorted R (limit n l).
Proof. destruct n; [done|]. apply StronglySorted_firstn. Qed.

Lemma StronglySorted_map {A B : Type} (R : relation A) (R' : relation B) (f : A → B)
    (l : list A) :
  (∀ x y, R x y → R' (f x) (f y)) → StronglySorted R l → StronglySorted R' (List.map f l).
Proof.
  intros Hf. induction 1 as [|x l Hl IH Hx]; simpl; constructor; [done|].
  apply List.Forall_forall. intros y Hy. apply in_map_iff in Hy as (z & <- & Hz).
  apply Hf. rewrite List.Forall_forall in Hx. by apply Hx.
Qed.

Lemma elem_of_limit {A : Type} (n : nat) (l : list A) (x : A) : x ∈ limit n l → x ∈ l.
Proof.
  destruct n; [done|]. apply elem_of_firstn.
Qed.

Lemma length_limit {A : Type} (n : nat) (l : list A) :
  List.length (limit n l) = match n with 0 => List.length l | _ => Nat.min n (List.length l) end.
Proof. destruct n; [done|]. apply length_firstn. Qed.

(** X12. [get_user_notifications] lists notifications of the asking user
    only, unread ones only when asked so, newest first; it returns all of
    them when [limit] is 0 and otherwise the first [limit]. *)
Theorem user_notifications_listing (d : db) (user_id : string) (limit : nat)
    (unread_only : bool) (u : oid) :
  ObjectId user_id = Some u →
  let result := get_user_notifications d user_id limit unread_only in
  let matching :=
    count_documents
      (λ x, N.eqb (nt_user_id x) u && (if unread_only then negb (nt_is_read x) else true))
      (notifications d) in
  StronglySorted (λ a b, (ni_created_at b ≤ ni_created_at a)%N) result
  ∧ (∀ item, item ∈ result →
       ∃ row, row ∈ notifications d ∧ nt_user_id row = u
              ∧ ni_id item = str (nt_id row) ∧ ni_message item = nt_message row
              ∧ ni_is_read item = nt_is_read row
              ∧ (unread_only = true → nt_is_read row = false))
  ∧ List.length result
    = match limit with 0 => matching | _ => Nat.min limit matching end.
Proof.
  intros Hu. cbv zeta. unfold get_user_notifications. rewrite Hu.
  set (query := λ x, N.eqb (nt_user_id x) u && (if unread_only then negb (nt_is_read x) else true)).
  split_and!.
  - apply (StronglySorted_map newer_first); [done|].
    apply StronglySorted_limit. apply StronglySorted_merge_sort; apply _.
  - intros item Hitem. apply list_elem_of_In, in_map_iff in Hitem as (row & <- & Hrow).
    apply list_elem_of_In, elem_of_limit in Hrow.
    rewrite merge_sort_Permutation in Hrow.
    apply list_elem_of_In, filter_In in Hrow as [Hrow Hq].
    exists row. unfold query in Hq. apply andb_prop in Hq as [Hq1%N.eqb_eq Hq2].
    split_and!; try done; [by apply list_elem_of_In|].
    intros ->. by apply negb_true_iff.
  - rewrite length_map, length_limit.
    assert (List.length (merge_sort newer_first (List.filter query (notifications d)))
            = count_documents query (notifications d)) as ->; [|done].
    unfold count_documents. apply Permutation_length, merge_sort_Permutation.
Qed.

Lemma user_notifications_listing_witness :
  List.map (λ item, (ni_type item, ni_created_at item))
    (get_user_notifications Demo2.inbox Demo.bob 10 false)
  = [("friend_request", 3%N); ("new_message", 1%N)].
Proof.
  pose proof (user_notifications_listing Demo2.inbox Demo.bob 10 false 178%N
                ltac:(vm_compute; reflexivity)) as [_ [_ Hlen]].
  vm_compute in Hlen. vm_compute. reflexivity.
Defined.

End Listings.

(** ** Typing, reactions and status requests *)

Module RelayFacts.
Import Oid Coll CollFacts SocketIO App DatabaseManager DatabaseMore Relay.

(** X13. A typing event from an authenticated connection changes nothing
    and is delivered once to every member of the named room except the
    connection it came from, which never gets its own indicator back. *)
Theorem typing_reaches_the_others (w : world) (sid chat_id user_profile_id : string)
    (is_typing : option bool) :
  session w !! sid = Some user_profile_id →
  chat_id ≠ "" →
  let out := snd (handle_typing w sid (Some chat_id) is_typing) in
  fst (handle_typing w sid (Some chat_id) is_typing) = w
  ∧ deliveries (sio w) "user_typing" out = elements (members_of (sio w) chat_id ∖ {[sid]})
  ∧ (sid ∉ deliveries (sio w) "user_typing" out)
  ∧ NoDup (deliveries (sio w) "user_typing" out).
Proof.
  intros Hsession Hne. cbv zeta. unfold handle_typing. rewrite Hsession.
  destruct (String.eqb_spec chat_id ""); [done|]. cbn [fst snd].
  unfold deliveries. cbn [flat_map sg_event sg_to sg_payload serializable andb String.eqb Ascii.eqb Bool.eqb
       recipients].
  rewrite app_nil_r. split_and!; [done | done | | apply NoDup_elements].
  rewrite elem_of_elements, elem_of_difference, elem_of_singleton. by intros [_ ?].
Qed.

(** Alice and Bob both have the chat open; Alice types. *)
Lemma typing_reaches_the_others_witness :
  members_of (sio Demo2.both_in_room) Demo.c123 = {["sidA"; "sidB"]}
  ∧ deliveries (sio Demo2.both_in_room) "user_typing"
      (snd (handle_typing Demo2.both_in_room "sidA" (Some Demo.c123) (Some true))) = ["sidB"].
Proof.
  split; [vm_compute; reflexivity|].
  etransitivity.
  - refine (proj1 (proj2 (typing_reaches_the_others Demo2.both_in_room "sidA" Demo.c123
                            Demo.alice (Some true) _ _))).
    + vm_compute. reflexivity.
    + discriminate.
  - vm_compute. reflexivity.
Defined.

Lemma get_chat_participants_nonempty (d : db) (chat_id user_id : string) (chat : chat_view) :
  get_chat d chat_id user_id = Some chat → cv_participants chat ≠ [].
Proof.
  unfold get_chat. destruct (ObjectId chat_id) as [c|]; [|done].
  destruct (ObjectId user_id) as [u|]; [|done].
  destruct (find_one _ _) as [ch|] eqn:Hfind; [|done].
  apply find_one_Some in Hfind as [_ Hq]. apply andb_prop in Hq as [_ Hq].
  intros [= <-]. cbn [cv_participants]. destruct (ch_participants ch); [done | done].
Qed.

(** X14. [handle_request_initial_statuses] never emits [initial_statuses]
    and never changes anything: when the chat is found, the first round of
    its loop subscripts a participant id, a string, with ['_id'], and the
    exception ends the handler. *)
Theorem initial_statuses_never_sent (w : world) (sid : string) (chat_id : option string) :
  handle_request_initial_statuses w sid chat_id = (w, []).
Proof.
  unfold handle_request_initial_statuses.
  destruct chat_id as [chat_id|]; [|done].
  destruct (session w !! sid) as [user_profile_id|]; [|done].
  destruct (String.eqb chat_id ""); [done|].
  destruct (get_chat _ _ _) as [chat|] eqn:Hchat; [|done].
  apply get_chat_participants_nonempty in Hchat.
  destruct (cv_participants chat); [done | done].
Qed.

(** X15. A reaction event is relayed for any connection, authenticated or
    not, with the [user_id] the client sent: nothing is stored, and
    [reaction_updated] goes once to every member of the room of the
    message's chat except the connection it came from. *)
Theorem reaction_relayed_to_the_room (action : string) (w : world) (sid : string)
    (data : reaction_data) (message_id emoji user_id : string) (m : oid)
    (message : message_doc) :
  rd_message_id data = Some message_id →
  rd_emoji data = Some emoji → emoji ≠ "" →
  rd_user_id data = Some user_id → user_id ≠ "" →
  ObjectId message_id = Some m →
  find_one (message_by_id m) (messages (db_manager w)) = Some message →
  relay_reaction action w sid data
  = (w, [Signal "reaction_updated"
                (PReaction message_id emoji user_id action (rd_reactions data))
                (Room (str (msg_chat_id message)) (Some sid))])
  ∧ deliveries (sio w) "reaction_updated" (snd (relay_reaction action w sid data))
    = elements (members_of (sio w) (str (msg_chat_id message)) ∖ {[sid]}).
Proof.
  intros Hmid Hemoji Hemoji_ne Huid Huid_ne Hm Hfind.
  assert (message_id ≠ "") as Hmid_ne by (by eapply Fanout.ObjectId_nonempty).
  assert (relay_reaction action w sid data
          = (w, [Signal "reaction_updated"
                        (PReaction message_id emoji user_id action (rd_reactions data))
                        (Room (str (msg_chat_id message)) (Some sid))])) as Hrun.
  { unfold relay_reaction. rewrite Hmid, Hemoji, Huid. cbn [Py.truthy default from_option id].
    destruct (String.eqb_spec message_id ""); [done|].
    destruct (String.eqb_spec emoji ""); [done|].
    destruct (String.eqb_spec user_id ""); [done|].
    cbn [negb andb]. by rewrite Hm, Hfind. }
  split; [done|]. rewrite Hrun. cbn [snd]. unfold deliveries.
  cbn [flat_map sg_event sg_to sg_payload serializable andb String.eqb Ascii.eqb Bool.eqb
       recipients].
  by rewrite app_nil_r.
Qed.

Lemma reaction_relayed_to_the_room_witness :
  session Demo2.with_guest !! "sidG" = None
  ∧ deliveries (sio Demo2.with_guest) "reaction_updated"
      (snd (handle_reaction_added Demo2.with_guest "sidG" Demo2.thumbs_up)) = ["sidB"].
Proof.
  split; [vm_compute; reflexivity|].
  etransitivity.
  - refine (proj2 (reaction_relayed_to_the_room "added" Demo2.with_guest "sidG"
                     Demo2.thumbs_up Demo.hello_id "+1" Demo.bob 1000%N
                     (Message 1000 195 161 "hello" "text" 5 false false [])
                     _ _ _ _ _ _ _)); try reflexivity; try discriminate;
      vm_compute; reflexivity.
  - vm_compute. reflexivity.
Defined.

Lemma unread_message_count_cleared (d : db) (user_id : string) (sender_id : option string)
    (now : N) (u : oid) :
  ObjectId user_id = Some u →
  get_unread_message_notifications_count
    (fst (mark_all_message_notifications_as_read d user_id sender_id now)) user_id sender_id
  = 0.
Proof.
  intros Hu.
  unfold mark_all_message_notifications_as_read, get_unread_message_notifications_count.
  rewrite Hu. cbn [fst notifications with_notifications].
  apply NotificationStore.count_update_many_none; [done|].
  intros x. unfold unread_message_query. simpl. by rewrite andb_false_r.
Qed.

Lemma cleared_count_is_unread_count (d : db) (user_id : string) (sender_id : option string)
    (now : N) (u : oid) :
  ObjectId user_id = Some u →
  snd (mark_all_message_notifications_as_read d user_id sender_id now)
  = get_unread_message_notifications_count d user_id sender_id.
Proof.
  intros Hu.
  unfold mark_all_message_notifications_as_read, get_unread_message_notifications_count.
  rewrite Hu. cbn [snd]. apply NotificationStore.modified_many_all.
  intros x Hx. apply NotificationStore.set_is_read_at_changes.
  unfold unread_message_query in Hx.
  apply andb_prop in Hx as [[[_ _]%andb_prop Hr]%andb_prop _]. by apply negb_true_iff in Hr.
Qed.

(** X16. [mark_notification_read] over the socket: with a [sender_id] the
    user is left without unread message notifications from that sender
    and one [notifications_cleared] is emitted, to the room named by the
    user's id; with a [notification_id] alone nothing is emitted, whether
    or not the notification was marked. *)
Theorem mark_notification_read_event (w : world) (sid user_profile_id : string)
    (notification_id sender_id : option string) (now : N) (u : oid) :
  session w !! sid = Some user_profile_id →
  ObjectId user_profile_id = Some u →
  let w' := fst (handle_mark_notification_read w sid notification_id sender_id now) in
  let out := snd (handle_mark_notification_read w sid notification_id sender_id now) in
  (Py.truthy sender_id = true →
     get_unread_message_notifications_count (db_manager w') user_profile_id sender_id = 0
     ∧ out = [Signal "notifications_cleared" (PCleared sender_id None now)
                     (Room user_profile_id None)])
  ∧ (Py.truthy sender_id = false → out = []).
Proof.
  intros Hsession Hu. cbv zeta. unfold handle_mark_notification_read. rewrite Hsession.
  split; intros Htruthy; rewrite Htruthy; cbn [fst snd db_manager with_db]; [|done].
  split; [|done]. by eapply unread_message_count_cleared.
Qed.

Lemma mark_notification_read_event_witness :
  snd (handle_mark_notification_read Demo2.inbox_world "sidB"
         (Some "0000000000000000000003e8") None 5) = []
  ∧ get_unread_notifications_count
      (db_manager (fst (handle_mark_notification_read Demo2.inbox_world "sidB"
                          (Some "0000000000000000000003e8") None 5))) Demo.bob = 1.
Proof.
  split.
  - refine (proj2 (mark_notification_read_event Demo2.inbox_world "sidB" Demo.bob
                     (Some "0000000000000000000003e8") None 5 178%N _ _) _);
      vm_compute; reflexivity.
  - vm_compute. reflexivity.
Defined.

(** X17. [mark_all_message_notifications_read] over the socket emits
    [notifications_cleared] exactly when there was something to clear,
    with the number of notifications cleared, and leaves none unread for
    the sender asked about. *)
Theorem mark_all_read_event (w : world) (sid user_profile_id : string)
    (sender_id : option string) (now : N) (u : oid) :
  session w !! sid = Some user_profile_id →
  ObjectId user_profile_id = Some u →
  let before :=
    get_unread_message_notifications_count (db_manager w) user_profile_id sender_id in
  let w' := fst (handle_mark_all_message_notifications_read w sid sender_id now) in
  snd (handle_mark_all_message_notifications_read w sid sender_id now)
  = (if Nat.ltb 0 before
     then [Signal "notifications_cleared" (PCleared sender_id (Some before) now)
                  (Room user_profile_id None)]
     else [])
  ∧ get_unread_message_notifications_count (db_manager w') user_profile_id sender_id = 0.
Proof.
  intros Hsession Hu. cbv zeta. unfold handle_mark_all_message_notifications_read.
  rewrite Hsession.
  pose proof (cleared_count_is_unread_count (db_manager w) user_profile_id sender_id now u Hu)
    as Hcount.
  pose proof (unread_message_count_cleared (db_manager w) user_profile_id sender_id now u Hu)
    as Hzero.
  destruct (mark_all_message_notifications_as_read _ _ _ _) as [d1 cleared].
  cbn [fst snd db_manager with_db] in *. by subst cleared.
Qed.

Lemma mark_all_read_event_witness :
  snd (handle_mark_all_message_notifications_read Demo2.inbox_world "sidB"
         (Some Demo.alice) 5)
  = [Signal "notifications_cleared" (PCleared (Some Demo.alice) (Some 1) 5)
            (Room Demo.bob None)].
Proof.
  etransitivity.
  - refine (proj1 (mark_all_read_event Demo2.inbox_world "sidB" Demo.bob
                     (Some Demo.alice) 5 178%N _ _)); vm_compute; reflexivity.
  - vm_compute. reflexivity.
Defined.

End RelayFacts.

(** ** The chat handlers and the chat's participants *)

Module HandlerFacts.
Import Oid Coll SocketIO App DatabaseManager.

(** The handler's emits once the message is stored: the loop's
    [notification_updated] calls, then [message_error] when one of them
    raised and the two [new_message] emits when none did. *)
Lemma handle_send_message_outcome (w : world) (sid : string) (data : send_message_data)
    (now : N) (chat_id message_content user_profile_id : string) (d1 : db)
    (message : message_doc) :
  session w !! sid = Some user_profile_id →
  sm_chat_id data = Some chat_id →
  sm_message data = Some message_content →
  message_content ≠ "" →
  create_message (db_manager w) chat_id user_profile_id message_content
                 (default "text" (sm_type data)) now = (d1, Some message) →
  ∃ d2 notified md,
    handle_send_message w sid data now
    = (with_db w d2,
       (notified ++
        if existsb raises notified
        then [Emit "message_error" (PError "Failed to send message") (Room sid None)]
        else [Emit "new_message" (PMessage md) (Room chat_id (Some sid));
              Emit "new_message" (PMessage md) (Room sid None)])%list)
    ∧ Forall (λ e, em_event e = "notification_updated") notified.
Proof.
  intros Hsession Hchat Hmessage Hcontent Hcreate.
  destruct (Fanout.send_message_with_emits notify_participants w sid data now
              chat_id message_content user_profile_id d1 message
              Hsession Hchat Hmessage Hcontent Hcreate)
    as (d2 & notified & raised & md & Hrun & _ & Hcase).
  exists d2, notified, md. destruct Hcase as [[= -> -> ->] | (chat & _ & Hn)].
  - split; [exact Hrun | constructor].
  - pose proof (Fanout.notify_participants_raised d1 md user_profile_id now
                  (cv_participants chat)) as Hraised.
    pose proof (Fanout.notify_participants_events d1 md user_profile_id now
                  (cv_participants chat)) as Hevents.
    rewrite <- Hn in Hraised, Hevents. cbn [fst snd] in Hraised, Hevents. subst raised.
    split; [exact Hrun | exact Hevents].
Qed.

Lemma find_one_update_one_kept {A : Type} (q q' : A → bool) (f : A → A) (c : list A) :
  (∀ x, q (f x) = q x) →
  find_one q c = None → find_one q (update_one q' f c) = None.
Proof.
  intros Hkeep. induction c as [|x c IH]; simpl; [done|].
  destruct (q x) eqn:Hq; [done|]. intros Hnone.
  destruct (q' x); simpl.
  - by rewrite Hkeep, Hq.
  - rewrite Hq. by apply IH.
Qed.

Lemma find_one_none {A : Type} (q : A → bool) (c : list A) :
  (∀ x, x ∈ c → q x = false) → find_one q c = None.
Proof.
  induction c as [|x c IH]; intros Hall; simpl; [done|].
  rewrite (Hall x) by apply list_elem_of_here.
  apply IH. intros y Hy. apply Hall. by apply list_elem_of_further.
Qed.

(** X18. [handle_join_chat] asks for a logged-in session and nothing
    else, so a connection can join the room of a chat its user takes no
    part in. Of a message that another connection then sends to that chat
    it is sent the [new_message] whenever the handler gets as far as its
    [new_message] emits; when an [emit] of the notification loop raises,
    [new_message] goes to nobody at all. *)
Theorem joined_connection_hears_the_chat (w : world) (sid sender : string)
    (data : send_message_data) (now : N) (chat_id message_content user sender_id : string)
    (d1 : db) (message : message_doc) :
  session w !! sid = Some user →
  sender ≠ sid →
  session w !! sender = Some sender_id →
  sm_chat_id data = Some chat_id →
  sm_message data = Some message_content →
  message_content ≠ "" →
  create_message (db_manager w) chat_id sender_id message_content
                 (default "text" (sm_type data)) now = (d1, Some message) →
  let w1 := fst (handle_join_chat w sid (Some chat_id)) in
  let out := snd (handle_send_message w1 sender data now) in
  if existsb raises out
  then deliveries (sio w1) "new_message" out = []
  else sid ∈ deliveries (sio w1) "new_message" out.
Proof.
  intros Hsession Hne Hsender Hchat Hmessage Hcontent Hcreate. cbv zeta.
  assert (chat_id ≠ "") as Hchat_ne.
  { unfold create_message in Hcreate.
    destruct (ObjectId chat_id) eqn:Hoid; [|done]. by eapply Fanout.ObjectId_nonempty. }
  unfold handle_join_chat. rewrite Hsession.
  destruct (String.eqb_spec chat_id ""); [done|]. cbn [fst].
  destruct (handle_send_message_outcome
              (with_sio w (join_room sid chat_id (sio w))) sender data now
              chat_id message_content sender_id d1 message
              Hsender Hchat Hmessage Hcontent Hcreate)
    as (d2 & notified & md & Hrun & Hevents).
  rewrite Hrun. cbn [snd]. rewrite existsb_app, Fanout.deliveries_app.
  rewrite (Fanout.deliveries_other_events _ _ notified)
    by (eapply Forall_impl; [exact Hevents|]; by intros e ->).
  destruct (existsb raises notified); cbn [existsb raises em_payload serializable negb orb].
  - unfold deliveries.
    cbn [flat_map em_event em_to em_payload serializable andb String.eqb Ascii.eqb Bool.eqb
           recipients app].
    done.
  - unfold deliveries.
    cbn [flat_map em_event em_to em_payload serializable andb String.eqb Ascii.eqb Bool.eqb
           recipients app].
    apply elem_of_app. left. apply elem_of_elements.
    unfold members_of, join_room. cbn [sio with_sio rooms]. rewrite lookup_insert_eq.
    cbn [default from_option id]. set_solver.
Qed.

(** Carol and Dave take no part in the chat of Alice and Bob. Carol joins
    its room. Alice's "hello" produces a notification for Bob, the emit
    raises and nobody is sent the message; Dave's "psst" produces none,
    and Carol is sent it. *)
Lemma joined_connection_hears_the_chat_witness :
  get_chat (db_manager Demo2.with_dave) Demo.c123 Demo2.carol = None
  ∧ get_chat (db_manager Demo2.with_dave) Demo.c123 Demo2.dave = None
  ∧ deliveries (sio (fst (handle_join_chat Demo2.with_dave "sidC" (Some Demo.c123))))
      "new_message"
      (snd (handle_send_message
              (fst (handle_join_chat Demo2.with_dave "sidC" (Some Demo.c123)))
              "sidA" Demo.hello 5)) = []
  ∧ "sidC" ∈ deliveries (sio (fst (handle_join_chat Demo2.with_dave "sidC" (Some Demo.c123))))
               "new_message"
               (snd (handle_send_message
                       (fst (handle_join_chat Demo2.with_dave "sidC" (Some Demo.c123)))
                       "sidD" Demo2.intrusion 6)).
Proof.
  split; [vm_compute; reflexivity|]. split; [vm_compute; reflexivity|].
  pose proof (joined_connection_hears_the_chat Demo2.with_dave "sidC" "sidA" Demo.hello 5
                Demo.c123 "hello" Demo2.carol Demo.alice
                (fst (create_message (db_manager Demo2.with_dave) Demo.c123 Demo.alice
                        "hello" "text" 5))
                (Message 1000 195 161 "hello" "text" 5 false false [])
                ltac:(vm_compute; reflexivity) ltac:(discriminate)
                ltac:(vm_compute; reflexivity) ltac:(reflexivity) ltac:(reflexivity)
                ltac:(discriminate) ltac:(vm_compute; reflexivity)) as Haborted.
  pose proof (joined_connection_hears_the_chat Demo2.with_dave "sidC" "sidD"
                Demo2.intrusion 6 Demo.c123 "psst" Demo2.carol Demo2.dave
                (fst (create_message (db_manager Demo2.with_dave) Demo.c123 Demo2.dave
                        "psst" "text" 6))
                (Message 1000 195 213 "psst" "text" 6 false false [])
                ltac:(vm_compute; reflexivity) ltac:(discriminate)
                ltac:(vm_compute; reflexivity) ltac:(reflexivity) ltac:(reflexivity)
                ltac:(discriminate) ltac:(vm_compute; reflexivity)) as Hheard.
  cbv zeta in Haborted, Hheard.
  assert (existsb raises
            (snd (handle_send_message
                    (fst (handle_join_chat Demo2.with_dave "sidC" (Some Demo.c123)))
                    "sidA" Demo.hello 5)) = true) as Hraised
    by (vm_compute; reflexivity).
  assert (existsb raises
            (snd (handle_send_message
                    (fst (handle_join_chat Demo2.with_dave "sidC" (Some Demo.c123)))
                    "sidD" Demo2.intrusion 6)) = false) as Hquiet
    by (vm_compute; reflexivity).
  rewrite Hraised in Haborted. rewrite Hquiet in Hheard. split; [exact Haborted | exact Hheard].
Defined.

(** X19. [handle_send_message] never checks that the sender takes part
    in the chat. A message from a user who is no participant, or to a
    chat that does not exist, is stored and sent out like any other; as
    [get_chat] finds nothing for that user, nobody is notified. *)
Theorem outsider_message_is_stored (w : world) (sid : string) (data : send_message_data)
    (now : N) (chat_id message_content user_profile_id : string) (c u : oid) :
  session w !! sid = Some user_profile_id →
  sm_chat_id data = Some chat_id →
  sm_message data = Some message_content →
  message_content ≠ "" →
  ObjectId chat_id = Some c →
  ObjectId user_profile_id = Some u →
  (∀ chat, chat ∈ chats (db_manager w) → ch_id chat = c → u ∉ ch_participants chat) →
  let w' := fst (handle_send_message w sid data now) in
  let message_type := default "text" (sm_type data) in
  let message_data :=
    MessageData (str (next_oid (db_manager w))) chat_id user_profile_id
      (display_name_of (get_user_profile (db_manager w) user_profile_id))
      message_content message_type now None in
  messages (db_manager w')
  = (messages (db_manager w)
     ++ [Message (next_oid (db_manager w)) c u message_content message_type now
                 false false []])%list
  ∧ notifications (db_manager w') = notifications (db_manager w)
  ∧ snd (handle_send_message w sid data now)
    = [Emit "new_message" (PMessage message_data) (Room chat_id (Some sid));
       Emit "new_message" (PMessage message_data) (Room sid None)].
Proof.
  intros Hsession Hchat Hmessage Hcontent Hc Hu Hout. cbv zeta.
  assert (chat_id ≠ "") as Hchat_ne by (by eapply Fanout.ObjectId_nonempty).
  unfold handle_send_message, send_message_with. rewrite Hchat, Hmessage.
  destruct (String.eqb_spec chat_id ""); [done|].
  destruct (String.eqb_spec message_content ""); [done|].
  cbn [orb]. rewrite Hsession. unfold create_message. rewrite Hc, Hu.
  cbv zeta. cbn [msg_id msg_timestamp].
  set (d2 := with_chats _ _).
  assert (get_chat d2 chat_id user_profile_id = None) as ->.
  { unfold get_chat. rewrite Hc, Hu.
    assert (find_one (λ ch, N.eqb (ch_id ch) c && existsb (N.eqb u) (ch_participants ch))
                     (chats d2) = None) as ->; [|done].
    subst d2. cbn [chats with_chats bump_oid with_messages].
    apply find_one_update_one_kept; [by intros []|].
    apply find_one_none. intros chat Hin.
    destruct (N.eqb_spec (ch_id chat) c) as [Heq|]; [|done]. cbn [andb].
    apply not_true_is_false. intros [x [Hx Heqx]]%existsb_exists.
    apply N.eqb_eq in Heqx. subst x.
    apply (Hout chat Hin Heq). by apply list_elem_of_In. }
  cbn [fst snd db_manager with_db app]. subst d2.
  cbn [messages notifications with_chats bump_oid with_messages user_profiles].
  split_and!; [done | done |].
  by assert (get_user_profile
               (with_chats (bump_oid (with_messages (db_manager w) _)) _) user_profile_id
             = get_user_profile (db_manager w) user_profile_id) as -> by done.
Qed.

Lemma outsider_message_is_stored_witness :
  List.length (messages (db_manager (fst (handle_send_message Demo2.with_carol "sidC"
                                            Demo2.intrusion 6)))) = 1
  ∧ notifications (db_manager (fst (handle_send_message Demo2.with_carol "sidC"
                                      Demo2.intrusion 6))) = [].
Proof.
  destruct (outsider_message_is_stored Demo2.with_carol "sidC" Demo2.intrusion 6
              Demo.c123 "psst" Demo2.carol 195%N 196%N) as (Hm & Hn & _);
    try discriminate; try (vm_compute; reflexivity).
  - intros chat Hin _. vm_compute in Hin.
    apply list_elem_of_singleton in Hin. subst chat. cbn [ch_participants].
    intros Hp. repeat (apply elem_of_cons in Hp as [Hp | Hp]; [discriminate Hp|]).
    by apply elem_of_nil in Hp.
  - split; [by rewrite Hm | by rewrite Hn].
Defined.

(** X20. The two definitions of [handle_send_message] in app.py leave the
    same state behind and deliver the same [new_message] and
    [message_error] copies: the notification loop of either raises at the
    same participant, and the two differ in the badge events only. *)
Theorem send_message_definitions_agree (w : world) (sid : string) (data : send_message_data)
    (now : N) (t : transport) :
  fst (handle_send_message_first w sid data now) = fst (handle_send_message w sid data now)
  ∧ deliveries t "new_message" (snd (handle_send_message_first w sid data now))
    = deliveries t "new_message" (snd (handle_send_message w sid data now))
  ∧ deliveries t "message_error" (snd (handle_send_message_first w sid data now))
    = deliveries t "message_error" (snd (handle_send_message w sid data now)).
Proof.
  unfold handle_send_message_first, handle_send_message, send_message_with.
  destruct (sm_chat_id data) as [chat_id|]; [|done].
  destruct (sm_message data) as [message_content|]; [|done].
  destruct (_ || _); [done|].
  destruct (session w !! sid) as [user_profile_id|]; [|done].
  destruct (create_message _ _ _ _ _ _) as [d1 [message|]]; [|done].
  destruct (get_chat d1 chat_id user_profile_id) as [chat|]; [|done].
  set (md := MessageData _ _ _ _ _ _ _ _).
  pose proof (Fanout.notify_participants_agree d1 md user_profile_id now
                (cv_participants chat)) as [Hdb Hraised].
  pose proof (Fanout.notify_participants_first_events d1 md user_profile_id now
                (cv_participants chat)) as Hfirst.
  pose proof (Fanout.notify_participants_events d1 md user_profile_id now
                (cv_participants chat)) as Hsecond.
  destruct (notify_participants_first _ _ _ _ _) as [[d2 out2] raised2].
  destruct (notify_participants _ _ _ _ _) as [[d3 out3] raised3].
  cbn [fst snd] in *. subst d3 raised3.
  assert (∀ event, event = "new_message" ∨ event = "message_error" →
            deliveries t event out2 = [] ∧ deliveries t event out3 = []) as Hnone.
  { intros event Hevent. split; apply Fanout.deliveries_other_events.
    - eapply Forall_impl; [exact Hfirst|]. intros e He. by destruct Hevent, He; congruence.
    - eapply Forall_impl; [exact Hsecond|]. intros e He. by destruct Hevent; congruence. }
  destruct raised2; cbn [fst snd]; (split; [done|]); rewrite !Fanout.deliveries_app;
    destruct (Hnone "new_message") as [-> ->]; try (by left);
    destruct (Hnone "message_error") as [-> ->]; try (by right); done.
Qed.

(** X21. A session with a profile that connects and disconnects again:
    while connected the connection is registered and the status is
    ['online'], and [user_online] goes to every live connection, the new
    one included; afterwards the register is as it was before, the
    status is ['offline'] and the profile's [last_seen] is the time of
    the disconnect. *)
Theorem connect_then_disconnect (w : world) (sid user_profile_id : string) (now1 now2 : N)
    (u : oid) (profile : profile_doc) :
  ObjectId user_profile_id = Some u →
  find_one (profile_by_id u) (user_profiles (db_manager w)) = Some profile →
  connected_clients w !! sid = None →
  let w1 := fst (connect w sid (Some user_profile_id) now1) in
  let w2 := fst (disconnect w1 sid now2) in
  connected_clients w1 !! sid = Some user_profile_id
  ∧ get_user_status (db_manager w1) user_profile_id = "online"
  ∧ deliveries (sio w1) "user_online" (snd (connect w sid (Some user_profile_id) now1))
    = elements ({[sid]} ∪ live (sio w))
  ∧ connected_clients w2 = connected_clients w
  ∧ get_user_status (db_manager w2) user_profile_id = "offline"
  ∧ pf_last_seen <$> find_one (profile_by_id u) (user_profiles (db_manager w2))
    = Some (Some now2).
Proof.
  intros Hu Hfind Hnew. cbv zeta.
  unfold connect, handle_connect. cbn [session]. rewrite lookup_insert_eq.
  cbn [fst snd db_manager connected_clients with_db with_connected_clients sio].
  assert (find_one (profile_by_id u)
            (user_profiles (fst (update_user_status (db_manager w) user_profile_id
                                   "online" now1)))
          = Some (set_status "online" now1 profile)) as Hon.
  { rewrite (PresenceFacts.status_after_update _ _ _ _ _ Hu), Hfind. done. }
  split_and!.
  - by rewrite lookup_insert_eq.
  - unfold get_user_status. rewrite Hu, Hon. done.
  - unfold deliveries. cbn [flat_map em_event em_to em_payload serializable andb String.eqb Ascii.eqb Bool.eqb
       recipients].
    rewrite app_nil_r. done.
  - unfold disconnect, handle_disconnect.
    cbn [connected_clients with_connected_clients with_db]. rewrite lookup_insert_eq.
    cbn [fst connected_clients with_connected_clients with_db].
    rewrite delete_insert_eq. by apply delete_id.
  - unfold disconnect, handle_disconnect.
    cbn [connected_clients with_connected_clients with_db]. rewrite lookup_insert_eq.
    cbn [fst db_manager with_connected_clients with_db].
    apply PresenceFacts.status_offline_after_update.
  - unfold disconnect, handle_disconnect.
    cbn [connected_clients with_connected_clients with_db]. rewrite lookup_insert_eq.
    cbn [fst db_manager with_connected_clients with_db].
    rewrite (PresenceFacts.status_after_update _ _ _ _ _ Hu), Hon. done.
Qed.

Lemma connect_then_disconnect_witness :
  get_user_status
    (db_manager (fst (disconnect (fst (connect Demo.demo_world "sidA" (Some Demo.alice) 1))
                        "sidA" 9))) Demo.alice = "offline"
  ∧ connected_clients
      (fst (disconnect (fst (connect Demo.demo_world "sidA" (Some Demo.alice) 1)) "sidA" 9))
    = ∅.
Proof.
  destruct (connect_then_disconnect Demo.demo_world "sidA" Demo.alice 1 9 161%N
              (Profile 161 "alice" (Some "A") None None None))
    as (_ & _ & _ & Hreg & Hoff & _); try (vm_compute; reflexivity).
  split; [exact Hoff | exact Hreg].
Defined.

End HandlerFacts.

(** ** Reactions *)

Module ReactionFacts.
Import Oid Coll CollMore Reactions.

Lemma by_message_and_user_other (m u m' u' : oid) (r : reaction_doc) :
  (m', u') ≠ (m, u) → by_message_and_user m u r = true → by_message_and_user m' u' r = false.
Proof.
  unfold by_message_and_user. intros Hne [Hm Hu]%andb_prop.
  apply N.eqb_eq in Hm, Hu. apply not_true_is_false. intros [Hm' Hu']%andb_prop.
  apply N.eqb_eq in Hm', Hu'. congruence.
Qed.

(** X22. On a collection with at most one reaction of each user to each
    message, [add_message_reaction] replaces the user's reaction: the
    user's reaction to the message is then the new emoji, there is still
    at most one reaction for each message and user, and the reactions of
    other users and to other messages are the same as before. *)
Theorem add_reaction_replaces (s : reactions) (message_id user_id emoji : string) (now : N)
    (m u : oid) :
  ObjectId message_id = Some m →
  ObjectId user_id = Some u →
  one_reaction_each s →
  let s' := fst (add_message_reaction s message_id user_id emoji now) in
  get_user_reaction s' message_id user_id = Some (emoji, now)
  ∧ one_reaction_each s'
  ∧ (∀ m' u', (m', u') ≠ (m, u) →
       List.filter (by_message_and_user m' u') (message_reactions s')
       = List.filter (by_message_and_user m' u') (message_reactions s)).
Proof.
  intros Hm Hu Hone. cbv zeta.
  unfold add_message_reaction, get_user_reaction. rewrite Hm, Hu.
  cbn [fst message_reactions].
  assert (List.filter (by_message_and_user m u)
            (delete_one (by_message_and_user m u) (message_reactions s)
             ++ [Reaction (rs_next_oid s) m u emoji now])%list
          = [Reaction (rs_next_oid s) m u emoji now]) as Hsame.
  { rewrite List.filter_app, UpdateMore.filter_delete_one_same by apply Hone.
    simpl. unfold by_message_and_user. cbn [rc_message_id rc_user_id].
    by rewrite !N.eqb_refl. }
  assert (∀ m' u', (m', u') ≠ (m, u) →
            List.filter (by_message_and_user m' u')
              (delete_one (by_message_and_user m u) (message_reactions s)
               ++ [Reaction (rs_next_oid s) m u emoji now])%list
            = List.filter (by_message_and_user m' u') (message_reactions s)) as Hother.
  { intros m' u' Hne.
    rewrite List.filter_app, UpdateMore.filter_delete_one_other
      by (intros r; by apply by_message_and_user_other).
    simpl. rewrite (by_message_and_user_other m u m' u') by
      (done || (unfold by_message_and_user; cbn [rc_message_id rc_user_id];
                by rewrite !N.eqb_refl)).
    by rewrite app_nil_r. }
  split_and!.
  - rewrite UpdateFacts.find_one_head_filter, Hsame. done.
  - intros m' u'. unfold count_documents. cbn [message_reactions].
    destruct (decide ((m', u') = (m, u))) as [[= -> ->] | Hne].
    + by rewrite Hsame.
    + rewrite Hother by done. apply Hone.
  - done.
Qed.

Lemma add_reaction_replaces_witness :
  get_user_reaction
    (fst (add_message_reaction Demo2.two_reactions Demo.hello_id Demo.bob "heart" 9))
    Demo.hello_id Demo.bob = Some ("heart", 9%N)
  ∧ List.length (message_reactions
                   (fst (add_message_reaction Demo2.two_reactions Demo.hello_id Demo.bob
                           "heart" 9))) = 2.
Proof.
  split; [|vm_compute; reflexivity].
  refine (proj1 (add_reaction_replaces Demo2.two_reactions Demo.hello_id Demo.bob "heart" 9
                   1000%N 178%N _ _ _)); try (vm_compute; reflexivity).
  intros m u. unfold count_documents, Demo2.two_reactions, by_message_and_user.
  cbn [message_reactions List.filter rc_message_id rc_user_id].
  destruct (N.eqb_spec 1000 m) as [<-|]; cbn [andb];
    [destruct (N.eqb_spec 178 u), (N.eqb_spec 161 u)|]; simpl; lia.
Defined.

(** X23. [remove_message_reaction] reports 1 when the user had reacted to
    the message and 0 otherwise; on a collection with at most one
    reaction of each user to each message the user has no reaction to
    that message afterwards, and the other reactions are as before. *)
Theorem remove_reaction_clears (s : reactions) (message_id user_id : string) (m u : oid) :
  ObjectId message_id = Some m →
  ObjectId user_id = Some u →
  one_reaction_each s →
  let s' := fst (remove_message_reaction s message_id user_id) in
  snd (remove_message_reaction s message_id user_id)
  = Some (match get_user_reaction s message_id user_id with Some _ => 1 | None => 0 end)
  ∧ get_user_reaction s' message_id user_id = None
  ∧ one_reaction_each s'
  ∧ (∀ m' u', (m', u') ≠ (m, u) →
       List.filter (by_message_and_user m' u') (message_reactions s')
       = List.filter (by_message_and_user m' u') (message_reactions s)).
Proof.
  intros Hm Hu Hone. cbv zeta.
  unfold remove_message_reaction, get_user_reaction. rewrite Hm, Hu.
  cbn [fst snd message_reactions].
  split_and!.
  - unfold deleted_one. rewrite UpdateMore.existsb_find_one.
    destruct (find_one _ _) as [r|]; [|done].
    by rewrite bool_decide_eq_true_2.
  - rewrite UpdateMore.find_one_delete_one_none by apply Hone. done.
  - intros m' u'. unfold count_documents. cbn [message_reactions].
    etransitivity; [apply UpdateMore.filter_delete_one_le | apply Hone].
  - intros m' u' Hne. apply UpdateMore.filter_delete_one_other.
    intros r. by apply by_message_and_user_other.
Qed.

Lemma remove_reaction_clears_witness :
  snd (remove_message_reaction Demo2.two_reactions Demo.hello_id Demo.bob) = Some 1
  ∧ get_user_reaction (fst (remove_message_reaction Demo2.two_reactions Demo.hello_id Demo.bob))
      Demo.hello_id Demo.alice = Some ("!", 7%N).
Proof.
  split; [|vm_compute; reflexivity].
  etransitivity.
  - refine (proj1 (remove_reaction_clears Demo2.two_reactions Demo.hello_id Demo.bob
                     1000%N 178%N _ _ _)); try (vm_compute; reflexivity).
    intros m u. unfold count_documents, Demo2.two_reactions, by_message_and_user.
    cbn [message_reactions List.filter rc_message_id rc_user_id].
    destruct (N.eqb_spec 1000 m) as [<-|]; cbn [andb];
      [destruct (N.eqb_spec 178 u), (N.eqb_spec 161 u)|]; simpl; lia.
  - vm_compute. reflexivity.
Defined.

End ReactionFacts.

(** ** Editing and deleting messages *)

Module EditingFacts.
Import Oid Coll CollMore DatabaseManager Editing.

Lemma with_content_again (c1 c2 : string) (e1 e2 d1 d2 : bool) (m : message_doc) :
  with_content c2 e2 d2 (with_content c1 e1 d1 m) = with_content c2 e2 d2 m.
Proof. done. Qed.

Lemma str_inj (a b : oid) : valid a → valid b → str a = str b → a = b.
Proof.
  intros Ha Hb Heq. apply OidFacts.ObjectId_str in Ha, Hb. rewrite Heq in Ha. congruence.
Qed.

(** An edit by the sender of a message that is not deleted. *)
Lemma update_message_step (st : message_store) (message_id sender_id new_content : string)
    (now : N) (m s : oid) (x : stored_message) :
  ObjectId message_id = Some m →
  ObjectId sender_id = Some s →
  find_one (stored_by_id m) (ms_messages st) = Some x →
  msg_sender_id (st_doc x) = s →
  msg_is_deleted (st_doc x) = false →
  update_message st message_id sender_id new_content now
  = (MessageStore
       (update_one (stored_by_id m) (set_edited x new_content now) (ms_messages st))
       (message_edits st
        ++ [EditRecord m (if negb (msg_is_edited (st_doc x)) then 1
                          else default 0 (st_edit_count x) + 1)
                       (msg_content (st_doc x)) new_content s now])%list
       (user_deleted_messages st),
     Succeeded "Message updated successfully" (Some (default 0 (st_edit_count x) + 1)))
  ∧ find_one (stored_by_id m)
      (update_one (stored_by_id m) (set_edited x new_content now) (ms_messages st))
    = Some (set_edited x new_content now x).
Proof.
  intros Hm Hs Hfind Hsender Hdeleted.
  unfold update_message. rewrite Hm, Hfind, Hs, Hsender, N.eqb_refl, Hdeleted.
  cbn [negb]. cbv zeta.
  assert (∀ y, stored_by_id_and_sender m s y = true → stored_by_id m y = true) as Himp.
  { unfold stored_by_id_and_sender, stored_by_id. by intros y [? _]%andb_prop. }
  assert (stored_by_id_and_sender m s x = true) as Hboth.
  { pose proof Hfind as [_ Hid]%CollFacts.find_one_Some.
    unfold stored_by_id_and_sender, stored_by_id in *. by rewrite Hid, Hsender, N.eqb_refl. }
  destruct (UpdateMore.first_match_refined (stored_by_id m) (stored_by_id_and_sender m s)
              (ms_messages st) x Himp Hfind Hboth) as [Hfirst Hupdate].
  unfold modified_one. rewrite Hfirst, Hupdate.
  destruct (decide (set_edited x new_content now x = x)) as [Heq|_].
  { exfalso. apply (f_equal st_edit_count) in Heq. cbn [set_edited st_edit_count] in Heq.
    destruct (st_edit_count x); simpl in Heq; [injection Heq; lia | done]. }
  split; [done|].
  rewrite UpdateFacts.find_one_update_one by (by intros []).
  by rewrite Hfind.
Qed.

Lemma last_cons_any {A : Type} (l : list A) (a d : A) : List.last (a :: l) d = List.last l a.
Proof.
  revert a d. induction l as [|b l IH]; intros a d; [done|].
  change (List.last (a :: b :: l) d) with (List.last (b :: l) d).
  by rewrite !IH.
Qed.

Lemma update_all_chain (more : list (string * N)) (st : message_store)
    (message_id sender_id : string) (first : string * N) (m s : oid) (x : stored_message)
    (n : nat) :
  ObjectId message_id = Some m →
  ObjectId sender_id = Some s →
  find_one (stored_by_id m) (ms_messages st) = Some x →
  msg_sender_id (st_doc x) = s →
  msg_is_deleted (st_doc x) = false →
  default 0 (st_edit_count x) = n →
  (msg_is_edited (st_doc x) = false → n = 0) →
  let st' := update_all st message_id sender_id (first :: more) in
  find_one (stored_by_id m) (ms_messages st')
  = Some (Stored (with_content (fst (List.last more first)) true false (st_doc x))
                 (Some (snd (List.last more first)))
                 (Some (n + S (List.length more)))
                 (if msg_is_edited (st_doc x) then st_original_content x
                  else Some (msg_content (st_doc x)))
                 (st_deleted_at x) (st_deleted_by x))
  ∧ message_edits st'
    = (message_edits st ++ history m s (S n) (msg_content (st_doc x)) (first :: more))%list
  ∧ user_deleted_messages st' = user_deleted_messages st.
Proof.
  revert st first x n.
  induction more as [|second more IH]; intros st [content now] x n Hm Hs Hfind Hsender
    Hdeleted Hcount Hfresh; cbv zeta;
    destruct (update_message_step st message_id sender_id content now m s x
                Hm Hs Hfind Hsender Hdeleted) as [Hstep Hfound].
  - cbn [update_all List.last fst snd List.length history]. rewrite Hstep.
    cbn [fst ms_messages message_edits user_deleted_messages]. rewrite Hfound.
    unfold set_edited. rewrite Hdeleted, Hcount.
    split; [|split; [|done]].
    + by destruct (msg_is_edited (st_doc x)).
    + do 3 f_equal. destruct (msg_is_edited (st_doc x)); [simpl; lia|].
      simpl. by rewrite Hfresh.
  - change (update_all st message_id sender_id ((content, now) :: second :: more))
      with (update_all (fst (update_message st message_id sender_id content now))
                       message_id sender_id (second :: more)).
    rewrite Hstep. cbn [fst].
    assert (default 0 (st_edit_count (set_edited x content now x)) = S n) as Hcount'.
    { cbn [set_edited st_edit_count default from_option id]. lia. }
    match goal with
    | |- context [update_all ?st1 _ _ _] =>
        destruct (IH st1 second (set_edited x content now x) (S n) Hm Hs Hfound
                    Hsender Hdeleted Hcount' ltac:(done)) as (Hlast & Hedits & Hgone)
    end.
    cbv zeta in Hlast, Hedits, Hgone. rewrite Hlast, Hedits, Hgone.
    cbn [ms_messages message_edits user_deleted_messages set_edited st_doc
         st_original_content st_deleted_at st_deleted_by with_content msg_is_edited
         msg_content]. rewrite last_cons_any.
    split; [|split; [|done]].
    + do 2 f_equal; [f_equal; cbn [List.length]; lia|].
      by destruct (msg_is_edited (st_doc x)).
    + rewrite <- app_assoc. do 2 f_equal. cbn [history app]. do 2 f_equal.
      destruct (msg_is_edited (st_doc x)); [simpl; lia|]. simpl. by rewrite Hfresh.
Qed.

(** X24. The edits of a message form a chain. After one or more calls of
    [update_message] by the sender of a message that was never edited,
    the message reads as the last edit says, its [edit_count] is the
    number of edits, its [original_content] is the text first sent, and
    [message_edits] has gained one record for each edit, numbered from 1,
    each starting from the text the edit before it left. *)
Theorem edits_form_a_chain (st : message_store) (message_id sender_id : string)
    (first : string * N) (more : list (string * N)) (m s : oid) (x : stored_message) :
  ObjectId message_id = Some m →
  ObjectId sender_id = Some s →
  find_one (stored_by_id m) (ms_messages st) = Some x →
  msg_sender_id (st_doc x) = s →
  msg_is_deleted (st_doc x) = false →
  msg_is_edited (st_doc x) = false →
  st_edit_count x = None →
  let st' := update_all st message_id sender_id (first :: more) in
  find_one (stored_by_id m) (ms_messages st')
  = Some (Stored (with_content (fst (List.last more first)) true false (st_doc x))
                 (Some (snd (List.last more first)))
                 (Some (S (List.length more)))
                 (Some (msg_content (st_doc x)))
                 (st_deleted_at x) (st_deleted_by x))
  ∧ message_edits st'
    = (message_edits st ++ history m s 1 (msg_content (st_doc x)) (first :: more))%list.
Proof.
  intros Hm Hs Hfind Hsender Hdeleted Hedited Hcount. cbv zeta.
  destruct (update_all_chain more st message_id sender_id first m s x 0
              Hm Hs Hfind Hsender Hdeleted) as (Hlast & Hedits & _).
  { by rewrite Hcount. }
  { done. }
  cbv zeta in Hlast, Hedits. rewrite Hlast, Hedits, Hedited. done.
Qed.

Lemma edits_form_a_chain_witness :
  message_edits (update_all Demo2.told Demo.hello_id Demo.alice
                   [("hullo", 7%N); ("hello!", 8%N)])
  = [EditRecord 1000 1 "hello" "hullo" 161 7; EditRecord 1000 2 "hullo" "hello!" 161 8].
Proof.
  etransitivity.
  - refine (proj2 (edits_form_a_chain Demo2.told Demo.hello_id Demo.alice ("hullo", 7%N)
                     [("hello!", 8%N)] 1000%N 161%N
                     (Stored (Message 1000 195 161 "hello" "text" 5 false false [])
                             None None None None None)
                     _ _ _ _ _ _ _)); vm_compute; reflexivity.
  - vm_compute. reflexivity.
Defined.

(** What either soft delete does to the collections, and its answer for
    a message that was not deleted yet. *)
Lemma soft_delete_step (not_authorized done_text : string) (by_user : bool)
    (st : message_store) (message_id sender_id : string) (now : N) (m s : oid)
    (x : stored_message) :
  ObjectId message_id = Some m →
  ObjectId sender_id = Some s →
  find_one (stored_by_id m) (ms_messages st) = Some x →
  msg_sender_id (st_doc x) = s →
  let set := set_deleted x now (if by_user then Some s else None) in
  fst (soft_delete not_authorized done_text by_user st message_id sender_id now)
  = MessageStore (update_one (stored_by_id m) set (ms_messages st))
                 (message_edits st) (user_deleted_messages st)
  ∧ find_one (stored_by_id m) (update_one (stored_by_id m) set (ms_messages st))
    = Some (set x)
  ∧ (msg_is_deleted (st_doc x) = false →
     snd (soft_delete not_authorized done_text by_user st message_id sender_id now)
     = Succeeded done_text None).
Proof.
  intros Hm Hs Hfind Hsender. cbv zeta.
  unfold soft_delete. rewrite Hm, Hfind, Hs, Hsender, N.eqb_refl.
  cbn [negb]. cbv zeta.
  assert (∀ y, stored_by_id_and_sender m s y = true → stored_by_id m y = true) as Himp.
  { unfold stored_by_id_and_sender, stored_by_id. by intros y [? _]%andb_prop. }
  assert (stored_by_id_and_sender m s x = true) as Hboth.
  { pose proof Hfind as [_ Hid]%CollFacts.find_one_Some.
    unfold stored_by_id_and_sender, stored_by_id in *. by rewrite Hid, Hsender, N.eqb_refl. }
  destruct (UpdateMore.first_match_refined (stored_by_id m) (stored_by_id_and_sender m s)
              (ms_messages st) x Himp Hfind Hboth) as [Hfirst Hupdate].
  unfold modified_one. rewrite Hfirst, Hupdate.
  split_and!.
  - by destruct (decide _).
  - rewrite UpdateFacts.find_one_update_one by (by intros []). by rewrite Hfind.
  - intros Hdeleted. destruct (decide _) as [Heq|_]; [|done].
    apply (f_equal (λ y, msg_is_deleted (st_doc y))) in Heq.
    cbn [set_deleted st_doc with_content msg_is_deleted] in Heq. congruence.
Qed.

(** X25. A message its sender has deleted, with [delete_message] or with
    [delete_message_for_everyone], reads ['This message was deleted'] and
    keeps the text it was first sent with in [original_content]; every
    later [update_message] of it by the sender is refused and changes
    nothing. *)
Theorem deleted_message_cannot_be_edited
    (delete : message_store → string → string → N → message_store * answer)
    (st : message_store) (message_id sender_id : string) (now : N) (m s : oid)
    (x : stored_message) :
  delete = delete_message ∨ delete = delete_message_for_everyone →
  ObjectId message_id = Some m →
  ObjectId sender_id = Some s →
  find_one (stored_by_id m) (ms_messages st) = Some x →
  msg_sender_id (st_doc x) = s →
  msg_is_deleted (st_doc x) = false →
  let st1 := fst (delete st message_id sender_id now) in
  (∃ text, snd (delete st message_id sender_id now) = Succeeded text None)
  ∧ (∃ x1, find_one (stored_by_id m) (ms_messages st1) = Some x1
           ∧ msg_content (st_doc x1) = "This message was deleted"
           ∧ msg_is_deleted (st_doc x1) = true
           ∧ st_original_content x1
             = Some (default (msg_content (st_doc x)) (st_original_content x)))
  ∧ (∀ new_content now',
       update_message st1 message_id sender_id new_content now'
       = (st1, Refused "Cannot edit deleted message")).
Proof.
  intros Hdelete Hm Hs Hfind Hsender Hdeleted. cbv zeta.
  assert (∃ not_authorized done_text by_user,
            delete = soft_delete not_authorized done_text by_user)
    as (not_authorized & done_text & by_user & ->).
  { destruct Hdelete as [-> | ->]; by eexists _, _, _. }
  destruct (soft_delete_step not_authorized done_text by_user st message_id sender_id now
              m s x Hm Hs Hfind Hsender) as (Hst & Hfound & Hanswer).
  rewrite Hst, (Hanswer Hdeleted). cbn [ms_messages].
  split_and!.
  - by eexists.
  - eexists. split; [exact Hfound | done].
  - intros new_content now'. unfold update_message. cbn [ms_messages].
    rewrite Hm, Hfound, Hs.
    cbn [set_deleted st_doc with_content msg_sender_id msg_is_deleted].
    by rewrite Hsender, N.eqb_refl.
Qed.

Lemma deleted_message_cannot_be_edited_witness :
  update_message (fst (delete_message Demo2.told Demo.hello_id Demo.alice 9))
                 Demo.hello_id Demo.alice "hello again" 10
  = (fst (delete_message Demo2.told Demo.hello_id Demo.alice 9),
     Refused "Cannot edit deleted message").
Proof.
  refine (proj2 (proj2 (deleted_message_cannot_be_edited delete_message Demo2.told
                          Demo.hello_id Demo.alice 9 1000%N 161%N
                          (Stored (Message 1000 195 161 "hello" "text" 5 false false [])
                                  None None None None None)
                          _ _ _ _ _ _)) "hello again" 10%N);
    [by left | vm_compute; reflexivity..].
Defined.

Lemma elem_of_upsert {A : Type} (q : A → bool) (document : A) (c : list A) :
  document ∈ upsert q document c.
Proof.
  unfold upsert. destruct (existsb q c) eqn:Hex.
  - apply existsb_exists in Hex as (x & Hx & Hq).
    destruct (Summary.update_one_hits q (λ _, document) c x) as (y & _ & _ & Hy);
      [by apply list_elem_of_In | done | done].
  - apply elem_of_app. right. left.
Qed.

Lemma filter_upsert_other {A : Type} (p q : A → bool) (document : A) (c : list A) :
  (∀ x, q x = true → p x = false) → p document = false →
  List.filter p (upsert q document c) = List.filter p c.
Proof.
  intros Hqp Hp. unfold upsert. destruct (existsb q c).
  - induction c as [|x c IH]; simpl; [done|].
    destruct (q x) eqn:Hq; simpl.
    + by rewrite Hp, (Hqp x Hq).
    + destruct (p x); by rewrite IH.
  - rewrite List.filter_app. simpl. rewrite Hp. apply app_nil_r.
Qed.

(** An entry of a listing comes from a stored message the user has not
    deleted for themself. *)
Lemma listed_elem (ids : list oid) (user_id : string) (u : oid) (y : stored_message)
    (entry : listed_message) :
  entry ∈ listed ids user_id u y →
  lm_id entry = str (msg_id (st_doc y))
  ∧ existsb (N.eqb (msg_id (st_doc y))) ids = false
  ∧ (msg_is_deleted (st_doc y) = true →
     lm_content entry = "This message was deleted"
     ∧ ∃ deleted_by, st_deleted_by y = Some deleted_by ∧ msg_sender_id (st_doc y) ≠ u).
Proof.
  unfold listed. destruct (existsb _ ids); [by intros ?%elem_of_nil|].
  destruct (msg_is_deleted (st_doc y)).
  - destruct (st_deleted_by y) as [deleted_by|]; [|by intros ?%elem_of_nil].
    destruct (negb (String.eqb _ _)); [|by intros ?%elem_of_nil].
    destruct (N.eqb_spec (msg_sender_id (st_doc y)) u); [by intros ?%elem_of_nil|].
    intros ->%list_elem_of_singleton. split_and!; [done | done |].
    intros _. split; [done|]. by eexists.
  - intros ->%list_elem_of_singleton. done.
Qed.

Lemma listing_elem (st : message_store) (chat_id user_id : string) (limit : nat)
    (entry : listed_message) :
  entry ∈ get_chat_messages_with_persistence st chat_id user_id limit →
  ∃ u y, ObjectId user_id = Some u ∧ y ∈ ms_messages st
         ∧ entry ∈ listed (List.map ud_message_id
                             (List.filter (λ x, N.eqb (ud_user_id x) u)
                                          (user_deleted_messages st)))
                          user_id u y.
Proof.
  unfold get_chat_messages_with_persistence.
  destruct (ObjectId chat_id) as [c|]; [|by intros ?%elem_of_nil].
  destruct (ObjectId user_id) as [u|]; [|by intros ?%elem_of_nil].
  intros (y & Hy & Hentry)%list_elem_of_In%in_flat_map.
  exists u, y. split_and!; [done | | by apply list_elem_of_In].
  apply list_elem_of_In, Listings.elem_of_limit in Hy.
  rewrite merge_sort_Permutation in Hy.
  apply list_elem_of_In, filter_In in Hy as [Hy _]. by apply list_elem_of_In.
Qed.

(** X26. [delete_message_for_user] hides a message from the user who
    asked and from nobody else: the message itself is not touched,
    [is_message_deleted_for_user] answers [True] for that user, no
    listing made for that user has an entry for it, and the listings
    made for every other user are the same as before. *)
Theorem deleted_for_one_user_only (st : message_store) (message_id user_id : string) (now : N)
    (m u : oid) (x : stored_message) :
  ObjectId message_id = Some m →
  ObjectId user_id = Some u →
  find_one (stored_by_id m) (ms_messages st) = Some x →
  ids_proper st →
  let st1 := fst (delete_message_for_user st message_id user_id now) in
  snd (delete_message_for_user st message_id user_id now)
  = Succeeded "Message deleted for you" None
  ∧ ms_messages st1 = ms_messages st
  ∧ is_message_deleted_for_user st1 message_id user_id = true
  ∧ (∀ chat_id limit entry,
       entry ∈ get_chat_messages_with_persistence st1 chat_id user_id limit →
       lm_id entry ≠ str m)
  ∧ (∀ chat_id other limit v,
       ObjectId other = Some v → v ≠ u →
       get_chat_messages_with_persistence st1 chat_id other limit
       = get_chat_messages_with_persistence st chat_id other limit).
Proof.
  intros Hm Hu Hfind [_ Hvalid]. cbv zeta.
  unfold delete_message_for_user. rewrite Hm, Hfind, Hu. cbn [fst snd ms_messages].
  set (document := UserDeleted u m now _ _ _).
  assert (deleted_for u m document = true) as Hdoc.
  { unfold deleted_for, document. cbn [ud_user_id ud_message_id]. by rewrite !N.eqb_refl. }
  pose proof (elem_of_upsert (deleted_for u m) document (user_deleted_messages st)) as Hin.
  split_and!; [done | done | | |].
  - unfold is_message_deleted_for_user. rewrite Hu, Hm. cbn [user_deleted_messages].
    rewrite <- UpdateMore.existsb_find_one. apply existsb_exists.
    exists document. split; [by apply list_elem_of_In | done].
  - intros chat_id limit entry (u' & y & Hu' & Hy & Hentry)%listing_elem Hid.
    rewrite Hu in Hu'. injection Hu' as <-.
    cbn [ms_messages user_deleted_messages] in Hy, Hentry.
    apply listed_elem in Hentry as (Hentry & Hnot & _).
    rewrite Hentry in Hid. apply str_inj in Hid;
      [| by apply Hvalid | by eapply OidFacts.ObjectId_valid].
    rewrite Hid in Hnot. apply not_true_iff_false in Hnot. apply Hnot.
    apply existsb_exists. exists m. split; [|by apply N.eqb_eq].
    apply in_map_iff. exists document. split; [done|].
    apply filter_In. split; [by apply list_elem_of_In|].
    unfold document. cbn [ud_user_id]. by apply N.eqb_eq.
  - intros chat_id other limit v Hv Hne.
    unfold get_chat_messages_with_persistence. rewrite Hv.
    cbn [ms_messages user_deleted_messages].
    rewrite filter_upsert_other; [done | |].
    + intros y [Hy _]%andb_prop. apply N.eqb_eq in Hy. rewrite Hy. by apply N.eqb_neq.
    + unfold document. cbn [ud_user_id]. by apply N.eqb_neq.
Qed.

Lemma told_ids_proper : ids_proper Demo2.told.
Proof.
  split.
  - apply (bool_decide_unpack _). vm_compute. reflexivity.
  - intros y Hy. unfold Demo2.told in Hy. cbn [ms_messages] in Hy.
    repeat (apply elem_of_cons in Hy as [-> | Hy]; [vm_compute; reflexivity|]).
    by apply elem_of_nil in Hy.
Defined.

Lemma deleted_for_one_user_only_witness :
  List.map lm_content
    (get_chat_messages_with_persistence
       (fst (delete_message_for_user Demo2.told Demo.hello_id Demo.bob 9))
       Demo.c123 Demo.alice 50)
  = ["hello"; "hi"]
  ∧ List.map lm_content
      (get_chat_messages_with_persistence
         (fst (delete_message_for_user Demo2.told Demo.hello_id Demo.bob 9))
         Demo.c123 Demo.bob 50)
    = ["hi"].
Proof.
  split; [|vm_compute; reflexivity].
  etransitivity.
  - apply (f_equal (List.map lm_content)).
    refine (proj2 (proj2 (proj2 (proj2
              (deleted_for_one_user_only Demo2.told Demo.hello_id Demo.bob 9 1000%N 178%N
                 (Stored (Message 1000 195 161 "hello" "text" 5 false false [])
                         None None None None None) _ _ _ told_ids_proper))))
              Demo.c123 Demo.alice 50 161%N _ _); try (vm_compute; reflexivity).
    discriminate.
  - vm_compute. reflexivity.
Defined.

Lemma update_one_by_id (f : stored_message → stored_message) (m : oid)
    (c : list stored_message) (x y : stored_message) :
  (∀ z, msg_id (st_doc (f z)) = msg_id (st_doc z)) →
  NoDup (List.map (λ z, msg_id (st_doc z)) c) →
  find_one (stored_by_id m) c = Some x →
  y ∈ update_one (stored_by_id m) f c → msg_id (st_doc y) = m → y = f x.
Proof.
  intros Hf. unfold find_one, stored_by_id.
  induction c as [|z c IH]; simpl; [done|].
  intros [Hz Hnodup]%NoDup_cons.
  destruct (N.eqb_spec (msg_id (st_doc z)) m) as [Heq|Hne].
  - intros [= ->] [-> | Hy]%elem_of_cons Hid; [done|].
    exfalso. apply Hz. rewrite Heq, <- Hid.
    apply list_elem_of_In, in_map_iff. exists y. split; [done | by apply list_elem_of_In].
  - intros Hfind [-> | Hy]%elem_of_cons Hid; [done|]. by apply IH.
Qed.

(** X27. After [delete_message] no listing has an entry for the message,
    for any user: nobody is shown a notice in its place. After
    [delete_message_for_everyone] an entry for the message, where a
    listing has one, carries the notice and not the text, and no listing
    made for the sender has one. (The message has no [deleted_by] from an
    earlier deletion.) *)
Theorem deleted_message_in_listings (st : message_store) (message_id sender_id : string)
    (now : N) (m s : oid) (x : stored_message) :
  ObjectId message_id = Some m →
  ObjectId sender_id = Some s →
  find_one (stored_by_id m) (ms_messages st) = Some x →
  msg_sender_id (st_doc x) = s →
  st_deleted_by x = None →
  ids_proper st →
  (∀ chat_id user_id limit entry,
     entry ∈ get_chat_messages_with_persistence
               (fst (delete_message st message_id sender_id now)) chat_id user_id limit →
     lm_id entry ≠ str m)
  ∧ (∀ chat_id user_id limit entry,
       entry ∈ get_chat_messages_with_persistence
                 (fst (delete_message_for_everyone st message_id sender_id now))
                 chat_id user_id limit →
       lm_id entry = str m →
       lm_content entry = "This message was deleted" ∧ ObjectId user_id ≠ Some s).
Proof.
  intros Hm Hs Hfind Hsender Hby [Hnodup Hvalid].
  assert (∀ by_user not_authorized done_text chat_id user_id limit entry,
            entry ∈ get_chat_messages_with_persistence
                      (fst (soft_delete not_authorized done_text by_user st message_id
                              sender_id now)) chat_id user_id limit →
            lm_id entry = str m →
            ∃ u, ObjectId user_id = Some u
                 ∧ entry ∈ listed (List.map ud_message_id
                                     (List.filter (λ z, N.eqb (ud_user_id z) u)
                                                  (user_deleted_messages st)))
                                  user_id u
                                  (set_deleted x now (if by_user then Some s else None) x))
    as Hentry.
  { intros by_user not_authorized done_text chat_id user_id limit entry Hin Hid.
    destruct (soft_delete_step not_authorized done_text by_user st message_id sender_id now
                m s x Hm Hs Hfind Hsender) as (Hst & _ & _).
    rewrite Hst in Hin. apply listing_elem in Hin as (u & y & Hu & Hy & Hin).
    cbn [ms_messages user_deleted_messages] in Hy, Hin.
    exists u. split; [done|].
    pose proof Hin as (Hlm & _ & _)%listed_elem. rewrite Hlm in Hid.
    assert (valid (msg_id (st_doc y))) as Hvy.
    { apply UpdateFacts.elem_of_update_one in Hy as [Hy | (z & Hz & ->)];
        [by apply Hvalid | by apply (Hvalid z)]. }
    apply str_inj in Hid; [| done | by eapply OidFacts.ObjectId_valid].
    by rewrite <- (update_one_by_id _ m (ms_messages st) x y). }
  split.
  - intros chat_id user_id limit entry Hin Hid.
    destruct (Hentry false _ _ _ _ _ _ Hin Hid) as (u & _ & Hlisted).
    apply listed_elem in Hlisted as (_ & _ & Hnotice).
    cbn [set_deleted st_doc with_content msg_is_deleted st_deleted_by] in Hnotice.
    destruct (Hnotice eq_refl) as (_ & deleted_by & Hsome & _). congruence.
  - intros chat_id user_id limit entry Hin Hid.
    destruct (Hentry true _ _ _ _ _ _ Hin Hid) as (u & Hu & Hlisted).
    apply listed_elem in Hlisted as (_ & _ & Hnotice).
    cbn [set_deleted st_doc with_content msg_is_deleted msg_sender_id] in Hnotice.
    destruct (Hnotice eq_refl) as (Hcontent & _ & _ & Hother).
    split; [done|]. congruence.
Qed.

Lemma deleted_message_in_listings_witness :
  List.map lm_content
    (get_chat_messages_with_persistence
       (fst (delete_message Demo2.told Demo.hello_id Demo.alice 9)) Demo.c123 Demo.bob 50)
  = ["hi"]
  ∧ List.map lm_content
      (get_chat_messages_with_persistence
         (fst (delete_message_for_everyone Demo2.told Demo.hello_id Demo.alice 9))
         Demo.c123 Demo.bob 50)
    = ["This message was deleted"; "hi"].
Proof.
  pose proof (deleted_message_in_listings Demo2.told Demo.hello_id Demo.alice 9 1000%N 161%N
                (Stored (Message 1000 195 161 "hello" "text" 5 false false [])
                        None None None None None)
                ltac:(vm_compute; reflexivity) ltac:(vm_compute; reflexivity)
                ltac:(vm_compute; reflexivity) ltac:(vm_compute; reflexivity)
                ltac:(vm_compute; reflexivity) told_ids_proper) as [_ Hnotice].
  split; vm_compute; reflexivity.
Defined.

End EditingFacts.

(** ** Creating chats *)

Module ChatFacts.
Import Oid Coll CollMore DatabaseManager DatabaseMore Chats.

Lemma find_one_app_last {A : Type} (q : A → bool) (c : list A) (x : A) :
  (∀ y, y ∈ c → q y = false) → q x = true → find_one q (c ++ [x]) = Some x.
Proof.
  unfold find_one. induction c as [|y c IH]; intros Hno Hx; simpl.
  - by rewrite Hx.
  - rewrite (Hno y) by left. apply IH; [|done]. intros z Hz. apply Hno. by right.
Qed.

Lemma object_ids_elem (user_ids : list string) (ids : list oid) (uid : string) :
  object_ids user_ids = Some ids → uid ∈ user_ids → ∃ o, ObjectId uid = Some o ∧ o ∈ ids.
Proof.
  intros Hids Hin. destruct (ObjectId uid) as [o|] eqn:Ho.
  - exists o. split; [done|]. by eapply StatusFacts.object_ids_spec.
  - assert (object_ids user_ids = None) as Hnone; [|congruence].
    apply StatusFacts.object_ids_None. by exists uid.
Qed.

(** X28. [create_chat] keeps at most one direct chat in the whole
    collection. Its search for an existing chat does not look at who the
    participants are: once there is a chat of two that is no group, every
    request for a direct chat of two users, whoever they are, is answered
    with that chat, and nothing is created. *)
Theorem one_direct_chat_for_all (st : chat_state) (participant_ids : list string)
    (chat_name : option string) (is_group : bool) (now : N) :
  count_documents direct (chats (cs_db st)) ≤ 1 →
  count_documents direct
    (chats (cs_db (fst (create_chat st participant_ids chat_name is_group now)))) ≤ 1
  ∧ (∀ a b pa pb existing_chat,
       participant_ids = [a; b] → is_group = false →
       ObjectId a = Some pa → ObjectId b = Some pb →
       find_one direct (chats (cs_db st)) = Some existing_chat →
       create_chat st participant_ids chat_name is_group now
       = (st, Some (ChatView (str (ch_id existing_chat))
                             (List.map str (ch_participants existing_chat))
                             (ch_is_group existing_chat) (ch_name existing_chat)))).
Proof.
  intros Hone. split.
  - unfold create_chat. destruct (object_ids participant_ids) as [participants|]; [|done].
    cbv zeta.
    destruct (negb is_group && Nat.eqb (List.length participants) 2) eqn:Hdirect.
    + destruct (find_one direct (chats (cs_db st))) as [existing_chat|] eqn:Hfind; [done|].
      cbn [fst cs_db chats bump_oid with_chats]. rewrite Badge.count_app_last.
      apply CollFacts.find_one_None in Hfind. unfold count_documents. rewrite Hfind.
      destruct (direct _); simpl; lia.
    + cbn [fst cs_db chats bump_oid with_chats]. rewrite Badge.count_app_last.
      assert (direct (Chat (next_oid (cs_db st)) participants (Some is_group)
                           (Some (name_of_chat (cs_db st) participants chat_name is_group))
                           None) = false) as ->; [|lia].
      unfold direct. cbn [ch_participants ch_is_group].
      destruct is_group; [by rewrite andb_false_r|].
      cbn [negb andb] in Hdirect. by rewrite Hdirect.
  - intros a b pa pb existing_chat -> -> Ha Hb Hfind.
    unfold create_chat. cbn [object_ids]. rewrite Ha, Hb. cbv zeta.
    cbn [negb andb List.length Nat.eqb]. by rewrite Hfind.
Qed.

Lemma one_direct_chat_for_all_witness :
  snd (create_chat Demo2.chatting [Demo.alice; Demo2.carol] None false 2)
  = Some (ChatView "0000000000000000000003e8" [Demo.alice; Demo.bob] (Some false) (Some "B")).
Proof.
  etransitivity.
  - apply (f_equal snd).
    refine (proj2 (one_direct_chat_for_all Demo2.chatting [Demo.alice; Demo2.carol] None
                     false 2 _)
              Demo.alice Demo2.carol 161%N 196%N
              (Chat 1000 [161; 178]%N (Some false) (Some "B") None) _ _ _ _ _);
      try reflexivity; vm_compute; reflexivity.
  - vm_compute. reflexivity.
Defined.

(** X29. A chat that [create_chat] creates (a group, or a direct chat
    when there is none yet) has the requested participants, and each of
    them finds it: [get_chat] with the returned id and the id of any
    participant answers with that chat and the same participants. *)
Theorem created_chat_is_found (st : chat_state) (participant_ids : list string)
    (chat_name : option string) (is_group : bool) (now : N) (participants : list oid)
    (participant_id : string) :
  object_ids participant_ids = Some participants →
  (negb is_group && Nat.eqb (List.length participants) 2 = true →
   find_one direct (chats (cs_db st)) = None) →
  next_chat_id_fresh (cs_db st) →
  participant_id ∈ participant_ids →
  let st' := fst (create_chat st participant_ids chat_name is_group now) in
  ∃ chat found,
    snd (create_chat st participant_ids chat_name is_group now) = Some chat
    ∧ cv_id chat = str (next_oid (cs_db st))
    ∧ cv_participants chat = List.map str participants
    ∧ get_chat (cs_db st') (cv_id chat) participant_id = Some found
    ∧ cv_id found = cv_id chat
    ∧ cv_participants found = cv_participants chat
    ∧ cv_is_group found = Some is_group.
Proof.
  intros Hids Hnone [Hvalid Hfresh] Hin. cbv zeta.
  destruct (object_ids_elem _ _ _ Hids Hin) as (u & Hu & Hmember).
  unfold create_chat. rewrite Hids. cbv zeta.
  assert ((if negb is_group && Nat.eqb (List.length participants) 2
           then find_one direct (chats (cs_db st)) else None) = None) as ->.
  { destruct (negb is_group && Nat.eqb (List.length participants) 2); [by apply Hnone | done]. }
  cbn [fst snd cs_db ch_id].
  set (chat := Chat (next_oid (cs_db st)) participants (Some is_group) _ None).
  assert (find_one (λ ch, N.eqb (ch_id ch) (next_oid (cs_db st))
                          && existsb (N.eqb u) (ch_participants ch))
                   (chats (cs_db st) ++ [chat])%list = Some chat) as Hfound.
  { apply find_one_app_last.
    - intros ch Hch. apply andb_false_iff. left. apply N.eqb_neq. by apply Hfresh.
    - unfold chat. cbn [ch_id ch_participants]. rewrite N.eqb_refl.
      by apply StatusFacts.existsb_eqb_elem. }
  eexists _, _. split_and!; [reflexivity | done | done | | | |].
  - cbn [cv_id]. unfold get_chat.
    rewrite (OidFacts.ObjectId_str _ Hvalid), Hu.
    cbn [chats bump_oid with_chats]. rewrite Hfound. reflexivity.
  - done.
  - done.
  - done.
Qed.

Lemma created_chat_is_found_witness :
  get_chat (cs_db Demo2.chatting) "0000000000000000000003e8" Demo.bob
  = Some (ChatView "0000000000000000000003e8" [Demo.alice; Demo.bob] (Some false) (Some "A")).
Proof.
  destruct (created_chat_is_found (ChatState Demo.demo_db ∅ ∅) [Demo.alice; Demo.bob] None
              false 1 [161; 178]%N Demo.bob) as (chat & found & _ & _ & _ & Hfound & _).
  - vm_compute. reflexivity.
  - intros _. vm_compute. reflexivity.
  - split; [vm_compute; reflexivity|].
    intros ch Hch. vm_compute in Hch. apply list_elem_of_singleton in Hch. by subst ch.
  - right. left.
  - vm_compute. reflexivity.
Defined.

End ChatFacts.

(** ** The kinds of files *)

Module FileFacts.
Import Files.

(** X30. A file name that [allowed_file] accepts is never put in the
    category ['other'], and the two descriptions [save_file] records of
    it agree: [get_file_category] of the name and [get_file_type] of its
    extension are ['images'] and ['image'], ['videos'] and ['video'],
    ['audio'] and ['audio'], or ['documents'] and ['document']. *)
Theorem accepted_file_has_one_kind (lower : string → string) (filename : string) :
  allowed_file lower filename = true →
  let category := get_file_category lower filename in
  let file_type := get_file_type (file_ext lower filename) in
  (category = "images" ∧ file_type = "image")
  ∨ (category = "videos" ∧ file_type = "video")
  ∨ (category = "audio" ∧ file_type = "audio")
  ∨ (category = "documents" ∧ file_type = "document").
Proof.
  cbv zeta. unfold allowed_file, get_file_category, file_ext, get_file_type.
  destruct (after_last_dot filename) as [ext|]; [|done].
  cbv zeta. unfold ALLOWED_EXTENSIONS, contains.
  cbn [flat_map snd List.find].
  rewrite app_nil_r, !existsb_app.
  destruct (existsb (String.eqb (lower ext)) ["png"; "jpg"; "jpeg"; "gif"; "bmp"; "webp"]);
    [intros _; by left|].
  destruct (existsb (String.eqb (lower ext))
              ["mp4"; "avi"; "mov"; "wmv"; "flv"; "webm"; "mkv"]);
    [intros _; right; by left|].
  destruct (existsb (String.eqb (lower ext)) ["mp3"; "wav"; "ogg"; "flac"; "aac"; "m4a"]);
    [intros _; right; right; by left|].
  destruct (existsb (String.eqb (lower ext))
              ["pdf"; "doc"; "docx"; "txt"; "rtf"; "xls"; "xlsx"; "ppt"; "pptx"; "csv"]);
    [intros _; right; right; by right|].
  intros Hnone. cbn in Hnone. discriminate Hnone.
Qed.

Lemma accepted_file_has_one_kind_witness :
  get_file_category lower_ascii "Holiday.Photo.JPG" = "images"
  ∧ get_file_type (file_ext lower_ascii "Holiday.Photo.JPG") = "image".
Proof.
  destruct (accepted_file_has_one_kind lower_ascii "Holiday.Photo.JPG")
    as [H | [[H _] | [[H _] | [H _]]]]; [vm_compute; reflexivity | exact H | ..];
    vm_compute in H; discriminate H.
Defined.

End FileFacts.
